(** * Contact-form handlers forwarding to the Telegram Bot API

    A shallow embedding of the four handler files of the repository

      - [src/telegram.js]                     (Netlify function, plain)
      - [src/netlify/functions/telegram.js]   (Netlify function, topic aware)
      - [src/api/telegram.js], first file     (Vercel function, CORS aware)
      - [src/api/telegram.js], second file    (Vercel function, plain)

    together with the helpers [escapeHtml], [formatTelegramMessage] and
    [sendTelegramMessage] they share, and the properties the specification
    states about them. *)

From Stdlib Require Import List NArith ZArith Bool Lia.
From Stdlib Require Import Strings.Byte.
Import ListNotations.
Open Scope N_scope.
Open Scope list_scope.

(** ** JavaScript strings

    A JavaScript string is a sequence of UTF-16 code units.  The literals of
    the source are written between double quotes; the notation reads the
    UTF-8 bytes of the literal and decodes them to code units. *)

Definition str := list N.

Inductive literal := Literal (units : str).

Fixpoint decode (s : list byte) : str :=
  match s with
  | [] => []
  | c :: r =>
    let b := Byte.to_N c in
    if b <? 128 then b :: decode r
    else
      match r with
      | [] => [65533]
      | c2 :: r2 =>
        let b2 := Byte.to_N c2 - 128 in
        if b <? 224 then ((b - 192) * 64 + b2) :: decode r2
        else
          match r2 with
          | [] => [65533]
          | c3 :: r3 =>
            let b3 := Byte.to_N c3 - 128 in
            if b <? 240 then ((b - 224) * 4096 + b2 * 64 + b3) :: decode r3
            else
              match r3 with
              | [] => [65533]
              | c4 :: r4 =>
                let b4 := Byte.to_N c4 - 128 in
                let v := (b - 240) * 262144 + b2 * 4096 + b3 * 64 + b4 - 65536 in
                (55296 + v / 1024) :: (56320 + v mod 1024) :: decode r4
              end
          end
      end
  end.

Definition bytesOf (units : list N) : option (list byte) :=
  fold_right
    (fun n rest =>
       match Byte.of_N n, rest with
       | Some b, Some bs => Some (b :: bs)
       | _, _ => None
       end)
    (Some []) units.

Fixpoint encode (s : str) : option (list byte) :=
  match s with
  | [] => Some []
  | c :: r =>
    let head :=
      if c <? 128 then bytesOf [c]
      else if c <? 2048 then bytesOf [192 + c / 64; 128 + c mod 64]
      else if (c <? 55296) || (57343 <? c)
           then bytesOf [224 + c / 4096; 128 + (c / 64) mod 64; 128 + c mod 64]
      else None in
    match head, encode r with
    | Some h, Some t => Some (h ++ t)
    | _, _ => None
    end
  end.

Definition readLiteral (s : list byte) : literal := Literal (decode s).
Definition showLiteral (l : literal) : option (list byte) := let (u) := l in encode u.

Declare Scope js_scope.
Delimit Scope js_scope with js.
String Notation literal readLiteral showLiteral : js_scope.
Open Scope js_scope.

Definition utf16 (l : literal) : str := let (u) := l in u.

Coercion utf16 : literal >-> str.

Fixpoint str_eqb (a b : str) : bool :=
  match a, b with
  | [], [] => true
  | x :: a', y :: b' => (x =? y) && str_eqb a' b'
  | _, _ => false
  end.

(** [s.startsWith(p)] and [s.includes(p)]. *)
Fixpoint startsWith (p s : str) : bool :=
  match p, s with
  | [], _ => true
  | x :: p', y :: s' => (x =? y) && startsWith p' s'
  | _ :: _, [] => false
  end.

Fixpoint includes (p s : str) : bool :=
  startsWith p s ||
  match s with
  | [] => false
  | _ :: s' => includes p s'
  end.

(** The code units matched by [\s] and stripped by [trim]: the WhiteSpace and
    LineTerminator code points of ECMAScript. *)
Definition isWhiteSpace (c : N) : bool :=
  existsb (N.eqb c)
    [9; 10; 11; 12; 13; 32; 160; 5760; 8232; 8233; 8239; 8287; 12288; 65279]
  || ((8192 <=? c) && (c <=? 8202)).

Fixpoint trimStart (s : str) : str :=
  match s with
  | [] => []
  | c :: r => if isWhiteSpace c then trimStart r else s
  end.

Definition trimEnd (s : str) : str := rev (trimStart (rev s)).

Definition trim (s : str) : str := trimEnd (trimStart s).

(** [s.replace(/c/g, r)] for a one-character pattern [c] and a replacement
    [r] without [$] patterns. *)
Definition replaceAll (c : N) (r : str) (s : str) : str :=
  flat_map (fun x => if x =? c then r else [x]) s.

(** *** Regular expressions of the shape used by the handlers

    An anchored sequence of atoms, each a character class taken once or
    one or more times. *)
Inductive atom :=
| One (p : N -> bool)
| Many1 (p : N -> bool).

Fixpoint regex_test (atoms : list atom) (s : str) : bool :=
  match atoms with
  | [] => match s with [] => true | _ :: _ => false end
  | One p :: rest =>
    match s with
    | [] => false
    | c :: s' => p c && regex_test rest s'
    end
  | Many1 p :: rest =>
    (fix many (s : str) : bool :=
       match s with
       | [] => false
       | c :: s' => p c && (many s' || regex_test rest s')
       end) s
  end.

(** [/^[^\s@]+@[^\s@]+\.[^\s@]+$/] *)
Definition notSpaceAt (c : N) : bool := negb (isWhiteSpace c || (c =? 64)).

Definition emailRegex : list atom :=
  [Many1 notSpaceAt; One (N.eqb 64); Many1 notSpaceAt; One (N.eqb 46); Many1 notSpaceAt].

(** ** JavaScript values

    Numbers are IEEE-754 doubles; the handlers never compute with them, they
    only coerce strings to numbers, test for NaN and for truthiness, and
    print them.  These operations are an interface of the runtime. *)
Class Numeric := {
  number : Type;
  (** [Number(s)] for a string [s] *)
  StringToNumber : str -> number;
  (** the global [isNaN] on a number *)
  isNaN : number -> bool;
  (** [+0], [-0] and [NaN] are the falsy numbers *)
  numberIsFalsy : number -> bool;
  (** [String(n)] *)
  NumberToString : number -> str;
}.

#[warning="-register-all"] Inductive value `{Numeric} :=
| VUndefined
| VNull
| VBool (b : bool)
| VNumber (n : number)
| VString (s : str)
| VArray (items : list value)
| VObject (props : list (str * value)).

(** What the engine raises by itself; the wording of the message is the
    engine's. *)
Inductive fault :=
| DestructureNullish
| ReadOfNullish (key : str)
| NotAFunction (callee : str)
| NotPrimitive.

Record error := { error_name : str; message : str }.

Inductive completion (A : Type) :=
| Normal (a : A)
| Throw (e : error).
Arguments Normal {A} a.
Arguments Throw {A} e.

Class Engine `{Numeric} := {
  fault_message : fault -> str;
  (** [JSON.parse(text)]: the parsed value, or the SyntaxError thrown *)
  JSON_parse : str -> completion value;
}.

Definition TypeError `{Engine} (f : fault) : error :=
  {| error_name := "TypeError"; message := fault_message f |}.

(** [new Error(message)] *)
Definition Error (msg : str) : error :=
  {| error_name := "Error"; message := msg |}.

Definition bind {A B} (c : completion A) (k : A -> completion B) : completion B :=
  match c with
  | Normal a => k a
  | Throw e => Throw e
  end.

Notation "'let?' x ':=' c 'in' k" := (bind c (fun x => k))
  (at level 10, x name, c at level 100, k at level 200).

Section Values.
Context `{Engine}.

(** ToBoolean *)
Definition truthy (v : value) : bool :=
  match v with
  | VUndefined | VNull => false
  | VBool b => b
  | VNumber n => negb (numberIsFalsy n)
  | VString s => match s with [] => false | _ :: _ => true end
  | VArray _ | VObject _ => true
  end.

Fixpoint lookup (k : str) (props : list (str * value)) : value :=
  match props with
  | [] => VUndefined
  | (k', v) :: rest => if str_eqb k k' then v else lookup k rest
  end.

Definition hasProperty (k : str) (props : list (str * value)) : bool :=
  existsb (fun p => str_eqb k (fst p)) props.

(** [base.key] for the keys the handlers read ([name], [email], [company],
    [message], [ok], [result], [message_id], [description], [error_code]):
    none of them is defined on a built-in prototype, so only an object can
    hold them; reading from [undefined] or [null] throws. *)
Definition Get (base : value) (key : str) : completion value :=
  match base with
  | VUndefined | VNull => Throw (TypeError (ReadOfNullish key))
  | VObject props => Normal (lookup key props)
  | _ => Normal VUndefined
  end.

(** ToString.  An object made by JSON.parse prints as [[object Object]]
    unless it has an own [toString] property, which is then not callable
    (and [valueOf] gives back the object): a TypeError.  Arrays print their
    elements joined by commas, [null] and [undefined] elements as nothing. *)
Fixpoint ToString (v : value) : completion str :=
  match v with
  | VUndefined => Normal (utf16 "undefined")
  | VNull => Normal (utf16 "null")
  | VBool true => Normal (utf16 "true")
  | VBool false => Normal (utf16 "false")
  | VNumber n => Normal (NumberToString n)
  | VString s => Normal s
  | VArray items =>
    (fix join (l : list value) : completion str :=
       match l with
       | [] => Normal []
       | x :: rest =>
         let? a := match x with
                   | VUndefined | VNull => Normal []
                   | _ => ToString x
                   end in
         match rest with
         | [] => Normal a
         | _ :: _ => let? b := join rest in Normal (a ++ utf16 "," ++ b)
         end
       end) items
  | VObject props =>
    if hasProperty "toString" props then Throw (TypeError NotPrimitive)
    else Normal (utf16 "[object Object]")
  end.

(** [receiver.method()] for a String.prototype method: only a string has
    it, on any other (truthy) value the call is a TypeError. *)
Definition callStringMethod {A} (callee : str) (method : str -> A) (receiver : value)
  : completion A :=
  match receiver with
  | VString s => Normal (method s)
  | VUndefined | VNull => Throw (TypeError (ReadOfNullish callee))
  | _ => Throw (TypeError (NotAFunction callee))
  end.

(** [regex.test(v)] coerces its argument to a string. *)
Definition test (re : list atom) (v : value) : completion bool :=
  let? s := ToString v in Normal (regex_test re s).

(** *** escapeHtml

    A falsy argument gives the empty string; otherwise the argument is
    coerced to a string and the five global replacements are applied in the
    order of the source: ampersand, less-than, greater-than, double quote,
    single quote.  The four files carry the same text of it. *)
Definition escapeString (s : str) : str :=
  replaceAll 39 "&#039;"
    (replaceAll 34 "&quot;"
       (replaceAll 62 "&gt;"
          (replaceAll 60 "&lt;"
             (replaceAll 38 "&amp;" s)))).

Definition escapeHtml (text : value) : completion str :=
  if negb (truthy text) then Normal []
  else let? s := ToString text in Normal (escapeString s).

(** *** formatTelegramMessage

    [dateTime] is what [new Date().toLocaleString('ru-RU', ...)] gives at
    the time of the call.  The four files carry the same text of it. *)
Definition nl : str := [10].

Definition title : str := utf16 "🎯 <b>Новая заявка с сайта Кассиопея AI</b>" ++ nl ++ nl.
Definition nameLabel : str := "👤 <b>Имя:</b> ".
Definition emailLabel : str := "📧 <b>Email:</b> ".
Definition companyLabel : str := "🏢 <b>Компания:</b> ".
Definition messageLabel : str := nl ++ utf16 "💬 <b>Сообщение:</b>" ++ nl.
Definition sentLabel : str := "📅 <b>Отправлено:</b> ".

Definition formatTelegramMessage (dateTime : str) (name email company message : value)
  : completion str :=
  let formattedMessage := title in
  let? n := escapeHtml name in
  let formattedMessage := formattedMessage ++ nameLabel ++ n ++ nl in
  let? e := escapeHtml email in
  let formattedMessage := formattedMessage ++ emailLabel ++ e ++ nl in
  let? formattedMessage :=
    if truthy company then
      let? t := callStringMethod "company.trim" trim company in
      if truthy (VString t) then
        let? c := escapeHtml company in
        Normal (formattedMessage ++ companyLabel ++ c ++ nl)
      else Normal formattedMessage
    else Normal formattedMessage in
  let? m := escapeHtml message in
  let formattedMessage := formattedMessage ++ messageLabel ++ m ++ nl ++ nl in
  Normal (formattedMessage ++ sentLabel ++ dateTime).

End Values.

(** ** One invocation: environment, network, trace

    What an invocation reads from outside is gathered in a [World]: the
    process environment, the answer of the network to an outbound request
    (the parsed JSON body of the reply, or the rejection of [fetch] or of
    [response.json()]), and the rendering of the clock.  What it does to the
    outside is recorded as a trace of events.

    Of a call of [console.log], [console.warn] or [console.error] the trace
    keeps the stream and the first argument; the further arguments are
    evaluated where they can throw, and not recorded. *)
Inductive stream := ConsoleLog | ConsoleWarn | ConsoleError.

Inductive event `{Numeric} :=
| Console (to : stream) (label : str)
| Fetch (url : str) (requestBody : list (str * value)).

Record World `{Numeric} := {
  env : str -> option str;
  fetch : str -> list (str * value) -> completion value;
  dateTime : str;
}.

Record response `{Numeric} := {
  statusCode : N;
  headers : list (str * str);
  body : option (list (str * value));
}.

Definition M `{Numeric} (A : Type) : Type := list event -> completion A * list event.

Definition ret `{Numeric} {A} (a : A) : M A := fun t => (Normal a, t).

Definition bindM `{Numeric} {A B} (m : M A) (k : A -> M B) : M B :=
  fun t =>
    match m t with
    | (Normal a, t') => k a t'
    | (Throw e, t') => (Throw e, t')
    end.

Definition lift `{Numeric} {A} (c : completion A) : M A := fun t => (c, t).

Definition throw `{Numeric} {A} (e : error) : M A := fun t => (Throw e, t).

Definition emit `{Numeric} (e : event) : M unit := fun t => (Normal tt, t ++ [e]).

(** [try { block } catch (error) { handler }] *)
Definition try_catch `{Numeric} {A} (block : M A) (handler : error -> M A) : M A :=
  fun t =>
    match block t with
    | (Normal a, t') => (Normal a, t')
    | (Throw e, t') => handler e t'
    end.

Notation "'let*' x ':=' m 'in' k" := (bindM m (fun x => k))
  (at level 10, x name, m at level 100, k at level 200).
Notation "m ';;' k" := (bindM m (fun _ => k))
  (at level 100, k at level 200, right associativity).

Section Runtime.
Context `{Engine}.
Variable w : World.

Definition console (to : stream) (label : str) : M unit := emit (Console to label).

(** [process.env.KEY]: a string or [undefined]. *)
Definition process_env (key : str) : value :=
  match env w key with
  | Some s => VString s
  | None => VUndefined
  end.

(** [Number(v)] of a value read from the environment; [Number(undefined)]
    is the number [Number("undefined")] is, NaN. *)
Definition Number (v : value) : number :=
  match v with
  | VString s => StringToNumber s
  | _ => StringToNumber "undefined"
  end.

(** [a === 'literal'] *)
Definition strictEqualsString (v : value) (lit : str) : bool :=
  match v with
  | VString s => str_eqb s lit
  | _ => false
  end.

(** [a || b] *)
Definition or_else (a b : value) : value := if truthy a then a else b.

(** The properties [JSON.stringify] and [res.json] write for an object
    literal: those whose value is not [undefined].  A response body is kept
    as this list rather than as text. *)
Definition isUndefined (v : value) : bool :=
  match v with
  | VUndefined => true
  | _ => false
  end.

Definition json (props : list (str * value)) : option (list (str * value)) :=
  Some (filter (fun p => negb (isUndefined (snd p))) props).

(** [const { ... } = v] throws on [undefined] and [null] before any
    property is read. *)
Definition RequireObjectCoercible (v : value) : completion unit :=
  match v with
  | VUndefined | VNull => Throw (TypeError DestructureNullish)
  | _ => Normal tt
  end.

(** [await fetch(url, { method: 'POST', headers, body: JSON.stringify(requestBody) })]
    followed by [await response.json()]. *)
Definition fetch_json (url : str) (requestBody : list (str * value)) : M value :=
  emit (Fetch url requestBody) ;; lift (fetch w url requestBody).

Definition sendMessageUrl (botToken : value) : completion str :=
  let? token := ToString botToken in
  Normal (utf16 "https://api.telegram.org/bot" ++ token ++ utf16 "/sendMessage").

Definition missingFields : str := "Missing required fields: name, email, message".
Definition invalidEmail : str := "Invalid email format".
Definition sentOk : str := "Telegram notification sent successfully".
Definition sendFailed : str := "Failed to send Telegram notification".

(** *** The end of the handler in the three files without CORS

    [src/telegram.js], [src/netlify/functions/telegram.js] and the second
    file of [src/api/telegram.js] build their answers alike (an object with
    [statusCode] and a [JSON.stringify]-ed [body], or
    [res.status(..).json(..)]), and carry the same text for what follows the
    call of [sendTelegramMessage] and for the [catch] block. *)
Definition respond (status : N) (props : list (str * value)) : response :=
  {| statusCode := status; headers := []; body := json props |}.

(** [if (telegramResponse.ok) { return 200 ... } else { throw new Error(...) }] *)
Definition report (telegramResponse : value) : M response :=
  let* ok := lift (Get telegramResponse "ok") in
  if truthy ok then
    let* result := lift (Get telegramResponse "result") in
    let* message_id := lift (Get result "message_id") in
    ret (respond 200
           [(utf16 "success", VBool true);
            (utf16 "message", VString sentOk);
            (utf16 "messageId", message_id)])
  else
    let* description := lift (Get telegramResponse "description") in
    let* shown := lift (ToString (or_else description (VString "Unknown error"))) in
    throw (Error (utf16 "Telegram API error: " ++ shown)).

(** [catch (error) { console.error(...); return 500 ... }] *)
Definition failure (error : error) : M response :=
  console ConsoleError "Error sending Telegram notification:" ;;
  ret (respond 500
         [(utf16 "success", VBool false);
          (utf16 "error", VString sendFailed);
          (utf16 "details",
           if strictEqualsString (process_env "NODE_ENV") "development"
           then VString (message error) else VUndefined)]).

End Runtime.

(** ** src/telegram.js: Netlify function *)
Module NetlifyPlain.
Section Handler.
Context `{Engine}.
Variable w : World.

Record Event := { httpMethod : str; event_body : value }.

Definition sendTelegramMessage (botToken chatId : value) (text : str) : M value :=
  let* url := lift (sendMessageUrl botToken) in
  fetch_json w url
    [(utf16 "chat_id", chatId);
     (utf16 "text", VString text);
     (utf16 "parse_mode", VString "HTML");
     (utf16 "disable_web_page_preview", VBool true)].

Definition handler (event : Event) : M response :=
  if negb (str_eqb (httpMethod event) "POST") then
    ret (respond 405
           [(utf16 "success", VBool false);
            (utf16 "error", VString "Method not allowed. Use POST.")])
  else
    try_catch
      (let* text := lift (ToString (event_body event)) in
       let* body := lift (JSON_parse text) in
       lift (RequireObjectCoercible body) ;;
       let* name := lift (Get body "name") in
       let* email := lift (Get body "email") in
       let* company := lift (Get body "company") in
       let* message := lift (Get body "message") in
       if negb (truthy name) || negb (truthy email) || negb (truthy message) then
         ret (respond 400
                [(utf16 "success", VBool false);
                 (utf16 "error", VString missingFields)])
       else
         let* matched := lift (test emailRegex email) in
         if negb matched then
           ret (respond 400
                  [(utf16 "success", VBool false);
                   (utf16 "error", VString invalidEmail)])
         else
           let BOT_TOKEN := process_env w "TELEGRAM_BOT_TOKEN" in
           let CHAT_ID := process_env w "TELEGRAM_CHAT_ID" in
           if negb (truthy BOT_TOKEN) || negb (truthy CHAT_ID) then
             console ConsoleError "Telegram configuration missing" ;;
             ret (respond 500
                    [(utf16 "success", VBool false);
                     (utf16 "error", VString "Telegram bot not configured")])
           else
             let* telegramMessage :=
               lift (formatTelegramMessage (dateTime w) name email company message) in
             let* telegramResponse :=
               sendTelegramMessage BOT_TOKEN CHAT_ID telegramMessage in
             report telegramResponse)
      (failure w).

End Handler.
End NetlifyPlain.

(** ** src/netlify/functions/telegram.js: Netlify function with forum topics *)
Module NetlifyTopic.
Section Handler.
Context `{Engine}.
Variable w : World.

Record Event := { httpMethod : str; event_body : value }.

(** [topicId] is [null] ([None]) or a number. *)
Definition sendTelegramMessage (botToken chatId : value) (text : str)
    (topicId : option number) : M value :=
  let* url := lift (sendMessageUrl botToken) in
  let requestBody :=
    [(utf16 "chat_id", chatId);
     (utf16 "text", VString text);
     (utf16 "parse_mode", VString "HTML");
     (utf16 "disable_web_page_preview", VBool true)] in
  let requestBody :=
    match topicId with
    | Some n =>
      if negb (isNaN n) then requestBody ++ [(utf16 "message_thread_id", VNumber n)]
      else requestBody
    | None => requestBody
    end in
  fetch_json w url requestBody.

Definition handler (event : Event) : M response :=
  if negb (str_eqb (httpMethod event) "POST") then
    ret (respond 405
           [(utf16 "success", VBool false);
            (utf16 "error", VString "Method not allowed. Use POST.")])
  else
    try_catch
      (let* text := lift (ToString (event_body event)) in
       let* body := lift (JSON_parse text) in
       lift (RequireObjectCoercible body) ;;
       let* name := lift (Get body "name") in
       let* email := lift (Get body "email") in
       let* company := lift (Get body "company") in
       let* message := lift (Get body "message") in
       if negb (truthy name) || negb (truthy email) || negb (truthy message) then
         ret (respond 400
                [(utf16 "success", VBool false);
                 (utf16 "error", VString missingFields)])
       else
         let* matched := lift (test emailRegex email) in
         if negb matched then
           ret (respond 400
                  [(utf16 "success", VBool false);
                   (utf16 "error", VString invalidEmail)])
         else
           let BOT_TOKEN := process_env w "TELEGRAM_BOT_TOKEN" in
           let CHAT_ID := process_env w "TELEGRAM_CHAT_ID" in
           let TOPIC_ID := process_env w "TELEGRAM_TOPIC_ID" in
           if negb (truthy BOT_TOKEN) || negb (truthy CHAT_ID) then
             console ConsoleError "Telegram configuration missing" ;;
             ret (respond 500
                    [(utf16 "success", VBool false);
                     (utf16 "error", VString "Telegram bot not configured")])
           else
             let* topicIdNum :=
               if truthy TOPIC_ID then
                 let topicIdNum := Number TOPIC_ID in
                 if isNaN topicIdNum then
                   console ConsoleWarn "Invalid TOPIC_ID format, will send to general chat" ;;
                   ret None
                 else ret (Some topicIdNum)
               else ret None in
             let* telegramMessage :=
               lift (formatTelegramMessage (dateTime w) name email company message) in
             let* telegramResponse :=
               sendTelegramMessage BOT_TOKEN CHAT_ID telegramMessage topicIdNum in
             report telegramResponse)
      (failure w).

End Handler.
End NetlifyTopic.

(** ** src/api/telegram.js, second file: Vercel function

    The platform hands over [req.body] already parsed (or as it came). *)
Module VercelPlain.
Section Handler.
Context `{Engine}.
Variable w : World.

Record Request := { method : str; req_body : value }.

Definition notConfigured : str :=
  "Telegram bot not configured. Please set TELEGRAM_BOT_TOKEN and TELEGRAM_CHAT_ID environment variables.".

Definition sendTelegramMessage (botToken chatId : value) (text : str) : M value :=
  let* url := lift (sendMessageUrl botToken) in
  fetch_json w url
    [(utf16 "chat_id", chatId);
     (utf16 "text", VString text);
     (utf16 "parse_mode", VString "HTML");
     (utf16 "disable_web_page_preview", VBool true)].

Definition handler (req : Request) : M response :=
  if negb (str_eqb (method req) "POST") then
    ret (respond 405
           [(utf16 "success", VBool false);
            (utf16 "error", VString "Method not allowed. Use POST.")])
  else
    try_catch
      (let body := req_body req in
       lift (RequireObjectCoercible body) ;;
       let* name := lift (Get body "name") in
       let* email := lift (Get body "email") in
       let* company := lift (Get body "company") in
       let* message := lift (Get body "message") in
       if negb (truthy name) || negb (truthy email) || negb (truthy message) then
         ret (respond 400
                [(utf16 "success", VBool false);
                 (utf16 "error", VString missingFields)])
       else
         let* matched := lift (test emailRegex email) in
         if negb matched then
           ret (respond 400
                  [(utf16 "success", VBool false);
                   (utf16 "error", VString invalidEmail)])
         else
           let BOT_TOKEN := process_env w "TELEGRAM_BOT_TOKEN" in
           let CHAT_ID := process_env w "TELEGRAM_CHAT_ID" in
           if negb (truthy BOT_TOKEN) || negb (truthy CHAT_ID) then
             console ConsoleError "Telegram configuration missing" ;;
             ret (respond 500
                    [(utf16 "success", VBool false);
                     (utf16 "error", VString notConfigured)])
           else
             let* telegramMessage :=
               lift (formatTelegramMessage (dateTime w) name email company message) in
             let* telegramResponse :=
               sendTelegramMessage BOT_TOKEN CHAT_ID telegramMessage in
             report telegramResponse)
      (failure w).

End Handler.
End VercelPlain.

(** ** src/api/telegram.js, first file: Vercel function with CORS and logging *)
Module VercelCors.
Section Handler.
Context `{Engine}.
Variable w : World.

Record Request := {
  method : str;
  url : str;
  req_headers : str -> option str;
  req_body : value;
}.

(** The four [res.setHeader] calls made before the method is looked at. *)
Definition corsHeaders : list (str * str) :=
  [(utf16 "Access-Control-Allow-Origin", utf16 "*");
   (utf16 "Access-Control-Allow-Methods", utf16 "POST, OPTIONS");
   (utf16 "Access-Control-Allow-Headers", utf16 "Content-Type, Authorization");
   (utf16 "Access-Control-Max-Age", utf16 "86400")].

(** [res.status(status).json(props)] *)
Definition respond (status : N) (props : list (str * value)) : response :=
  {| statusCode := status; headers := corsHeaders; body := json props |}.

(** [res.status(status).end()] *)
Definition respond_end (status : N) : response :=
  {| statusCode := status; headers := corsHeaders; body := None |}.

Definition notConfigured : str :=
  "Telegram bot not configured. Please set TELEGRAM_BOT_TOKEN and TELEGRAM_CHAT_ID environment variables.".

(** [s.substring(from, to)] for [from <= to] *)
Definition substring (from to : nat) (s : str) : str := firstn (to - from) (skipn from s).

Definition sendTelegramMessage (botToken chatId : value) (text : str) : M value :=
  let* url := lift (sendMessageUrl botToken) in
  console ConsoleLog "📡 Calling Telegram Bot API..." ;;
  console ConsoleLog "- URL:" ;;
  console ConsoleLog "- Chat ID:" ;;
  console ConsoleLog "- Message length:" ;;
  let requestBody :=
    [(utf16 "chat_id", chatId);
     (utf16 "text", VString text);
     (utf16 "parse_mode", VString "HTML");
     (utf16 "disable_web_page_preview", VBool true)] in
  console ConsoleLog "📤 Request body (chat_id only):" ;;
  try_catch
    (let* responseData := fetch_json w url requestBody in
     console ConsoleLog "📥 Telegram API raw response:" ;;
     console ConsoleLog "- Status:" ;;
     console ConsoleLog "- Status text:" ;;
     console ConsoleLog "- Response data:" ;;
     ret responseData)
    (fun fetchError =>
       console ConsoleError "❌ Fetch error:" ;;
       throw (Error (utf16 "Failed to call Telegram API: " ++ message fetchError))).

(** What follows the call of [sendTelegramMessage]. *)
Definition report (telegramResponse : value) : M response :=
  let* ok := lift (Get telegramResponse "ok") in
  console ConsoleLog "- ok:" ;;
  let* error_code := lift (Get telegramResponse "error_code") in
  console ConsoleLog "- error_code:" ;;
  let* description := lift (Get telegramResponse "description") in
  console ConsoleLog "- description:" ;;
  if truthy ok then
    console ConsoleLog "✅ Telegram message sent successfully!" ;;
    let* result := lift (Get telegramResponse "result") in
    let* message_id := lift (Get result "message_id") in
    console ConsoleLog "- Message ID:" ;;
    ret (respond 200
           [(utf16 "success", VBool true);
            (utf16 "message", VString sentOk);
            (utf16 "messageId", message_id)])
  else
    let* code := lift (ToString (or_else error_code (VString "unknown"))) in
    let* shown := lift (ToString (or_else description (VString "Unknown error"))) in
    let errorMsg := utf16 "Telegram API error: " ++ code ++ utf16 " - " ++ shown in
    console ConsoleError "❌ Telegram API error:" ;;
    throw (Error errorMsg).

(** The [catch] block.  No error raised in this file carries a [code]
    property, so [errorCode: error.code] is always [undefined]. *)
Definition failure (error : error) : M response :=
  console ConsoleError "❌ Error sending Telegram notification:" ;;
  console ConsoleError "Error name:" ;;
  console ConsoleError "Error message:" ;;
  console ConsoleError "Error stack:" ;;
  ret (respond 500
         [(utf16 "success", VBool false);
          (utf16 "error", VString sendFailed);
          (utf16 "details", or_else (VString (message error)) (VString "Unknown error"));
          (utf16 "errorCode", VUndefined)]).

(** The handler from the destructuring of the body on. *)
Definition process (body : value) : M response :=
  let source := or_else body (VObject []) in
  lift (RequireObjectCoercible source) ;;
  let* name := lift (Get source "name") in
  let* email := lift (Get source "email") in
  let* company := lift (Get source "company") in
  let* message := lift (Get source "message") in
  if negb (truthy name) || negb (truthy email) || negb (truthy message) then
    ret (respond 400
           [(utf16 "success", VBool false);
            (utf16 "error", VString missingFields)])
  else
    let* matched := lift (test emailRegex email) in
    if negb matched then
      ret (respond 400
             [(utf16 "success", VBool false);
              (utf16 "error", VString invalidEmail)])
    else
      let BOT_TOKEN := process_env w "TELEGRAM_BOT_TOKEN" in
      let CHAT_ID := process_env w "TELEGRAM_CHAT_ID" in
      console ConsoleLog "Telegram configuration check:" ;;
      console ConsoleLog "- BOT_TOKEN exists:" ;;
      console ConsoleLog "- BOT_TOKEN length:" ;;
      console ConsoleLog "- CHAT_ID exists:" ;;
      console ConsoleLog "- CHAT_ID value:" ;;
      if negb (truthy BOT_TOKEN) || negb (truthy CHAT_ID) then
        console ConsoleError "❌ Telegram configuration missing" ;;
        console ConsoleError "- BOT_TOKEN:" ;;
        console ConsoleError "- CHAT_ID:" ;;
        ret (respond 500
               [(utf16 "success", VBool false);
                (utf16 "error", VString notConfigured)])
      else
        let chatIdNum := Number CHAT_ID in
        if isNaN chatIdNum then
          console ConsoleError "❌ Invalid CHAT_ID format:" ;;
          ret (respond 500
                 [(utf16 "success", VBool false);
                  (utf16 "error", VString "Invalid CHAT_ID format. Must be a number.")])
        else
          console ConsoleLog "✅ Configuration valid" ;;
          (* the arguments of the next log call: name.substring(0, 20),
             email.substring(0, 20), company ? company.substring(0, 20) : ...,
             message.length *)
          lift (callStringMethod "name.substring" (substring 0 20) name) ;;
          lift (callStringMethod "email.substring" (substring 0 20) email) ;;
          (if truthy company
           then lift (callStringMethod "company.substring" (substring 0 20) company)
           else ret (utf16 "not provided")) ;;
          console ConsoleLog "📝 Form data received:" ;;
          let* telegramMessage :=
            lift (formatTelegramMessage (dateTime w) name email company message) in
          console ConsoleLog "📨 Formatted Telegram message length:" ;;
          console ConsoleLog "🚀 Sending message to Telegram API..." ;;
          let* telegramResponse :=
            sendTelegramMessage BOT_TOKEN (VNumber chatIdNum) telegramMessage in
          console ConsoleLog "📥 Telegram API response received:" ;;
          report telegramResponse.

Definition handler (req : Request) : M response :=
  console ConsoleLog "📥 Incoming request:" ;;
  if str_eqb (method req) "OPTIONS" then
    console ConsoleLog "✅ Handling OPTIONS preflight request" ;;
    ret (respond_end 200)
  else if negb (str_eqb (method req) "POST") then
    console ConsoleError "❌ Invalid method:" ;;
    ret (respond 405
           [(utf16 "success", VBool false);
            (utf16 "error",
             VString (utf16 "Method not allowed. Use POST. Received: " ++ method req))])
  else
    console ConsoleLog "✅ POST request received" ;;
    try_catch
      (let body := req_body req in
       match body with
       | VString text =>
         match JSON_parse text with
         | Normal body => process body
         | Throw parseError =>
           console ConsoleError "❌ Error parsing request body:" ;;
           ret (respond 400
                  [(utf16 "success", VBool false);
                   (utf16 "error", VString "Invalid JSON in request body")])
         end
       | _ => process body
       end)
      failure.

End Handler.
End VercelCors.

(** ** A runtime to run the handlers on

    The theorems below hold for every [Numeric] and every [Engine].  To
    evaluate the handlers on concrete requests, here is one of each: a JSON
    reader written against the [Numeric] interface, and numbers restricted
    to integers (the literals with a fraction, an exponent or a radix prefix
    are not read by [IntegerNumbers]; the requests evaluated below do not
    contain any). *)
Section JsonReader.
Context `{Numeric}.

Definition isDigit (c : N) : bool := (48 <=? c) && (c <=? 57).

Definition isJsonSpace (c : N) : bool := existsb (N.eqb c) [32; 9; 10; 13].

Fixpoint skipSpace (s : str) : str :=
  match s with
  | c :: r => if isJsonSpace c then skipSpace r else s
  | [] => []
  end.

Fixpoint takeDigits (s : str) : str * str :=
  match s with
  | c :: r => if isDigit c then let '(d, rest) := takeDigits r in (c :: d, rest) else ([], s)
  | [] => ([], [])
  end.

Definition hexDigit (c : N) : option N :=
  if isDigit c then Some (c - 48)
  else if (97 <=? c) && (c <=? 102) then Some (c - 87)
  else if (65 <=? c) && (c <=? 70) then Some (c - 55)
  else None.

(** The text of a string literal after its opening quote. *)
Fixpoint readString (s : str) (acc : str) : option (str * str) :=
  match s with
  | [] => None
  | c :: r =>
    if c =? 34 then Some (rev acc, r)
    else if c =? 92 then
      match r with
      | [] => None
      | e :: r1 =>
        if e =? 117 then
          match r1 with
          | h1 :: h2 :: h3 :: h4 :: r2 =>
            match hexDigit h1, hexDigit h2, hexDigit h3, hexDigit h4 with
            | Some a, Some b, Some c', Some d =>
              readString r2 ((a * 4096 + b * 256 + c' * 16 + d) :: acc)
            | _, _, _, _ => None
            end
          | _ => None
          end
        else
          let unescaped :=
            if e =? 34 then Some 34 else if e =? 92 then Some 92
            else if e =? 47 then Some 47 else if e =? 98 then Some 8
            else if e =? 102 then Some 12 else if e =? 110 then Some 10
            else if e =? 114 then Some 13 else if e =? 116 then Some 9
            else None in
          match unescaped with
          | Some u => readString r1 (u :: acc)
          | None => None
          end
      end
    else if c <? 32 then None
    else readString r (c :: acc)
  end.

(** A number literal: its text and what follows it. *)
Definition readNumber (s : str) : option (str * str) :=
  let '(sign, s1) := match s with
                     | c :: r => if c =? 45 then ([45], r) else ([], s)
                     | [] => ([], s)
                     end in
  let '(int, s2) := takeDigits s1 in
  match int with
  | [] => None
  | d :: more =>
    if (d =? 48) && negb (match more with [] => true | _ :: _ => false end) then None
    else
      let frac :=
        match s2 with
        | c :: r =>
          if c =? 46 then
            let '(f, s3) := takeDigits r in
            match f with [] => None | _ :: _ => Some (46 :: f, s3) end
          else Some ([], s2)
        | [] => Some ([], s2)
        end in
      match frac with
      | None => None
      | Some (f, s3) =>
        let exp :=
          match s3 with
          | c :: r =>
            if (c =? 101) || (c =? 69) then
              let '(esign, r1) := match r with
                                  | c1 :: r' =>
                                    if (c1 =? 43) || (c1 =? 45) then ([c1], r') else ([], r)
                                  | [] => ([], r)
                                  end in
              let '(e, s4) := takeDigits r1 in
              match e with [] => None | _ :: _ => Some (c :: esign ++ e, s4) end
            else Some ([], s3)
          | [] => Some ([], s3)
          end in
        match exp with
        | None => None
        | Some (e, s4) => Some (sign ++ int ++ f ++ e, s4)
        end
      end
  end.

(** A later duplicate of a key replaces the earlier one. *)
Fixpoint setProperty (k : str) (v : value) (props : list (str * value)) : list (str * value) :=
  match props with
  | [] => [(k, v)]
  | (k', v') :: rest => if str_eqb k k' then (k, v) :: rest else (k', v') :: setProperty k v rest
  end.

Fixpoint readValue (fuel : nat) (s : str) : option (value * str) :=
  match fuel with
  | O => None
  | S fuel =>
    match skipSpace s with
    | [] => None
    | c :: r =>
      if c =? 123 then
        match skipSpace r with
        | c1 :: r1 => if c1 =? 125 then Some (VObject [], r1) else readMembers fuel (c1 :: r1) []
        | [] => None
        end
      else if c =? 91 then
        match skipSpace r with
        | c1 :: r1 => if c1 =? 93 then Some (VArray [], r1) else readElements fuel (c1 :: r1) []
        | [] => None
        end
      else if c =? 34 then
        match readString r [] with
        | Some (text, rest) => Some (VString text, rest)
        | None => None
        end
      else if startsWith "true" (c :: r) then Some (VBool true, skipn 4 (c :: r))
      else if startsWith "false" (c :: r) then Some (VBool false, skipn 5 (c :: r))
      else if startsWith "null" (c :: r) then Some (VNull, skipn 4 (c :: r))
      else
        match readNumber (c :: r) with
        | Some (literal, rest) => Some (VNumber (StringToNumber literal), rest)
        | None => None
        end
    end
  end
with readElements (fuel : nat) (s : str) (acc : list value) : option (value * str) :=
  match fuel with
  | O => None
  | S fuel =>
    match readValue fuel s with
    | None => None
    | Some (v, rest) =>
      match skipSpace rest with
      | c :: r =>
        if c =? 44 then readElements fuel r (v :: acc)
        else if c =? 93 then Some (VArray (rev (v :: acc)), r)
        else None
      | [] => None
      end
    end
  end
with readMembers (fuel : nat) (s : str) (acc : list (str * value)) : option (value * str) :=
  match fuel with
  | O => None
  | S fuel =>
    match skipSpace s with
    | c :: r =>
      if c =? 34 then
        match readString r [] with
        | None => None
        | Some (key, rest) =>
          match skipSpace rest with
          | c1 :: r1 =>
            if c1 =? 58 then
              match readValue fuel r1 with
              | None => None
              | Some (v, rest1) =>
                match skipSpace rest1 with
                | c2 :: r2 =>
                  if c2 =? 44 then readMembers fuel r2 (setProperty key v acc)
                  else if c2 =? 125 then Some (VObject (setProperty key v acc), r2)
                  else None
                | [] => None
                end
              end
            else None
          | [] => None
          end
        end
      else None
    | [] => None
    end
  end.

Definition unexpectedToken : error :=
  {| error_name := "SyntaxError"; message := "Unexpected token in JSON" |}.

Definition parseJSON (text : str) : completion value :=
  match readValue (2 * List.length text + 2) text with
  | Some (v, rest) =>
    match skipSpace rest with
    | [] => Normal v
    | _ :: _ => Throw unexpectedToken
    end
  | None => Throw unexpectedToken
  end.

End JsonReader.

(** JSON texts are written below with single quotes for the double ones. *)
Definition dq (s : literal) : str := map (fun c => if c =? 39 then 34 else c) (utf16 s).

Inductive integer :=
| NotANumber
| Int (z : Z).

Fixpoint digitsValue (s : str) (acc : N) : option N :=
  match s with
  | [] => Some acc
  | c :: r => if isDigit c then digitsValue r (acc * 10 + (c - 48)) else None
  end.

Definition readInteger (s : str) : integer :=
  match trim s with
  | [] => Int 0
  | c :: r =>
    let '(negative, digits) :=
      if c =? 45 then (true, r) else if c =? 43 then (false, r) else (false, c :: r) in
    match digits with
    | [] => NotANumber
    | _ :: _ =>
      match digitsValue digits 0 with
      | Some n => Int (if negative then (- Z.of_N n)%Z else Z.of_N n)
      | None => NotANumber
      end
    end
  end.

Fixpoint uintToStr (u : Decimal.uint) : str :=
  match u with
  | Decimal.Nil => []
  | Decimal.D0 u => 48 :: uintToStr u
  | Decimal.D1 u => 49 :: uintToStr u
  | Decimal.D2 u => 50 :: uintToStr u
  | Decimal.D3 u => 51 :: uintToStr u
  | Decimal.D4 u => 52 :: uintToStr u
  | Decimal.D5 u => 53 :: uintToStr u
  | Decimal.D6 u => 54 :: uintToStr u
  | Decimal.D7 u => 55 :: uintToStr u
  | Decimal.D8 u => 56 :: uintToStr u
  | Decimal.D9 u => 57 :: uintToStr u
  end.

Definition printInteger (n : integer) : str :=
  match n with
  | NotANumber => utf16 "NaN"
  | Int z =>
    (if (z <? 0)%Z then [45] else []) ++ uintToStr (N.to_uint (Z.abs_N z))
  end.

#[export] Instance IntegerNumbers : Numeric := {|
  number := integer;
  StringToNumber := readInteger;
  isNaN := fun n => match n with NotANumber => true | Int _ => false end;
  numberIsFalsy := fun n => match n with NotANumber => true | Int z => (z =? 0)%Z end;
  NumberToString := printInteger;
|}.

Definition describeFault (f : fault) : str :=
  match f with
  | DestructureNullish => utf16 "Cannot destructure a value that is undefined or null"
  | ReadOfNullish key => utf16 "Cannot read properties of undefined or null, reading " ++ key
  | NotAFunction callee => callee ++ utf16 " is not a function"
  | NotPrimitive => utf16 "Cannot convert object to primitive value"
  end.

#[export] Instance ReferenceEngine : Engine := {|
  fault_message := describeFault;
  JSON_parse := parseJSON;
|}.

(** ** Notions of the specification *)

(** The five characters the escaping neutralises. *)
Definition isSpecial (c : N) : bool := existsb (N.eqb c) [38; 60; 62; 34; 39].

(** The entity that stands for a special character; any other character
    stands for itself. *)
Definition escapeUnit (c : N) : str :=
  if c =? 38 then utf16 "&amp;"
  else if c =? 60 then utf16 "&lt;"
  else if c =? 62 then utf16 "&gt;"
  else if c =? 34 then utf16 "&quot;"
  else if c =? 39 then utf16 "&#039;"
  else [c].

Definition entities : list str :=
  [utf16 "&amp;"; utf16 "&lt;"; utf16 "&gt;"; utf16 "&quot;"; utf16 "&#039;"].

(** Texts in which a special character only occurs inside an entity. *)
Inductive Escaped : str -> Prop :=
| Escaped_nil : Escaped []
| Escaped_plain c rest : isSpecial c = false -> Escaped rest -> Escaped (c :: rest)
| Escaped_entity e rest : In e entities -> Escaped rest -> Escaped (e ++ rest).

Definition purelyWhitespace (s : str) : Prop := forall c, In c s -> isWhiteSpace c = true.

Section Notions.
Context `{Engine}.

(** A property of the body of a response; [undefined] when the body does
    not have it. *)
Definition field (r : response) (key : str) : value :=
  match body r with
  | Some props => lookup key props
  | None => VUndefined
  end.

Definition hasField (r : response) (key : str) : bool :=
  match body r with
  | Some props => hasProperty key props
  | None => false
  end.

(** [company] as the data model has it: a text, or nothing. *)
Definition optionalText (company : option str) : value :=
  match company with
  | Some c => VString c
  | None => VUndefined
  end.

(** A parsed body with valid fields: [name], [email] and [message] are
    non-empty texts, [email] has the shape the handlers check, and [company]
    is a text or is absent. *)
Record ValidSubmission (parsed : value) (name email message : str) (company : option str)
  : Prop := {
  name_read : Get parsed "name" = Normal (VString name);
  name_given : name <> [];
  email_read : Get parsed "email" = Normal (VString email);
  email_shaped : regex_test emailRegex email = true;
  company_read : Get parsed "company" = Normal (optionalText company);
  message_read : Get parsed "message" = Normal (VString message);
  message_given : message <> [];
}.

(** Both secrets are set in the environment. *)
Definition configured (w : World) : Prop :=
  truthy (process_env w "TELEGRAM_BOT_TOKEN") = true /\
  truthy (process_env w "TELEGRAM_CHAT_ID") = true.

(** An outbound request was recorded in the trace. *)
Definition isFetch (e : event) : bool :=
  match e with
  | Fetch _ _ => true
  | Console _ _ => false
  end.

Definition noOutboundCall (trace : list event) : Prop := forallb (fun e => negb (isFetch e)) trace = true.

(** The body a Netlify event carries once parsed. *)
Definition eventCarries (raw parsed : value) : Prop :=
  exists text, ToString raw = Normal text /\ JSON_parse text = Normal parsed.

(** The body a request of the CORS-aware handler carries once parsed: a
    string goes through JSON.parse, anything else is taken as it is. *)
Definition requestCarries (raw parsed : value) : Prop :=
  match raw with
  | VString text => JSON_parse text = Normal parsed
  | _ => parsed = raw
  end.

End Notions.

Section Outcomes.
Context `{Engine}.

(** The address of the sendMessage method for the token of the
    environment. *)
Definition tokenText (w : World) : str :=
  match env w "TELEGRAM_BOT_TOKEN" with
  | Some s => s
  | None => utf16 "undefined"
  end.

Definition endpoint (w : World) : str :=
  utf16 "https://api.telegram.org/bot" ++ tokenText w ++ utf16 "/sendMessage".

Definition basePayload (chatId : value) (text : str) : list (str * value) :=
  [(utf16 "chat_id", chatId);
   (utf16 "text", VString text);
   (utf16 "parse_mode", VString "HTML");
   (utf16 "disable_web_page_preview", VBool true)].

(** What the topic-aware handler adds to the request body, and what it
    logs, for the value of TELEGRAM_TOPIC_ID. *)
Definition threadField (w : World) : list (str * value) :=
  let TOPIC_ID := process_env w "TELEGRAM_TOPIC_ID" in
  if truthy TOPIC_ID && negb (isNaN (Number TOPIC_ID))
  then [(utf16 "message_thread_id", VNumber (Number TOPIC_ID))]
  else [].

Definition topicWarning (w : World) : list event :=
  let TOPIC_ID := process_env w "TELEGRAM_TOPIC_ID" in
  if truthy TOPIC_ID && isNaN (Number TOPIC_ID)
  then [Console ConsoleWarn "Invalid TOPIC_ID format, will send to general chat"]
  else [].

(** The downstream API answers every request with the JSON value [r]. *)
Definition downstreamReturns (w : World) (r : value) : Prop :=
  forall url requestBody, fetch w url requestBody = Normal r.

(** The network call throws, whatever the request. *)
Definition downstreamFails (w : World) : Prop :=
  forall url requestBody, exists e, fetch w url requestBody = Throw e.

(** [{ok: true, result: {message_id: n}}] *)
Definition accepted (n : number) : value :=
  VObject [(utf16 "ok", VBool true);
           (utf16 "result", VObject [(utf16 "message_id", VNumber n)])].

Definition genericFailure (r : response) : Prop :=
  statusCode r = 500 /\
  field r "success" = VBool false /\
  field r "error" = VString sendFailed /\
  hasField r "messageId" = false.

Definition outcome : Type := completion response * list event.

Definition respondsFailure (result : outcome) : Prop :=
  exists resp trace, result = (Normal resp, trace) /\ genericFailure resp.

Definition respondsSent (result : outcome) (n : number) : Prop :=
  exists resp trace,
    result = (Normal resp, trace)
    /\ statusCode resp = 200
    /\ body resp = Some [(utf16 "success", VBool true);
                         (utf16 "message", VString sentOk);
                         (utf16 "messageId", VNumber n)].

(** How the end of a handler maps what the downstream API does. *)
Record Forwards (w : World) (result : outcome) : Prop := {
  on_accept : forall n, downstreamReturns w (accepted n) -> respondsSent result n;
  on_refusal : forall r,
    downstreamReturns w r ->
    (forall ok, Get r "ok" = Normal ok -> truthy ok = false) ->
    respondsFailure result;
  on_throw : downstreamFails w -> respondsFailure result;
  on_no_result : forall r ok res,
    downstreamReturns w r ->
    Get r "ok" = Normal ok -> truthy ok = true ->
    Get r "result" = Normal res -> res = VUndefined \/ res = VNull ->
    respondsFailure result;
}.

(** One submission posted to each of the four handlers. *)
Record Posted (parsed : value) (evP : NetlifyPlain.Event) (evT : NetlifyTopic.Event)
    (rqP : VercelPlain.Request) (rqC : VercelCors.Request) : Prop := {
  plain_post : NetlifyPlain.httpMethod evP = utf16 "POST";
  plain_body : eventCarries (NetlifyPlain.event_body evP) parsed;
  topic_post : NetlifyTopic.httpMethod evT = utf16 "POST";
  topic_body : eventCarries (NetlifyTopic.event_body evT) parsed;
  vercel_post : VercelPlain.method rqP = utf16 "POST";
  vercel_body : VercelPlain.req_body rqP = parsed;
  cors_post : VercelCors.method rqC = utf16 "POST";
  cors_body : requestCarries (VercelCors.req_body rqC) parsed;
}.

(** Both secrets are set and the chat id is numeric. *)
Definition validConfiguration (w : World) : Prop :=
  configured w /\ isNaN (Number (process_env w "TELEGRAM_CHAT_ID")) = false.

(** The CORS-aware handler from the call of [sendTelegramMessage] on. *)
Definition corsBlock (w : World) (text : str) : M response :=
  let* r := VercelCors.sendTelegramMessage w (process_env w "TELEGRAM_BOT_TOKEN")
              (VNumber (Number (process_env w "TELEGRAM_CHAT_ID"))) text in
  console ConsoleLog "📥 Telegram API response received:" ;;
  VercelCors.report r.

(** The answers to a wrong method, to a missing configuration and to a
    missing required field. *)
Definition rejectsMethod (result : outcome) : Prop :=
  exists resp trace msg,
    result = (Normal resp, trace)
    /\ statusCode resp = 405
    /\ field resp "success" = VBool false
    /\ field resp "error" = VString msg
    /\ startsWith "Method not allowed" msg = true.

Definition reportsNotConfigured (result : outcome) : Prop :=
  exists resp trace msg,
    result = (Normal resp, trace)
    /\ statusCode resp = 500
    /\ field resp "success" = VBool false
    /\ field resp "error" = VString msg
    /\ startsWith "Telegram bot not configured" msg = true
    /\ noOutboundCall trace.

Definition rejectsMissing (result : outcome) : Prop :=
  exists resp trace,
    result = (Normal resp, trace)
    /\ statusCode resp = 400
    /\ body resp = Some [(utf16 "success", VBool false);
                         (utf16 "error",
                          VString "Missing required fields: name, email, message")].

(** A computation whose answers, when it returns one, carry no [details]. *)
Definition Quiet (m : M response) : Prop :=
  forall t a t', m t = (Normal a, t') -> hasField a "details" = false.

End Outcomes.

(** A text without the less-than sign, and the part of the company label
    that starts with it. *)
Definition noLt (s : str) : Prop := forall c, In c s -> c <> 60.

Definition labelCore : str := "<b>Компания:</b> ".

(** ** Requests and worlds to evaluate the handlers on *)
Definition demoSubmission : str :=
  dq "{ 'name': 'Ada <Lovelace>', 'email': 'ada@example.org', 'company': '  ', 'message': 'Tea & biscuits' }".

Definition demoParsed : value :=
  VObject [(utf16 "name", VString "Ada <Lovelace>");
           (utf16 "email", VString "ada@example.org");
           (utf16 "company", VString "  ");
           (utf16 "message", VString "Tea & biscuits")].

Definition variables (token chat topic mode : option str) (key : str) : option str :=
  if str_eqb key "TELEGRAM_BOT_TOKEN" then token
  else if str_eqb key "TELEGRAM_CHAT_ID" then chat
  else if str_eqb key "TELEGRAM_TOPIC_ID" then topic
  else if str_eqb key "NODE_ENV" then mode
  else None.

Definition demoWorld (vars : str -> option str) (downstream : completion value) : World :=
  {| env := vars; fetch := fun _ _ => downstream; dateTime := "02.11.2026, 09:58" |}.

Definition production : str -> option str :=
  variables (Some (utf16 "12345:secret")) (Some (utf16 "-1001234567890")) None None.

Definition wrongTopic : str -> option str :=
  variables (Some (utf16 "12345:secret")) (Some (utf16 "-1001234567890"))
    (Some (utf16 "general")) None.

Definition noToken : str -> option str :=
  variables None (Some (utf16 "-1001234567890")) None None.

Definition fortyTwo : @number IntegerNumbers := Int 42.

Definition refused : value :=
  VObject [(utf16 "ok", VBool false); (utf16 "description", VString "x")].

Definition plainEvent (method : str) (text : str) : NetlifyPlain.Event :=
  {| NetlifyPlain.httpMethod := method; NetlifyPlain.event_body := VString text |}.

Definition topicEvent (method : str) (text : str) : NetlifyTopic.Event :=
  {| NetlifyTopic.httpMethod := method; NetlifyTopic.event_body := VString text |}.

Definition vercelRequest (method : str) (parsed : value) : VercelPlain.Request :=
  {| VercelPlain.method := method; VercelPlain.req_body := parsed |}.

Definition corsRequest (method : str) (raw : value) : VercelCors.Request :=
  {| VercelCors.method := method;
     VercelCors.url := "/api/telegram";
     VercelCors.req_headers := fun _ => None;
     VercelCors.req_body := raw |}.

(** ** Notions for whole invocations *)

(** The characters that open or close markup or an attribute value. *)
Definition isMarkup (c : N) : bool := existsb (N.eqb c) [60; 62; 34; 39].

Section Invocations.
Context `{Engine}.

Definition isText (v : value) : bool :=
  match v with
  | VString _ => true
  | _ => false
  end.

(** The values of [company] for which the message has a company line. *)
Definition companyShown (company : value) : bool :=
  match company with
  | VString c => match trim c with [] => false | _ :: _ => true end
  | _ => false
  end.

(** The outbound requests of a trace, in order: address and JSON body. *)
Fixpoint outbound (trace : list event) : list (str * list (str * value)) :=
  match trace with
  | [] => []
  | Fetch url requestBody :: rest => (url, requestBody) :: outbound rest
  | Console _ _ :: rest => outbound rest
  end.

(** A request to the sendMessage method for the token of the environment,
    whose text is the message formatted from fields that passed the two
    checks of the handlers, and whose chat id is the one of the
    environment, as it is or as a number. *)
Definition sendMessageRequest (w : World) (q : str * list (str * value)) : Prop :=
  exists chatId text extra name email company message,
    q = (endpoint w, basePayload chatId text ++ extra)
    /\ formatTelegramMessage (dateTime w) name email company message = Normal text
    /\ (chatId = process_env w "TELEGRAM_CHAT_ID"
        \/ chatId = VNumber (Number (process_env w "TELEGRAM_CHAT_ID")))
    /\ (extra = [] \/ extra = threadField w)
    /\ truthy name = true /\ truthy email = true /\ truthy message = true
    /\ test emailRegex email = Normal true.

(** The ways an invocation ends: the answer and the trace it leaves. *)
Inductive Ends (w : World) (hs : list (str * str)) : response -> list event -> Prop :=
| Ends_refused status msg d :
    In status [400; 405; 500] ->
    msg <> sendFailed ->
    outbound d = [] ->
    Ends w hs {| statusCode := status; headers := hs;
                 body := Some [(utf16 "success", VBool false); (utf16 "error", VString msg)] |} d
| Ends_preflight d :
    outbound d = [] ->
    Ends w hs {| statusCode := 200; headers := hs; body := None |} d
| Ends_sent d q r ok res mid :
    outbound d = [q] ->
    sendMessageRequest w q ->
    fetch w (fst q) (snd q) = Normal r ->
    Get r "ok" = Normal ok -> truthy ok = true ->
    Get r "result" = Normal res ->
    Get res "message_id" = Normal mid ->
    Ends w hs {| statusCode := 200; headers := hs;
                 body := json [(utf16 "success", VBool true);
                               (utf16 "message", VString sentOk);
                               (utf16 "messageId", mid)] |} d
| Ends_failed d details :
    outbound d = [] \/ (exists q, outbound d = [q] /\ sendMessageRequest w q) ->
    details = [] \/ (exists text, details = [(utf16 "details", VString text)]) ->
    Ends w hs {| statusCode := 500; headers := hs;
                 body := Some ([(utf16 "success", VBool false);
                                (utf16 "error", VString sendFailed)] ++ details) |} d.

(** One invocation of one of the four handlers, from an empty trace, with
    the headers its answers carry. *)
Inductive Invocation (w : World) : list (str * str) -> outcome -> Prop :=
| Invoke_plain ev : Invocation w [] (NetlifyPlain.handler w ev [])
| Invoke_topic ev : Invocation w [] (NetlifyTopic.handler w ev [])
| Invoke_vercel req : Invocation w [] (VercelPlain.handler w req [])
| Invoke_cors req : Invocation w VercelCors.corsHeaders (VercelCors.handler w req []).

(** A parsed body whose fields pass the required-field check and the
    email check; the fields can be any value. *)
Record Checked (parsed name email company message : value) : Prop := {
  checked_name : Get parsed "name" = Normal name;
  checked_email : Get parsed "email" = Normal email;
  checked_company : Get parsed "company" = Normal company;
  checked_message : Get parsed "message" = Normal message;
  name_truthy : truthy name = true;
  email_truthy : truthy email = true;
  message_truthy : truthy message = true;
  email_matched : test emailRegex email = Normal true;
}.

(** What the CORS-aware handler has logged when it starts on the body of
    a POST. *)
Definition corsPreamble : list event :=
  [Console ConsoleLog "📥 Incoming request:";
   Console ConsoleLog "✅ POST request received"].

(** The answer to an email that does not have the shape checked. *)
Definition rejectsEmail (result : outcome) : Prop :=
  exists resp trace,
    result = (Normal resp, trace)
    /\ statusCode resp = 400
    /\ body resp = Some [(utf16 "success", VBool false);
                         (utf16 "error", VString "Invalid email format")]
    /\ outbound trace = [].

(** The generic failure, reached without an outbound request. *)
Definition failsBeforeCall (result : outcome) : Prop :=
  exists resp trace,
    result = (Normal resp, trace) /\ genericFailure resp /\ outbound trace = [].

(** NODE_ENV is [development]. *)
Definition development (w : World) : Prop :=
  process_env w "NODE_ENV" = VString "development".

(** The [details] of the answer of an invocation. *)
Definition detailsOf (result : outcome) : value :=
  match fst result with
  | Normal resp => field resp "details"
  | Throw _ => VUndefined
  end.

End Invocations.

(** ** More requests and worlds *)
Definition badEmailSubmission : str :=
  dq "{ 'name': 'Ada', 'email': 'ada@example', 'message': 'Hi' }".

Definition badEmailParsed : value :=
  VObject [(utf16 "name", VString "Ada");
           (utf16 "email", VString "ada@example");
           (utf16 "message", VString "Hi")].

Definition seven : @number IntegerNumbers := Int 7.
Definition year : @number IntegerNumbers := Int 1815.

Definition oddSubmission : str :=
  dq "{ 'name': 7, 'email': 'ada@example.org', 'company': 1815, 'message': 'Hi' }".

Definition oddParsed : value :=
  VObject [(utf16 "name", VNumber seven);
           (utf16 "email", VString "ada@example.org");
           (utf16 "company", VNumber year);
           (utf16 "message", VString "Hi")].

Definition channelName : str -> option str :=
  variables (Some (utf16 "12345:secret")) (Some (utf16 "@announcements")) None None.

Definition developmentMode : str -> option str :=
  variables (Some (utf16 "12345:secret")) (Some (utf16 "-1001234567890")) None
    (Some (utf16 "development")).

Definition tooManyRequests : value :=
  VObject [(utf16 "ok", VBool false);
           (utf16 "error_code", VNumber (Int 429 : @number IntegerNumbers));
           (utf16 "description", VString "Too Many Requests")].

(** * Properties *)

(** ** Evaluations *)
Example utf16_cyrillic : utf16 "Имя" = [1048; 1084; 1103].
Proof. reflexivity. Qed.

Example utf16_astral : utf16 "🏢" = [55356; 57314].
Proof. reflexivity. Qed.

Example emailRegex_ok : regex_test emailRegex "a.b@mail.example.org" = true.
Proof. reflexivity. Qed.

Example emailRegex_two_at : regex_test emailRegex "a@b@c.d" = false.
Proof. reflexivity. Qed.

Example emailRegex_dot_last : regex_test emailRegex "a@b." = false.
Proof. reflexivity. Qed.

Example trim_nbsp : trim (160 :: utf16 " x y " ++ [8232]) = utf16 "x y".
Proof. reflexivity. Qed.

Example parseJSON_object :
  parseJSON (dq "{ 'ok': true, 'result': { 'message_id': 42 }, 'tags': [null, 'a\u0041'] }")
  = Normal (VObject [(utf16 "ok", VBool true);
                     (utf16 "result", VObject [(utf16 "message_id", VNumber (Int 42))]);
                     (utf16 "tags", VArray [VNull; VString "aA"])]).
Proof. reflexivity. Qed.

Example parseJSON_open_brace : parseJSON "{" = Throw unexpectedToken.
Proof. reflexivity. Qed.

Example parseJSON_trailing : parseJSON "{} x" = Throw unexpectedToken.
Proof. reflexivity. Qed.

Example readInteger_group_chat : readInteger " -1001234567890 " = Int (-1001234567890).
Proof. reflexivity. Qed.

Example readInteger_word : readInteger "general" = NotANumber.
Proof. reflexivity. Qed.

(** ** Strings *)
Lemma str_eqb_refl (s : str) : str_eqb s s = true.
Proof. induction s as [|c s IH]; simpl; [reflexivity|]. now rewrite N.eqb_refl. Qed.

Lemma str_eqb_eq (a b : str) : str_eqb a b = true <-> a = b.
Proof.
  split.
  - revert b; induction a as [|x a IH]; intros [|y b]; simpl; try discriminate; auto.
    intros E. apply andb_true_iff in E as [E1 E2].
    apply N.eqb_eq in E1. f_equal; auto.
  - intros ->. apply str_eqb_refl.
Qed.

Lemma replaceAll_flat_map (c : N) (r : str) (f : N -> str) (s : str) :
  replaceAll c r (flat_map f s) = flat_map (fun x => replaceAll c r (f x)) s.
Proof.
  unfold replaceAll. induction s as [|x s IH]; simpl; [reflexivity|].
  now rewrite flat_map_app, IH.
Qed.

Lemma escapeUnit_chain (x : N) :
  replaceAll 39 "&#039;"
    (replaceAll 34 "&quot;"
       (replaceAll 62 "&gt;"
          (replaceAll 60 "&lt;"
             (if x =? 38 then utf16 "&amp;" else [x])))) = escapeUnit x.
Proof.
  unfold escapeUnit.
  destruct (N.eqb_spec x 38) as [->|n38]; [reflexivity|].
  unfold replaceAll at 4. simpl flat_map.
  destruct (N.eqb_spec x 60) as [->|n60]; [reflexivity|].
  unfold replaceAll at 3. simpl flat_map.
  destruct (N.eqb_spec x 62) as [->|n62]; [reflexivity|].
  unfold replaceAll at 2. simpl flat_map.
  destruct (N.eqb_spec x 34) as [->|n34]; [reflexivity|].
  unfold replaceAll. simpl flat_map.
  destruct (N.eqb_spec x 39) as [->|n39]; reflexivity.
Qed.

Lemma escapeString_units (s : str) : escapeString s = flat_map escapeUnit s.
Proof.
  unfold escapeString.
  change (replaceAll 38 "&amp;" s) with (flat_map (fun x => if x =? 38 then utf16 "&amp;" else [x]) s).
  rewrite !replaceAll_flat_map.
  apply flat_map_ext. intros x. apply escapeUnit_chain.
Qed.

Lemma escapeUnit_plain (c : N) : isSpecial c = false -> escapeUnit c = [c].
Proof.
  unfold isSpecial, escapeUnit. simpl. intros E.
  repeat (apply orb_false_iff in E as [? E]).
  repeat match goal with Hx : (_ =? _) = false |- _ => rewrite Hx; clear Hx end. reflexivity.
Qed.

Lemma escapeUnit_entity (c : N) : isSpecial c = true -> In (escapeUnit c) entities.
Proof.
  unfold isSpecial, escapeUnit, entities. simpl. intros E.
  destruct (c =? 38); [now left|].
  destruct (c =? 60); [now right; left|].
  destruct (c =? 62); [now right; right; left|].
  destruct (c =? 34); [now right; right; right; left|].
  destruct (c =? 39); [now right; right; right; right; left|].
  discriminate.
Qed.

Lemma escaped_units (s : str) : Escaped (flat_map escapeUnit s).
Proof.
  induction s as [|c s IH]; simpl; [constructor|].
  destruct (isSpecial c) eqn:E.
  - apply Escaped_entity; [now apply escapeUnit_entity|assumption].
  - rewrite (escapeUnit_plain c E). now apply Escaped_plain.
Qed.

Lemma escapeUnit_noLt (c : N) : noLt (escapeUnit c).
Proof.
  unfold escapeUnit.
  destruct (N.eqb_spec c 38); [|destruct (N.eqb_spec c 60); [|destruct (c =? 62); [|destruct (c =? 34); [|destruct (c =? 39)]]]];
    intros x Hx; simpl in Hx; intuition (subst; try discriminate; try congruence).
Qed.

Lemma units_noLt (s : str) : noLt (flat_map escapeUnit s).
Proof.
  intros x Hx. apply in_flat_map in Hx as (c & _ & Hc). now apply (escapeUnit_noLt c).
Qed.

Lemma includes_skip (p x s : str) : noLt x -> includes (60 :: p) (x ++ s) = includes (60 :: p) s.
Proof.
  induction x as [|c x IH]; intros Hx; [reflexivity|].
  simpl app. cbn [includes startsWith].
  assert (E : (60 =? c) = false).
  { apply N.eqb_neq. intros <-. apply (Hx 60); [now left|reflexivity]. }
  rewrite E. simpl. apply IH. intros y Hy. apply Hx. now right.
Qed.

Lemma includes_none (p x : str) : noLt x -> includes (60 :: p) x = false.
Proof.
  intros Hx. rewrite <- (app_nil_r x). rewrite includes_skip by assumption. reflexivity.
Qed.

Lemma startsWith_app (p s : str) : startsWith p (p ++ s) = true.
Proof. induction p as [|c p IH]; simpl; [reflexivity|]. now rewrite N.eqb_refl. Qed.

Lemma includes_startsWith (p s : str) : startsWith p s = true -> includes p s = true.
Proof. destruct s; simpl; intros ->; reflexivity. Qed.

Lemma includes_app_r (p a s : str) : includes p s = true -> includes p (a ++ s) = true.
Proof.
  intros E. induction a as [|c a IH]; [assumption|].
  simpl app. cbn [includes]. rewrite IH. apply orb_true_r.
Qed.

Lemma includes_tail (a : N) (p s : str) : includes (a :: p) s = true -> includes p s = true.
Proof.
  induction s as [|b s IH]; simpl; [discriminate|].
  intros E. apply orb_true_iff in E as [E|E].
  - apply andb_true_iff in E as [_ E].
    apply includes_startsWith in E.
    destruct p; [reflexivity|]. cbn [includes]. rewrite E. apply orb_true_r.
  - specialize (IH E). destruct p; [reflexivity|]. cbn [includes]. rewrite IH. apply orb_true_r.
Qed.

Lemma trimStart_nil (s : str) : trimStart s = [] <-> forallb isWhiteSpace s = true.
Proof.
  induction s as [|c s IH]; simpl; [tauto|].
  destruct (isWhiteSpace c); simpl; [assumption|]. split; discriminate.
Qed.

Lemma forallb_trimStart (s : str) : forallb isWhiteSpace (trimStart s) = forallb isWhiteSpace s.
Proof.
  induction s as [|c s IH]; simpl; [reflexivity|].
  destruct (isWhiteSpace c) eqn:E; simpl; [assumption|]. now rewrite E.
Qed.

Lemma forallb_rev {A} (f : A -> bool) (l : list A) : forallb f (rev l) = forallb f l.
Proof.
  apply eq_true_iff_eq. rewrite !forallb_forall. split; intros Hl x Hx; apply Hl.
  - now apply in_rev in Hx.
  - now apply in_rev.
Qed.

Lemma trim_nil (s : str) : trim s = [] <-> purelyWhitespace s.
Proof.
  unfold trim, trimEnd, purelyWhitespace. rewrite <- forallb_forall.
  rewrite <- (forallb_trimStart s), <- (forallb_rev _ (trimStart s)), <- trimStart_nil.
  split; intros E.
  - apply (f_equal (@rev N)) in E. now rewrite rev_involutive in E.
  - now rewrite E.
Qed.

Lemma core_skip (x s : str) : noLt x -> includes labelCore (x ++ s) = includes labelCore s.
Proof. exact (includes_skip (tl labelCore) x s). Qed.

Lemma core_none (x : str) : noLt x -> includes labelCore x = false.
Proof. exact (includes_none (tl labelCore) x). Qed.

Lemma core_of_label (s : str) : includes companyLabel s = true -> includes labelCore s = true.
Proof.
  change companyLabel with (55356 :: 57314 :: 32 :: labelCore).
  intros E. do 3 apply includes_tail in E. exact E.
Qed.

Lemma core_title s : includes labelCore (title ++ s) = includes labelCore s.
Proof. reflexivity. Qed.
Lemma core_nameLabel s : includes labelCore (nameLabel ++ s) = includes labelCore s.
Proof. reflexivity. Qed.
Lemma core_emailLabel s : includes labelCore (emailLabel ++ s) = includes labelCore s.
Proof. reflexivity. Qed.
Lemma core_messageLabel s : includes labelCore (messageLabel ++ s) = includes labelCore s.
Proof. reflexivity. Qed.
Lemma core_sentLabel s : includes labelCore (sentLabel ++ s) = includes labelCore s.
Proof. reflexivity. Qed.
Lemma core_nl s : includes labelCore (nl ++ s) = includes labelCore s.
Proof. reflexivity. Qed.

Lemma noLt_of_includes (s : str) : includes [60] s = false -> noLt s.
Proof.
  induction s as [|c s IH]; intros E x Hx; [destruct Hx|].
  cbn [includes startsWith] in E. apply orb_false_iff in E as [E1 E2].
  destruct Hx as [<-|Hx]; [|now apply IH].
  intros ->. destruct s; discriminate.
Qed.

(** ** Symbolic evaluation of the handlers *)
Ltac walk := repeat first
  [ progress cbn beta iota
  | progress cbn [negb orb andb]
  | match goal with E : ?x = ?y |- context [?x] => rewrite E end ].

Ltac run := unfold bindM, lift, ret, throw, try_catch, console, emit; cbn beta iota.

Section Proofs.
Context `{Engine}.

Lemma escapeHtml_text (s : str) : escapeHtml (VString s) = Normal (flat_map escapeUnit s).
Proof.
  destruct s as [|c s]; [reflexivity|].
  unfold escapeHtml. cbn [truthy negb ToString bind]. now rewrite escapeString_units.
Qed.

(** C1.  For all texts [name], [email] and [message] and an optional text
    [company], [formatTelegramMessage] returns the fixed template in which
    every value is replaced character by character: each of the five special
    characters by its entity, any other character by itself.  The ampersand
    being replaced first, no entity is escaped again, and a special character
    of a value occurs in the message only inside an entity.  The company line
    is part of the message if and only if [company] is present and not purely
    white space: it is the line after the email line in that case and it is
    left out otherwise, and, [dateTime] (the rendering of the clock, digits
    and punctuation) being free of the less-than sign, the message includes
    the company label in that case only. *)
Theorem formatTelegramMessage_escapes
  (dateTime name email message : str) (company : option str) :
  exists out companyLine,
    formatTelegramMessage dateTime (VString name) (VString email)
      (optionalText company) (VString message) = Normal out
    /\ out = title ++ nameLabel ++ flat_map escapeUnit name ++ nl
               ++ emailLabel ++ flat_map escapeUnit email ++ nl
               ++ companyLine
               ++ messageLabel ++ flat_map escapeUnit message ++ nl ++ nl
               ++ sentLabel ++ dateTime
    /\ ((exists c, company = Some c /\ ~ purelyWhitespace c
                   /\ companyLine = companyLabel ++ flat_map escapeUnit c ++ nl)
        \/ (~ (exists c, company = Some c /\ ~ purelyWhitespace c) /\ companyLine = []))
    /\ (forall text, exists escaped,
          escapeHtml (VString text) = Normal escaped
          /\ escaped = flat_map escapeUnit text /\ Escaped escaped)
    /\ (includes [60] dateTime = false ->
        (includes companyLabel out = true <->
         exists c, company = Some c /\ ~ purelyWhitespace c)).
Proof.
  assert (Hesc : forall text, exists escaped,
             escapeHtml (VString text) = Normal escaped
             /\ escaped = flat_map escapeUnit text /\ Escaped escaped).
  { intros text. exists (flat_map escapeUnit text).
    split; [apply escapeHtml_text|]. split; [reflexivity|apply escaped_units]. }
  assert (Hplain : includes [60] dateTime = false ->
           includes labelCore
             (title ++ nameLabel ++ flat_map escapeUnit name ++ nl
                ++ emailLabel ++ flat_map escapeUnit email ++ nl
                ++ [] ++ messageLabel ++ flat_map escapeUnit message ++ nl ++ nl
                ++ sentLabel ++ dateTime) = false).
  { intros Hdate. apply noLt_of_includes in Hdate.
    rewrite core_title, core_nameLabel, core_skip, core_nl by apply units_noLt.
    rewrite core_emailLabel, core_skip, core_nl by apply units_noLt.
    cbn [app]. rewrite core_messageLabel, core_skip, !core_nl by apply units_noLt.
    rewrite core_sentLabel. now apply core_none. }
  assert (Hno : forall c, (company = None \/ company = Some c /\ purelyWhitespace c) ->
      formatTelegramMessage dateTime (VString name) (VString email)
        (optionalText company) (VString message)
      = Normal (title ++ nameLabel ++ flat_map escapeUnit name ++ nl
               ++ emailLabel ++ flat_map escapeUnit email ++ nl
               ++ [] ++ messageLabel ++ flat_map escapeUnit message ++ nl ++ nl
               ++ sentLabel ++ dateTime)).
  { intros c Hc. unfold formatTelegramMessage. rewrite !escapeHtml_text. cbn [bind].
    destruct Hc as [->|[-> Hc]].
    - cbn [optionalText truthy bind app].
      now rewrite <- !app_assoc.
    - cbn [optionalText]. destruct (truthy (VString c)); cbn [callStringMethod bind].
      + apply trim_nil in Hc. rewrite Hc. cbn [truthy bind app].
        now rewrite <- !app_assoc.
      + cbn [bind app]. now rewrite <- !app_assoc. }
  destruct company as [c|].
  - destruct (trim c) as [|t0 t] eqn:Et.
    + (* a blank company *)
      assert (Hw : purelyWhitespace c) by now apply trim_nil.
      assert (Habsent : ~ (exists c', Some c = Some c' /\ ~ purelyWhitespace c')).
      { intros (c' & [= <-] & Hn). now destruct Hn. }
      eexists; exists []. split; [apply (Hno c); right; now split|].
      split; [reflexivity|]. split; [right; now split|]. split; [exact Hesc|].
      intros Hdate. split.
      * intros E. apply core_of_label in E. rewrite (Hplain Hdate) in E. discriminate.
      * intros Hc. now destruct Habsent.
    + assert (Hw : ~ purelyWhitespace c).
      { intros Hw. apply trim_nil in Hw. rewrite Hw in Et. discriminate. }
      assert (Hc : truthy (VString c) = true).
      { destruct c; [discriminate Et|reflexivity]. }
      eexists; exists (companyLabel ++ flat_map escapeUnit c ++ nl).
      split.
      { unfold formatTelegramMessage. rewrite !escapeHtml_text. cbn [bind optionalText].
        rewrite Hc. cbn [callStringMethod bind]. rewrite Et. cbn [truthy bind].
        rewrite escapeHtml_text. cbn [bind]. rewrite <- !app_assoc. reflexivity. }
      split; [now rewrite <- !app_assoc|]. split; [left; now exists c|]. split; [exact Hesc|].
      intros _. split; [intros _; now exists c|]. intros _.
      do 7 apply includes_app_r. apply includes_startsWith, startsWith_app.
  - assert (Habsent : ~ (exists c', @None str = Some c' /\ ~ purelyWhitespace c')).
    { intros (c' & [=] & _). }
    eexists; exists []. split; [apply (Hno []); now left|].
    split; [reflexivity|]. split; [right; now split|]. split; [exact Hesc|].
    intros Hdate. split.
    + intros E. apply core_of_label in E. rewrite (Hplain Hdate) in E. discriminate.
    + intros Hc. now destruct Habsent.
Qed.

Lemma truthy_text (s : str) : s <> [] -> truthy (VString s) = true.
Proof. destruct s; [congruence|reflexivity]. Qed.

Lemma Get_coercible (v : value) (k : str) (x : value) :
  Get v k = Normal x -> RequireObjectCoercible v = Normal tt.
Proof. destruct v; simpl; intros E; try reflexivity; discriminate. Qed.

Lemma formatTelegramMessage_text (dateTime name email message : str) (company : option str) :
  exists text,
    formatTelegramMessage dateTime (VString name) (VString email)
      (optionalText company) (VString message) = Normal text.
Proof.
  unfold formatTelegramMessage. rewrite !escapeHtml_text. cbn [bind].
  destruct company as [c|]; cbn [optionalText].
  - destruct (truthy (VString c)); cbn [callStringMethod bind].
    + destruct (truthy (VString (trim c))); rewrite ?escapeHtml_text; cbn [bind]; eauto.
    + eauto.
  - cbn [truthy bind]. eauto.
Qed.

Lemma sendMessageUrl_env (w : World) :
  sendMessageUrl (process_env w "TELEGRAM_BOT_TOKEN") = Normal (endpoint w).
Proof.
  unfold sendMessageUrl, process_env, endpoint, tokenText.
  destruct (env w "TELEGRAM_BOT_TOKEN"); reflexivity.
Qed.

Lemma email_given (email : str) : regex_test emailRegex email = true -> email <> [].
Proof. intros E ->. discriminate E. Qed.

Lemma test_email (email : str) :
  regex_test emailRegex email = true -> test emailRegex (VString email) = Normal true.
Proof. intros E. unfold test. cbn [ToString bind]. now rewrite E. Qed.

(** The facts a valid submission puts at hand. *)
Ltac valid_facts Hv :=
  let Hn := fresh "Hn" in let Hn' := fresh "Hn'" in let He := fresh "He" in
  let He' := fresh "He'" in let Hc := fresh "Hc" in let Hm := fresh "Hm" in
  let Hm' := fresh "Hm'" in
  destruct Hv as [Hn Hn' He He' Hc Hm Hm'];
  pose proof (Get_coercible _ _ _ Hn);
  pose proof (truthy_text _ Hn');
  pose proof (truthy_text _ (email_given _ He'));
  pose proof (truthy_text _ Hm');
  pose proof (test_email _ He').

Lemma NetlifyPlain_front (w : World) (ev : NetlifyPlain.Event)
    parsed name email message company text t :
  NetlifyPlain.httpMethod ev = utf16 "POST" ->
  eventCarries (NetlifyPlain.event_body ev) parsed ->
  ValidSubmission parsed name email message company ->
  configured w ->
  formatTelegramMessage (dateTime w) (VString name) (VString email)
    (optionalText company) (VString message) = Normal text ->
  NetlifyPlain.handler w ev t =
  try_catch
    (let* r := fetch_json w (endpoint w) (basePayload (process_env w "TELEGRAM_CHAT_ID") text) in
     report r)
    (failure w) t.
Proof.
  intros Hpost (raw & Hraw & Hparse) Hv [Htok Hchat] Hfmt. valid_facts Hv.
  pose proof (sendMessageUrl_env w).
  unfold NetlifyPlain.handler, NetlifyPlain.sendTelegramMessage.
  rewrite Hpost, str_eqb_refl. run. walk. reflexivity.
Qed.

Lemma NetlifyTopic_front (w : World) (ev : NetlifyTopic.Event)
    parsed name email message company text t :
  NetlifyTopic.httpMethod ev = utf16 "POST" ->
  eventCarries (NetlifyTopic.event_body ev) parsed ->
  ValidSubmission parsed name email message company ->
  configured w ->
  formatTelegramMessage (dateTime w) (VString name) (VString email)
    (optionalText company) (VString message) = Normal text ->
  NetlifyTopic.handler w ev t =
  try_catch
    (let* r := fetch_json w (endpoint w)
                 (basePayload (process_env w "TELEGRAM_CHAT_ID") text ++ threadField w) in
     report r)
    (failure w) (t ++ topicWarning w).
Proof.
  intros Hpost (raw & Hraw & Hparse) Hv [Htok Hchat] Hfmt. valid_facts Hv.
  pose proof (sendMessageUrl_env w).
  unfold NetlifyTopic.handler, NetlifyTopic.sendTelegramMessage, threadField, topicWarning.
  rewrite Hpost, str_eqb_refl. run. walk.
  destruct (truthy (process_env w "TELEGRAM_TOPIC_ID")); cbn [andb negb].
  - destruct (isNaN (Number (process_env w "TELEGRAM_TOPIC_ID"))) eqn:E; walk.
    + reflexivity.
    + rewrite !app_nil_r. reflexivity.
  - walk. rewrite !app_nil_r. reflexivity.
Qed.

Lemma VercelPlain_front (w : World) (req : VercelPlain.Request)
    name email message company text t :
  VercelPlain.method req = utf16 "POST" ->
  ValidSubmission (VercelPlain.req_body req) name email message company ->
  configured w ->
  formatTelegramMessage (dateTime w) (VString name) (VString email)
    (optionalText company) (VString message) = Normal text ->
  VercelPlain.handler w req t =
  try_catch
    (let* r := fetch_json w (endpoint w) (basePayload (process_env w "TELEGRAM_CHAT_ID") text) in
     report r)
    (failure w) t.
Proof.
  intros Hpost Hv [Htok Hchat] Hfmt. valid_facts Hv.
  pose proof (sendMessageUrl_env w).
  unfold VercelPlain.handler, VercelPlain.sendTelegramMessage.
  rewrite Hpost, str_eqb_refl. run. walk. reflexivity.
Qed.

Lemma caught {A} (block : M A) (handler : error -> M A) t e t' :
  block t = (Throw e, t') -> try_catch block handler t = handler e t'.
Proof. intros E. unfold try_catch. now rewrite E. Qed.

Lemma returned {A} (block : M A) (handler : error -> M A) t a t' :
  block t = (Normal a, t') -> try_catch block handler t = (Normal a, t').
Proof. intros E. unfold try_catch. now rewrite E. Qed.

Lemma failure_generic (w : World) (e : error) t :
  exists resp,
    failure w e t
    = (Normal resp, t ++ [Console ConsoleError "Error sending Telegram notification:"])
    /\ genericFailure resp
    /\ hasField resp "details" = strictEqualsString (process_env w "NODE_ENV") "development".
Proof.
  unfold failure. run. eexists. split; [reflexivity|].
  destruct (strictEqualsString (process_env w "NODE_ENV") "development");
    repeat split; reflexivity.
Qed.

Lemma report_ok (r ok res mid : value) t :
  Get r "ok" = Normal ok -> truthy ok = true ->
  Get r "result" = Normal res -> Get res "message_id" = Normal mid ->
  report r t
  = (Normal (respond 200 [(utf16 "success", VBool true);
                          (utf16 "message", VString sentOk);
                          (utf16 "messageId", mid)]), t).
Proof. intros. unfold report. run. walk. reflexivity. Qed.

Lemma report_refused (r : value) :
  (forall ok, Get r "ok" = Normal ok -> truthy ok = false) ->
  exists e, forall t, report r t = (Throw e, t).
Proof.
  intros Hok. unfold report. run.
  destruct (Get r "ok") as [ok|e] eqn:E; [|eauto].
  rewrite (Hok ok eq_refl).
  destruct (Get r "description") as [d|e]; [|eauto].
  destruct (ToString (or_else d (VString "Unknown error"))); eauto.
Qed.

Lemma report_no_result (r ok res : value) :
  Get r "ok" = Normal ok -> truthy ok = true ->
  Get r "result" = Normal res -> res = VUndefined \/ res = VNull ->
  exists e, forall t, report r t = (Throw e, t).
Proof.
  intros Hok Ht Hres Hnull. unfold report. run. walk.
  destruct Hnull as [-> | ->]; cbn; eauto.
Qed.

(** The forwarding step of the three files without CORS, by the answer of
    the network. *)
Lemma forward_ok (w : World) url requestBody (r ok res mid : value) t :
  fetch w url requestBody = Normal r ->
  Get r "ok" = Normal ok -> truthy ok = true ->
  Get r "result" = Normal res -> Get res "message_id" = Normal mid ->
  try_catch (let* r := fetch_json w url requestBody in report r) (failure w) t
  = (Normal (respond 200 [(utf16 "success", VBool true);
                          (utf16 "message", VString sentOk);
                          (utf16 "messageId", mid)]),
     t ++ [Fetch url requestBody]).
Proof.
  intros Hf Hok Ht Hres Hmid. apply returned.
  unfold fetch_json. run. rewrite Hf. cbn beta iota.
  now apply report_ok with (ok := ok) (res := res).
Qed.

Lemma forward_throw (w : World) url requestBody t :
  (forall r, fetch w url requestBody = Normal r -> exists e, forall t, report r t = (Throw e, t)) ->
  exists resp,
    try_catch (let* r := fetch_json w url requestBody in report r) (failure w) t
    = (Normal resp, t ++ [Fetch url requestBody]
                      ++ [Console ConsoleError "Error sending Telegram notification:"])
    /\ genericFailure resp
    /\ hasField resp "details" = strictEqualsString (process_env w "NODE_ENV") "development".
Proof.
  intros Hr.
  assert (exists e, (let* r := fetch_json w url requestBody in report r) t
                    = (Throw e, t ++ [Fetch url requestBody])) as (e & He).
  { unfold fetch_json. run.
    destruct (fetch w url requestBody) as [r|e]; [|eauto].
    destruct (Hr r eq_refl) as (e & He). exists e. apply He. }
  rewrite (caught _ _ _ _ _ He).
  destruct (failure_generic w e (t ++ [Fetch url requestBody])) as (resp & E & G).
  rewrite <- app_assoc in E. eauto.
Qed.

(** *** The CORS-aware file *)

Lemma Get_object (v : value) (k s : str) :
  Get v k = Normal (VString s) -> truthy v = true.
Proof. destruct v; simpl; intros E; try reflexivity; discriminate. Qed.

Lemma cors_send (w : World) (chatId : value) (text : str) t :
  match fetch w (endpoint w) (basePayload chatId text) with
  | Normal r =>
    exists t', VercelCors.sendTelegramMessage w (process_env w "TELEGRAM_BOT_TOKEN") chatId text t
               = (Normal r, t')
  | Throw e =>
    exists t', VercelCors.sendTelegramMessage w (process_env w "TELEGRAM_BOT_TOKEN") chatId text t
               = (Throw (Error (utf16 "Failed to call Telegram API: " ++ message e)), t')
  end.
Proof.
  pose proof (sendMessageUrl_env w).
  unfold VercelCors.sendTelegramMessage, fetch_json. run. walk.
  fold (basePayload chatId text).
  destruct (fetch w (endpoint w) (basePayload chatId text)); eauto.
Qed.

Lemma cors_failure_generic (e : error) t :
  exists resp t',
    VercelCors.failure e t = (Normal resp, t')
    /\ genericFailure resp
    /\ hasField resp "details" = true.
Proof.
  unfold VercelCors.failure. run. do 2 eexists. split; [reflexivity|].
  unfold or_else. destruct (truthy (VString (message e))); repeat split; reflexivity.
Qed.

Lemma cors_report_ok (r ok res mid : value) t :
  Get r "ok" = Normal ok -> truthy ok = true ->
  Get r "result" = Normal res -> Get res "message_id" = Normal mid ->
  exists t',
    VercelCors.report r t
    = (Normal (VercelCors.respond 200 [(utf16 "success", VBool true);
                                       (utf16 "message", VString sentOk);
                                       (utf16 "messageId", mid)]), t').
Proof.
  intros Hok Ht Hres Hmid.
  assert (exists c, Get r "error_code" = Normal c) as (c & Hc).
  { destruct r; try discriminate Hok; simpl; eauto. }
  assert (exists d, Get r "description" = Normal d) as (d & Hd).
  { destruct r; try discriminate Hok; simpl; eauto. }
  unfold VercelCors.report. run. walk. eauto.
Qed.

Lemma cors_report_refused (r : value) t :
  (forall ok, Get r "ok" = Normal ok -> truthy ok = false) ->
  exists e t', VercelCors.report r t = (Throw e, t').
Proof.
  intros Hok. unfold VercelCors.report. run.
  destruct (Get r "ok") as [ok|e] eqn:E; [|eauto].
  rewrite (Hok ok eq_refl).
  destruct (Get r "error_code") as [c|e]; [|eauto].
  destruct (Get r "description") as [d|e]; [|eauto].
  destruct (ToString (or_else c (VString "unknown"))); [|eauto].
  destruct (ToString (or_else d (VString "Unknown error"))); eauto.
Qed.

Lemma cors_report_no_result (r ok res : value) t :
  Get r "ok" = Normal ok -> truthy ok = true ->
  Get r "result" = Normal res -> res = VUndefined \/ res = VNull ->
  exists e t', VercelCors.report r t = (Throw e, t').
Proof.
  intros Hok Ht Hres Hnull.
  assert (exists c, Get r "error_code" = Normal c) as (c & Hc).
  { destruct r; try discriminate Hok; simpl; eauto. }
  assert (exists d, Get r "description" = Normal d) as (d & Hd).
  { destruct r; try discriminate Hok; simpl; eauto. }
  unfold VercelCors.report. run. walk.
  destruct Hnull as [-> | ->]; cbn; eauto.
Qed.

Lemma VercelCors_front (w : World) (req : VercelCors.Request)
    parsed name email message company text t :
  VercelCors.method req = utf16 "POST" ->
  requestCarries (VercelCors.req_body req) parsed ->
  ValidSubmission parsed name email message company ->
  configured w ->
  isNaN (Number (process_env w "TELEGRAM_CHAT_ID")) = false ->
  formatTelegramMessage (dateTime w) (VString name) (VString email)
    (optionalText company) (VString message) = Normal text ->
  exists t1, VercelCors.handler w req t = try_catch (corsBlock w text) VercelCors.failure t1.
Proof.
  intros Hpost Hcarries Hv [Htok Hchat] Hnum Hfmt.
  pose proof (Get_object _ _ _ (name_read _ _ _ _ _ Hv)) as Hobj.
  valid_facts Hv.
  assert (Hopt : str_eqb "POST" "OPTIONS" = false) by reflexivity.
  assert (Hprocess : forall t0, VercelCors.process w parsed t0
            = corsBlock w text
                (t0 ++ [Console ConsoleLog "Telegram configuration check:";
                        Console ConsoleLog "- BOT_TOKEN exists:";
                        Console ConsoleLog "- BOT_TOKEN length:";
                        Console ConsoleLog "- CHAT_ID exists:";
                        Console ConsoleLog "- CHAT_ID value:";
                        Console ConsoleLog "✅ Configuration valid";
                        Console ConsoleLog "📝 Form data received:";
                        Console ConsoleLog "📨 Formatted Telegram message length:";
                        Console ConsoleLog "🚀 Sending message to Telegram API..."])).
  { unfold VercelCors.process, corsBlock, or_else. rewrite Hobj.
    intros t0. run. walk.
    destruct company as [c|]; cbn [optionalText truthy callStringMethod].
    - destruct c; walk; rewrite <- !app_assoc; cbn [app]; reflexivity.
    - walk; rewrite <- !app_assoc; cbn [app]; reflexivity. }
  unfold VercelCors.handler. rewrite Hpost, Hopt, str_eqb_refl. cbn [negb].
  eexists. unfold try_catch at 1. unfold bindM at 1 2. unfold console, emit. cbn beta iota.
  unfold requestCarries in Hcarries.
  destruct (VercelCors.req_body req); subst; try rewrite Hcarries; rewrite Hprocess; reflexivity.
Qed.

Lemma Get_accepted (n : number) :
  Get (accepted n) "ok" = Normal (VBool true)
  /\ Get (accepted n) "result" = Normal (VObject [(utf16 "message_id", VNumber n)])
  /\ Get (VObject [(utf16 "message_id", VNumber n)]) "message_id" = Normal (VNumber n).
Proof. repeat split; reflexivity. Qed.

Lemma forwards_plain (w : World) url requestBody t :
  Forwards w (try_catch (let* r := fetch_json w url requestBody in report r) (failure w) t).
Proof.
  split.
  - intros n Hd. destruct (Get_accepted n) as (A & B & C).
    pose proof (forward_ok w url requestBody (accepted n) (VBool true)
                  (VObject [(utf16 "message_id", VNumber n)]) (VNumber n) t
                  (Hd _ _) A eq_refl B C) as E.
    do 2 eexists. split; [exact E|]. split; reflexivity.
  - intros r Hd Hok.
    destruct (forward_throw w url requestBody t) as (resp & E & G & _).
    { intros r' Hr'. rewrite Hd in Hr'. injection Hr' as <-. now apply report_refused. }
    exists resp; eauto.
  - intros Hd.
    destruct (forward_throw w url requestBody t) as (resp & E & G & _).
    { intros r' Hr'. destruct (Hd url requestBody) as (e & He). congruence. }
    exists resp; eauto.
  - intros r ok res Hd Hok Ht Hres Hnull.
    destruct (forward_throw w url requestBody t) as (resp & E & G & _).
    { intros r' Hr'. rewrite Hd in Hr'. injection Hr' as <-.
      now apply report_no_result with (ok := ok) (res := res). }
    exists resp; eauto.
Qed.

Lemma cors_caught (w : World) (text : str) t :
  (forall r, fetch w (endpoint w) (basePayload (VNumber (Number (process_env w "TELEGRAM_CHAT_ID"))) text)
             = Normal r ->
             forall t0, exists e t', VercelCors.report r t0 = (Throw e, t')) ->
  exists resp trace,
    try_catch (corsBlock w text) VercelCors.failure t = (Normal resp, trace)
    /\ genericFailure resp /\ hasField resp "details" = true.
Proof.
  intros Hr.
  assert (exists e t', corsBlock w text t = (Throw e, t')) as (e & t' & He).
  { unfold corsBlock.
    pose proof (cors_send w (VNumber (Number (process_env w "TELEGRAM_CHAT_ID"))) text t) as Hs.
    destruct (fetch w (endpoint w) _) as [r|e].
    - destruct Hs as (t' & Hs). unfold bindM at 1. rewrite Hs. run.
      destruct (Hr r eq_refl (t' ++ [Console ConsoleLog "📥 Telegram API response received:"]))
        as (e & t'' & E). rewrite E. eauto.
    - destruct Hs as (t' & Hs). unfold bindM at 1. rewrite Hs. eauto. }
  rewrite (caught _ _ _ _ _ He).
  destruct (cors_failure_generic e t') as (resp & t'' & E & G). eauto.
Qed.

Lemma forwards_cors (w : World) (text : str) t :
  Forwards w (try_catch (corsBlock w text) VercelCors.failure t).
Proof.
  split.
  - intros n Hd. destruct (Get_accepted n) as (A & B & C).
    pose proof (cors_send w (VNumber (Number (process_env w "TELEGRAM_CHAT_ID"))) text t) as Hs.
    rewrite Hd in Hs. destruct Hs as (t' & Hs).
    destruct (cors_report_ok (accepted n) (VBool true)
                (VObject [(utf16 "message_id", VNumber n)]) (VNumber n)
                (t' ++ [Console ConsoleLog "📥 Telegram API response received:"]) A eq_refl B C)
      as (t'' & E).
    do 2 eexists. split; [|split].
    + apply returned. unfold corsBlock. unfold bindM at 1. rewrite Hs. run. rewrite E. reflexivity.
    + reflexivity.
    + reflexivity.
  - intros r Hd Hok.
    destruct (cors_caught w text t) as (resp & trace & E & G & _).
    { intros r' Hr' t0. rewrite Hd in Hr'. injection Hr' as <-. now apply cors_report_refused. }
    exists resp; eauto.
  - intros Hd.
    destruct (cors_caught w text t) as (resp & trace & E & G & _).
    { intros r' Hr'. destruct (Hd (endpoint w)
        (basePayload (VNumber (Number (process_env w "TELEGRAM_CHAT_ID"))) text)) as (e & He).
      congruence. }
    exists resp; eauto.
  - intros r ok res Hd Hok Ht Hres Hnull.
    destruct (cors_caught w text t) as (resp & trace & E & G & _).
    { intros r' Hr' t0. rewrite Hd in Hr'. injection Hr' as <-.
      now apply cors_report_no_result with (ok := ok) (res := res). }
    exists resp; eauto.
Qed.

(** Every handler, given a valid submission and a valid configuration,
    ends in the forwarding step. *)
Lemma handlers_forward (w : World) parsed name email message company evP evT rqP rqC result :
  ValidSubmission parsed name email message company ->
  validConfiguration w ->
  Posted parsed evP evT rqP rqC ->
  In result [NetlifyPlain.handler w evP []; NetlifyTopic.handler w evT [];
             VercelPlain.handler w rqP []; VercelCors.handler w rqC []] ->
  Forwards w result.
Proof.
  intros Hv [Hc Hnum] Hp Hin.
  destruct (formatTelegramMessage_text (dateTime w) name email message company) as (text & Hfmt).
  destruct Hp. simpl in Hin. destruct Hin as [<-|[<-|[<-|[<-|[]]]]].
  - erewrite NetlifyPlain_front by eassumption. apply forwards_plain.
  - erewrite NetlifyTopic_front by eassumption. apply forwards_plain.
  - subst parsed. erewrite VercelPlain_front by eassumption. apply forwards_plain.
  - destruct (VercelCors_front w rqC parsed name email message company text [])
      as (t1 & ->); auto.
    apply forwards_cors.
Qed.

Lemma str_eqb_neq (a b : str) : a <> b -> str_eqb a b = false.
Proof.
  intros N. destruct (str_eqb a b) eqn:E; [|reflexivity].
  apply str_eqb_eq in E. contradiction.
Qed.

(** C5.  Each handler answers a request whose method is not POST (and, in
    the CORS-aware file, not OPTIONS) with status 405 and a body whose
    [success] is false and whose [error] begins with the words
    Method not allowed.  The CORS-aware handler answers OPTIONS with status
    200, the four permissive CORS headers and no body, before the method is
    compared with POST. *)
Theorem method_not_allowed (w : World) (evP : NetlifyPlain.Event) (evT : NetlifyTopic.Event)
    (rqP : VercelPlain.Request) (rqC : VercelCors.Request) :
  (NetlifyPlain.httpMethod evP <> utf16 "POST" -> rejectsMethod (NetlifyPlain.handler w evP []))
  /\ (NetlifyTopic.httpMethod evT <> utf16 "POST" -> rejectsMethod (NetlifyTopic.handler w evT []))
  /\ (VercelPlain.method rqP <> utf16 "POST" -> rejectsMethod (VercelPlain.handler w rqP []))
  /\ (VercelCors.method rqC <> utf16 "POST" -> VercelCors.method rqC <> utf16 "OPTIONS" ->
      rejectsMethod (VercelCors.handler w rqC []))
  /\ (VercelCors.method rqC = utf16 "OPTIONS" ->
      exists trace,
        VercelCors.handler w rqC []
        = (Normal {| statusCode := 200;
                     headers := [(utf16 "Access-Control-Allow-Origin", utf16 "*");
                                 (utf16 "Access-Control-Allow-Methods", utf16 "POST, OPTIONS");
                                 (utf16 "Access-Control-Allow-Headers",
                                  utf16 "Content-Type, Authorization");
                                 (utf16 "Access-Control-Max-Age", utf16 "86400")];
                     body := None |}, trace)).
Proof.
  repeat split.
  - intros N. unfold NetlifyPlain.handler. rewrite (str_eqb_neq _ _ N). cbn [negb].
    do 3 eexists. split; [reflexivity|]. repeat split; reflexivity.
  - intros N. unfold NetlifyTopic.handler. rewrite (str_eqb_neq _ _ N). cbn [negb].
    do 3 eexists. split; [reflexivity|]. repeat split; reflexivity.
  - intros N. unfold VercelPlain.handler. rewrite (str_eqb_neq _ _ N). cbn [negb].
    do 3 eexists. split; [reflexivity|]. repeat split; reflexivity.
  - intros N O. unfold VercelCors.handler.
    rewrite (str_eqb_neq _ _ N), (str_eqb_neq _ _ O). cbn [negb]. run.
    do 3 eexists. split; [reflexivity|]. repeat split; reflexivity.
  - intros O. unfold VercelCors.handler. rewrite O. run.
    eexists. reflexivity.
Qed.

(** C3.  A POST with valid body fields, in an environment where the bot
    token or the chat id is missing or empty, is answered by each handler with
    status 500, [success] false and the not-configured message, and the trace
    of the invocation holds no outbound request. *)
Theorem not_configured_no_outbound_call (w : World) parsed name email message company
    evP evT rqP rqC result :
  ValidSubmission parsed name email message company ->
  Posted parsed evP evT rqP rqC ->
  truthy (process_env w "TELEGRAM_BOT_TOKEN") = false \/
  truthy (process_env w "TELEGRAM_CHAT_ID") = false ->
  In result [NetlifyPlain.handler w evP []; NetlifyTopic.handler w evT [];
             VercelPlain.handler w rqP []; VercelCors.handler w rqC []] ->
  reportsNotConfigured result.
Proof.
  intros Hv Hp Hmissing Hin.
  assert (Hcheck : negb (truthy (process_env w "TELEGRAM_BOT_TOKEN"))
                  || negb (truthy (process_env w "TELEGRAM_CHAT_ID")) = true).
  { destruct Hmissing as [-> | ->]; [reflexivity|apply orb_true_r]. }
  pose proof (Get_object _ _ _ (name_read _ _ _ _ _ Hv)) as Hobj.
  valid_facts Hv.
  destruct Hp as [Pp [rawP [PtP PpP]] Tp [rawT [TtT TpT]] Vp Vb Cp Cb].
  simpl in Hin. destruct Hin as [<-|[<-|[<-|[<-|[]]]]].
  - unfold NetlifyPlain.handler. rewrite Pp, str_eqb_refl. run. walk.
    do 3 eexists. split; [reflexivity|]. repeat split; reflexivity.
  - unfold NetlifyTopic.handler. rewrite Tp, str_eqb_refl. run. walk.
    do 3 eexists. split; [reflexivity|]. repeat split; reflexivity.
  - subst parsed. unfold VercelPlain.handler. rewrite Vp, str_eqb_refl. run. walk.
    do 3 eexists. split; [reflexivity|]. repeat split; reflexivity.
  - assert (Hopt : str_eqb "POST" "OPTIONS" = false) by reflexivity.
    assert (Hprocess : exists resp trace msg,
               VercelCors.process w parsed
                 [Console ConsoleLog "📥 Incoming request:";
                  Console ConsoleLog "✅ POST request received"] = (Normal resp, trace)
               /\ statusCode resp = 500
               /\ field resp "success" = VBool false
               /\ field resp "error" = VString msg
               /\ startsWith "Telegram bot not configured" msg = true
               /\ noOutboundCall trace).
    { unfold VercelCors.process, or_else. rewrite Hobj. run. walk.
      do 3 eexists. split; [reflexivity|]. repeat split; reflexivity. }
    destruct Hprocess as (resp & trace & msg & E & G).
    exists resp, trace, msg. split; [|exact G].
    unfold VercelCors.handler. rewrite Cp, Hopt, str_eqb_refl. cbn [negb].
    unfold try_catch, bindM at 1 2, console, emit. cbn beta iota. cbn [app].
    unfold requestCarries in Cb.
    destruct (VercelCors.req_body rqC); first [rewrite Cb | rewrite <- Cb]; rewrite E; reflexivity.
Qed.

(** C2.  For a valid submission and a valid configuration, each handler
    answers 200 with [success] true and [messageId] n when the downstream API
    returns the object with [ok] true and [result.message_id] n (42 is one
    such n); and answers 500 with [success] false and the generic failure
    message when the downstream API returns an object whose [ok] is falsy, or
    when the network call throws. *)
Theorem downstream_result_mapped (w : World) parsed name email message company
    evP evT rqP rqC result :
  ValidSubmission parsed name email message company ->
  validConfiguration w ->
  Posted parsed evP evT rqP rqC ->
  In result [NetlifyPlain.handler w evP []; NetlifyTopic.handler w evT [];
             VercelPlain.handler w rqP []; VercelCors.handler w rqC []] ->
  (forall n, downstreamReturns w (accepted n) -> respondsSent result n)
  /\ (forall props,
        truthy (lookup "ok" props) = false ->
        downstreamReturns w (VObject props) -> respondsFailure result)
  /\ (downstreamFails w -> respondsFailure result).
Proof.
  intros Hv Hc Hp Hin.
  destruct (handlers_forward w _ _ _ _ _ _ _ _ _ _ Hv Hc Hp Hin) as [A R T _].
  split; [exact A|]. split; [|exact T].
  intros props Hok Hd. apply (R (VObject props) Hd).
  intros ok [= <-]. exact Hok.
Qed.

(** C10.  For a valid submission and a valid configuration, when the
    downstream API returns an object with [ok] true and no [result] (absent,
    or null), reading [result.message_id] throws and each handler answers 500
    with [success] false and the generic failure message, without any
    [messageId]. *)
Theorem ok_without_result_is_failure (w : World) parsed name email message company
    evP evT rqP rqC result props :
  ValidSubmission parsed name email message company ->
  validConfiguration w ->
  Posted parsed evP evT rqP rqC ->
  In result [NetlifyPlain.handler w evP []; NetlifyTopic.handler w evT [];
             VercelPlain.handler w rqP []; VercelCors.handler w rqC []] ->
  lookup "ok" props = VBool true ->
  lookup "result" props = VUndefined \/ lookup "result" props = VNull ->
  downstreamReturns w (VObject props) ->
  exists resp trace,
    result = (Normal resp, trace)
    /\ statusCode resp = 500
    /\ field resp "success" = VBool false
    /\ field resp "error" = VString sendFailed
    /\ hasField resp "messageId" = false.
Proof.
  intros Hv Hc Hp Hin Hok Hres Hd.
  destruct (handlers_forward w _ _ _ _ _ _ _ _ _ _ Hv Hc Hp Hin) as [_ _ _ N].
  assert (Gok : Get (VObject props) "ok" = Normal (VBool true)).
  { unfold Get. now rewrite Hok. }
  destruct (N (VObject props) (VBool true) (lookup "result" props) Hd Gok eq_refl eq_refl Hres)
    as (resp & trace & E & G).
  exists resp, trace. split; [exact E|exact G].
Qed.

Lemma escapeUnit_length (c : N) :
  (if isSpecial c then 4 <= List.length (escapeUnit c) else List.length (escapeUnit c) = 1)%nat.
Proof.
  unfold isSpecial, escapeUnit. cbn [existsb].
  destruct (c =? 38); [cbn; lia|].
  destruct (c =? 60); [cbn; lia|].
  destruct (c =? 62); [cbn; lia|].
  destruct (c =? 34); [cbn; lia|].
  destruct (c =? 39); cbn; lia.
Qed.

Lemma escapeUnit_special (c : N) :
  isSpecial c = true -> existsb isSpecial (escapeUnit c) = true.
Proof.
  unfold isSpecial at 1, escapeUnit. cbn [existsb].
  destruct (c =? 38); [reflexivity|].
  destruct (c =? 60); [reflexivity|].
  destruct (c =? 62); [reflexivity|].
  destruct (c =? 34); [reflexivity|].
  destruct (c =? 39); [reflexivity|discriminate].
Qed.

Lemma units_length (s : str) :
  (List.length s <= List.length (flat_map escapeUnit s))%nat
  /\ (existsb isSpecial s = true ->
       (List.length s < List.length (flat_map escapeUnit s))%nat
       /\ existsb isSpecial (flat_map escapeUnit s) = true).
Proof.
  induction s as [|c s [IH1 IH2]]; [split; [reflexivity|discriminate]|].
  cbn [flat_map existsb]. rewrite length_app, existsb_app. cbn [List.length].
  pose proof (escapeUnit_length c) as L. pose proof (escapeUnit_special c) as S.
  destruct (isSpecial c).
  - split; [lia|]. intros _. split; [lia|]. now rewrite S.
  - split; [lia|]. cbn [orb]. intros E. destruct (IH2 E) as [A B]. split; [lia|].
    rewrite B. apply orb_true_r.
Qed.

(** C9.  Escaping is a single pass and not idempotent: for every text that
    holds one of the five special characters, escaping the escaped text gives
    a text different from the escaped text (the ampersand of every entity is
    escaped again). *)
Theorem escapeHtml_not_idempotent (text : str) :
  existsb isSpecial text = true ->
  exists once twice,
    escapeHtml (VString text) = Normal once
    /\ escapeHtml (VString once) = Normal twice
    /\ twice <> once.
Proof.
  intros E. exists (flat_map escapeUnit text), (flat_map escapeUnit (flat_map escapeUnit text)).
  split; [apply escapeHtml_text|]. split; [apply escapeHtml_text|].
  destruct (units_length text) as [_ L]. destruct (L E) as [_ S].
  destruct (units_length (flat_map escapeUnit text)) as [_ L']. destruct (L' S) as [Lt _].
  intros Eq. rewrite Eq in Lt. lia.
Qed.

Example escapeHtml_amp_twice :
  escapeHtml (VString "&") = Normal (utf16 "&amp;")
  /\ escapeHtml (VString "&amp;") = Normal (utf16 "&amp;amp;").
Proof. split; reflexivity. Qed.

Lemma report_trace (r : value) : exists c, forall t, report r t = (c, t).
Proof.
  unfold report. run.
  destruct (Get r "ok") as [ok|e]; [|eauto].
  destruct (truthy ok).
  - destruct (Get r "result") as [res|e]; [|eauto].
    destruct (Get res "message_id"); eauto.
  - destruct (Get r "description") as [d|e]; [|eauto].
    destruct (ToString (or_else d (VString "Unknown error"))); eauto.
Qed.

Lemma forward_total (w : World) url requestBody t :
  exists resp tail,
    try_catch (let* r := fetch_json w url requestBody in report r) (failure w) t
    = (Normal resp, t ++ [Fetch url requestBody] ++ tail)
    /\ noOutboundCall tail.
Proof.
  unfold fetch_json, try_catch. run.
  destruct (fetch w url requestBody) as [r|e].
  - destruct (report_trace r) as ([a|e] & E); rewrite E.
    + exists a, []. rewrite app_nil_r. now split.
    + destruct (failure_generic w e (t ++ [Fetch url requestBody])) as (resp & F & _).
      rewrite F. exists resp. eexists. rewrite <- app_assoc. split; reflexivity.
  - destruct (failure_generic w e (t ++ [Fetch url requestBody])) as (resp & F & _).
    rewrite F. exists resp. eexists. rewrite <- app_assoc. split; reflexivity.
Qed.

(** C8.  In the topic-aware handler, for a valid submission and both secrets
    set: the handler always answers, after exactly one outbound request whose
    body holds [message_thread_id] if and only if TELEGRAM_TOPIC_ID is set and
    coerces to a number that is not NaN.  When it is set and coerces to NaN
    the warning is logged, the request body is the plain one, and the answer
    is 200 as soon as the downstream API accepts the message. *)
Theorem topic_fallback (w : World) (ev : NetlifyTopic.Event) parsed name email message company :
  NetlifyTopic.httpMethod ev = utf16 "POST" ->
  eventCarries (NetlifyTopic.event_body ev) parsed ->
  ValidSubmission parsed name email message company ->
  configured w ->
  let TOPIC_ID := process_env w "TELEGRAM_TOPIC_ID" in
  exists text resp tail,
    let requestBody := basePayload (process_env w "TELEGRAM_CHAT_ID") text ++ threadField w in
    formatTelegramMessage (dateTime w) (VString name) (VString email)
      (optionalText company) (VString message) = Normal text
    /\ NetlifyTopic.handler w ev []
       = (Normal resp, topicWarning w ++ [Fetch (endpoint w) requestBody] ++ tail)
    /\ noOutboundCall tail
    /\ (hasProperty "message_thread_id" requestBody = true <->
        truthy TOPIC_ID = true /\ isNaN (Number TOPIC_ID) = false)
    /\ (truthy TOPIC_ID = true -> isNaN (Number TOPIC_ID) = true ->
        topicWarning w
        = [Console ConsoleWarn "Invalid TOPIC_ID format, will send to general chat"]
        /\ requestBody = basePayload (process_env w "TELEGRAM_CHAT_ID") text
        /\ forall n, downstreamReturns w (accepted n) ->
                     statusCode resp = 200 /\ field resp "messageId" = VNumber n).
Proof.
  intros Hpost Hcarries Hv Hc TOPIC_ID.
  destruct (formatTelegramMessage_text (dateTime w) name email message company) as (text & Hfmt).
  pose proof (NetlifyTopic_front w ev parsed name email message company text []
                Hpost Hcarries Hv Hc Hfmt) as Hfront.
  cbn [app] in Hfront.
  destruct (forward_total w (endpoint w)
              (basePayload (process_env w "TELEGRAM_CHAT_ID") text ++ threadField w)
              (topicWarning w)) as (resp & tail & E & Q).
  exists text, resp, tail. cbn zeta.
  split; [exact Hfmt|]. split; [now rewrite Hfront|]. split; [exact Q|].
  split.
  - unfold hasProperty. rewrite existsb_app. unfold threadField. fold TOPIC_ID.
    destruct (truthy TOPIC_ID); destruct (isNaN (Number TOPIC_ID)); cbn; intuition congruence.
  - intros Ht Hn. unfold topicWarning, threadField. fold TOPIC_ID. rewrite Ht, Hn. cbn [andb negb].
    split; [reflexivity|]. split; [apply app_nil_r|].
    intros n Hd.
    destruct (forwards_plain w (endpoint w)
                (basePayload (process_env w "TELEGRAM_CHAT_ID") text ++ threadField w)
                (topicWarning w)) as [A _ _ _].
    destruct (A n Hd) as (resp' & trace' & E' & S & B).
    rewrite E in E'. injection E' as -> _.
    split; [exact S|]. unfold field. rewrite B. reflexivity.
Qed.

Lemma quiet_ret (r : response) : hasField r "details" = false -> Quiet (ret r).
Proof. intros E t a t' [= <- _]. exact E. Qed.

Lemma quiet_throw (e : error) : Quiet (throw e).
Proof. intros t a t' [=]. Qed.

Lemma quiet_bind {A} (m : M A) (k : A -> M response) :
  (forall x, Quiet (k x)) -> Quiet (bindM m k).
Proof.
  intros Hk t a t'. unfold bindM. destruct (m t) as [[x|e] t1]; [apply Hk|discriminate].
Qed.

Lemma quiet_sent (mid : value) :
  Quiet (ret (respond 200 [(utf16 "success", VBool true);
                           (utf16 "message", VString sentOk);
                           (utf16 "messageId", mid)])).
Proof. apply quiet_ret. destruct mid; reflexivity. Qed.

Ltac quiet := repeat first
  [ apply quiet_throw
  | apply quiet_sent
  | apply quiet_ret; reflexivity
  | apply quiet_bind; intros
  | match goal with |- Quiet (if ?b then _ else _) => destruct b end
  | progress cbn zeta ].

Lemma report_quiet (r : value) : Quiet (report r).
Proof. unfold report. quiet. Qed.

Lemma caught_or_quiet (w : World) (block : M response) t resp trace :
  Quiet block ->
  try_catch block (failure w) t = (Normal resp, trace) ->
  hasField resp "details" = true ->
  process_env w "NODE_ENV" = VString "development".
Proof.
  intros Q E D. unfold try_catch in E.
  destruct (block t) as [[a|e] t1] eqn:B.
  - injection E as <- _. rewrite (Q _ _ _ B) in D. discriminate.
  - destruct (failure_generic w e t1) as (resp' & F & _ & G).
    rewrite F in E. injection E as <- _. rewrite G in D.
    unfold strictEqualsString in D.
    destruct (process_env w "NODE_ENV"); try discriminate.
    apply str_eqb_eq in D. now subst.
Qed.

(** X24.  In the three files without CORS, an answer carries [details]
    only in development mode. *)
Lemma details_only_in_development (w : World) evP evT rqP result resp trace :
  In result [NetlifyPlain.handler w evP []; NetlifyTopic.handler w evT [];
             VercelPlain.handler w rqP []] ->
  result = (Normal resp, trace) ->
  hasField resp "details" = true ->
  process_env w "NODE_ENV" = VString "development".
Proof.
  intros Hin E D. simpl in Hin. destruct Hin as [<-|[<-|[<-|[]]]].
  - unfold NetlifyPlain.handler in E.
    destruct (negb (str_eqb (NetlifyPlain.httpMethod evP) "POST")).
    + injection E as <- _. discriminate D.
    + eapply caught_or_quiet; [|exact E|exact D].
      unfold NetlifyPlain.sendTelegramMessage. quiet; apply report_quiet.
  - unfold NetlifyTopic.handler in E.
    destruct (negb (str_eqb (NetlifyTopic.httpMethod evT) "POST")).
    + injection E as <- _. discriminate D.
    + eapply caught_or_quiet; [|exact E|exact D].
      unfold NetlifyTopic.sendTelegramMessage. quiet; apply report_quiet.
  - unfold VercelPlain.handler in E.
    destruct (negb (str_eqb (VercelPlain.method rqP) "POST")).
    + injection E as <- _. discriminate D.
    + eapply caught_or_quiet; [|exact E|exact D].
      unfold VercelPlain.sendTelegramMessage. quiet; apply report_quiet.
Qed.

(** In the file with CORS, a caught failure always carries [details]. *)
Lemma cors_details_always (w : World) (req : VercelCors.Request)
    parsed name email message company r :
  VercelCors.method req = utf16 "POST" ->
  requestCarries (VercelCors.req_body req) parsed ->
  ValidSubmission parsed name email message company ->
  validConfiguration w ->
  downstreamReturns w r ->
  (forall ok, Get r "ok" = Normal ok -> truthy ok = false) ->
  exists resp trace,
    VercelCors.handler w req [] = (Normal resp, trace)
    /\ genericFailure resp
    /\ hasField resp "details" = true.
Proof.
  intros Hpost Hcarries Hv [Hc Hnum] Hd Hok.
  destruct (formatTelegramMessage_text (dateTime w) name email message company) as (text & Hfmt).
  destruct (VercelCors_front w req parsed name email message company text [])
    as (t1 & ->); auto.
  apply cors_caught. intros r' Hr' t0. rewrite Hd in Hr'. injection Hr' as <-.
  now apply cors_report_refused.
Qed.

(** A body that JSON.parse rejects, in each file that parses. *)
Lemma netlify_unparsable (w : World) (evP : NetlifyPlain.Event) (evT : NetlifyTopic.Event)
    (text : str) (e : error) result :
  NetlifyPlain.httpMethod evP = utf16 "POST" -> NetlifyPlain.event_body evP = VString text ->
  NetlifyTopic.httpMethod evT = utf16 "POST" -> NetlifyTopic.event_body evT = VString text ->
  JSON_parse text = Throw e ->
  In result [NetlifyPlain.handler w evP []; NetlifyTopic.handler w evT []] ->
  respondsFailure result.
Proof.
  intros Pp Pb Tp Tb Hparse Hin.
  destruct (failure_generic w e []) as (resp & F & G & _).
  simpl in Hin. destruct Hin as [<-|[<-|[]]].
  - unfold NetlifyPlain.handler. rewrite Pp, str_eqb_refl, Pb. cbn [negb ToString].
    exists resp. eexists. split; [|exact G].
    erewrite caught; [exact F|]. run. now rewrite Hparse.
  - unfold NetlifyTopic.handler. rewrite Tp, str_eqb_refl, Tb. cbn [negb ToString].
    exists resp. eexists. split; [|exact G].
    erewrite caught; [exact F|]. run. now rewrite Hparse.
Qed.

(** X23.  In the CORS-aware handler a POST whose body is a text that
    JSON.parse rejects is answered with status 400 and the invalid-JSON
    message. *)
Lemma cors_unparsable (w : World) (req : VercelCors.Request) (text : str) (e : error) :
  VercelCors.method req = utf16 "POST" ->
  VercelCors.req_body req = VString text ->
  JSON_parse text = Throw e ->
  exists resp trace,
    VercelCors.handler w req [] = (Normal resp, trace)
    /\ statusCode resp = 400
    /\ body resp = Some [(utf16 "success", VBool false);
                         (utf16 "error", VString "Invalid JSON in request body")].
Proof.
  intros Hpost Hbody Hparse.
  assert (Hopt : str_eqb "POST" "OPTIONS" = false) by reflexivity.
  unfold VercelCors.handler. rewrite Hpost, Hopt, str_eqb_refl, Hbody, Hparse. run.
  do 2 eexists. split; [reflexivity|]. split; reflexivity.
Qed.

(** A parsed body that is [null] or [undefined], where the body is
    destructured as it is. *)
Lemma nullish_body_is_failure (w : World) (evP : NetlifyPlain.Event) (evT : NetlifyTopic.Event)
    (rqP : VercelPlain.Request) parsed result :
  NetlifyPlain.httpMethod evP = utf16 "POST" -> eventCarries (NetlifyPlain.event_body evP) parsed ->
  NetlifyTopic.httpMethod evT = utf16 "POST" -> eventCarries (NetlifyTopic.event_body evT) parsed ->
  VercelPlain.method rqP = utf16 "POST" -> VercelPlain.req_body rqP = parsed ->
  parsed = VUndefined \/ parsed = VNull ->
  In result [NetlifyPlain.handler w evP []; NetlifyTopic.handler w evT [];
             VercelPlain.handler w rqP []] ->
  respondsFailure result.
Proof.
  intros Pp (rawP & PtP & PpP) Tp (rawT & TtT & TpT) Vp Vb Hnull Hin.
  assert (exists e, RequireObjectCoercible parsed = Throw e) as (e & He).
  { destruct Hnull as [-> | ->]; simpl; eauto. }
  destruct (failure_generic w e []) as (resp & F & G & _).
  simpl in Hin. destruct Hin as [<-|[<-|[<-|[]]]].
  - unfold NetlifyPlain.handler. rewrite Pp, str_eqb_refl. cbn [negb].
    exists resp. eexists. split; [|exact G].
    erewrite caught; [exact F|]. run. walk. reflexivity.
  - unfold NetlifyTopic.handler. rewrite Tp, str_eqb_refl. cbn [negb].
    exists resp. eexists. split; [|exact G].
    erewrite caught; [exact F|]. run. walk. reflexivity.
  - unfold VercelPlain.handler. rewrite Vp, str_eqb_refl, Vb. cbn [negb].
    exists resp. eexists. split; [|exact G].
    erewrite caught; [exact F|]. run. walk. reflexivity.
Qed.

Lemma Get_total (v : value) (k k' : str) (x : value) :
  Get v k = Normal x -> exists y, Get v k' = Normal y.
Proof. destruct v; simpl; intros E; try discriminate; eauto. Qed.

(** X22.  A POST whose parsed body can be destructured and holds a falsy
    [name], [email] or [message] is answered by each of the four handlers
    with status 400 and the missing-fields message. *)
Lemma missing_fields_rejected (w : World) parsed (name email message : value)
    evP evT rqP rqC result :
  Posted parsed evP evT rqP rqC ->
  Get parsed "name" = Normal name ->
  Get parsed "email" = Normal email ->
  Get parsed "message" = Normal message ->
  truthy name = false \/ truthy email = false \/ truthy message = false ->
  In result [NetlifyPlain.handler w evP []; NetlifyTopic.handler w evT [];
             VercelPlain.handler w rqP []; VercelCors.handler w rqC []] ->
  rejectsMissing result.
Proof.
  intros Hp Hn He Hm Hfalsy Hin.
  destruct (Get_total _ _ "company" _ Hn) as (company & Hc).
  pose proof (Get_coercible _ _ _ Hn) as Hco.
  assert (Hcheck : negb (truthy name) || negb (truthy email) || negb (truthy message) = true).
  { destruct Hfalsy as [-> | [-> | ->]]; cbn; rewrite ?orb_true_r; reflexivity. }
  destruct Hp as [Pp [rawP [PtP PpP]] Tp [rawT [TtT TpT]] Vp Vb Cp Cb].
  simpl in Hin. destruct Hin as [<-|[<-|[<-|[<-|[]]]]].
  - unfold NetlifyPlain.handler. rewrite Pp, str_eqb_refl. run. walk.
    do 2 eexists. split; [reflexivity|]. split; reflexivity.
  - unfold NetlifyTopic.handler. rewrite Tp, str_eqb_refl. run. walk.
    do 2 eexists. split; [reflexivity|]. split; reflexivity.
  - subst parsed. unfold VercelPlain.handler. rewrite Vp, str_eqb_refl. run. walk.
    do 2 eexists. split; [reflexivity|]. split; reflexivity.
  - assert (Hopt : str_eqb "POST" "OPTIONS" = false) by reflexivity.
    assert (Hprocess : forall t, rejectsMissing (VercelCors.process w parsed t)).
    { intros t. unfold VercelCors.process, or_else.
      destruct (truthy parsed) eqn:Tr.
      - run. walk. do 2 eexists. split; [reflexivity|]. split; reflexivity.
      - do 2 eexists. split; [reflexivity|]. split; reflexivity. }
    destruct (Hprocess [Console ConsoleLog "📥 Incoming request:";
                        Console ConsoleLog "✅ POST request received"])
      as (resp & trace & E & G).
    exists resp, trace. split; [|exact G].
    unfold VercelCors.handler. rewrite Cp, Hopt, str_eqb_refl. cbn [negb].
    unfold try_catch, bindM at 1 2, console, emit. cbn beta iota. cbn [app].
    unfold requestCarries in Cb.
    destruct (VercelCors.req_body rqC); first [rewrite Cb | rewrite <- Cb]; rewrite E; reflexivity.
Qed.

End Proofs.

(** ** The handlers on concrete requests *)
Example ampersand_last_would_escape_twice :
  escapeString "<" = utf16 "&lt;"
  /\ replaceAll 38 "&amp;" (replaceAll 60 "&lt;" "<") = utf16 "&amp;lt;".
Proof. split; reflexivity. Qed.

Example formatTelegramMessage_runs :
  formatTelegramMessage "02.11.2026, 09:58" (VString "Ada <Lovelace>")
    (VString "ada@example.org") (VString "Analytical Engines") (VString "Tea & biscuits")
  = Normal (utf16 "🎯 <b>Новая заявка с сайта Кассиопея AI</b>" ++ nl ++ nl
            ++ utf16 "👤 <b>Имя:</b> Ada &lt;Lovelace&gt;" ++ nl
            ++ utf16 "📧 <b>Email:</b> ada@example.org" ++ nl
            ++ utf16 "🏢 <b>Компания:</b> Analytical Engines" ++ nl ++ nl
            ++ utf16 "💬 <b>Сообщение:</b>" ++ nl
            ++ utf16 "Tea &amp; biscuits" ++ nl ++ nl
            ++ utf16 "📅 <b>Отправлено:</b> 02.11.2026, 09:58").
Proof. vm_compute. reflexivity. Qed.

Example topic_handler_runs :
  let result :=
    NetlifyTopic.handler (demoWorld wrongTopic (Normal (accepted fortyTwo)))
      (topicEvent "POST" demoSubmission) [] in
  fst result
  = Normal {| statusCode := 200;
              headers := [];
              body := Some [(utf16 "success", VBool true);
                            (utf16 "message",
                             VString "Telegram notification sent successfully");
                            (utf16 "messageId", VNumber fortyTwo)] |}
  /\ map (fun e => match e with
                   | Console to label => (label, [])
                   | Fetch url requestBody => (url, map fst requestBody)
                   end) (snd result)
     = [(utf16 "Invalid TOPIC_ID format, will send to general chat", []);
        (utf16 "https://api.telegram.org/bot12345:secret/sendMessage",
         [utf16 "chat_id"; utf16 "text"; utf16 "parse_mode";
          utf16 "disable_web_page_preview"])].
Proof. vm_compute. split; reflexivity. Qed.

Example cors_handler_rejects_bad_email :
  fst (VercelCors.handler (demoWorld production (Normal (accepted fortyTwo)))
         (corsRequest "POST"
            (VString (dq "{ 'name': 'Ada', 'email': 'ada@example', 'message': 'Hi' }"))) [])
  = Normal {| statusCode := 400;
              headers := VercelCors.corsHeaders;
              body := Some [(utf16 "success", VBool false);
                            (utf16 "error", VString "Invalid email format")] |}.
Proof. vm_compute. reflexivity. Qed.

(** C6.  On the two Netlify handlers a POST whose body is the text made of
    one opening brace, which JSON.parse rejects, is answered with status 500
    and the generic failure message, not with 400 and the invalid-JSON
    message. *)
Theorem malformed_json_on_netlify (w : World) :
  JSON_parse "{" = Throw unexpectedToken
  /\ respondsFailure (NetlifyTopic.handler w (topicEvent "POST" "{") [])
  /\ respondsFailure (NetlifyPlain.handler w (plainEvent "POST" "{") []).
Proof.
  split; [reflexivity|].
  split; apply (netlify_unparsable w (plainEvent "POST" "{") (topicEvent "POST" "{")
                  "{" unexpectedToken); try reflexivity; simpl; tauto.
Qed.

(** C4.  On the two Netlify handlers a POST whose body is the JSON text null,
    a parsed body without [name], [email] or [message], is answered with
    status 500 and the generic failure message, not with 400 and the
    missing-fields message. *)
Theorem null_body_on_netlify (w : World) :
  JSON_parse "null" = Normal VNull
  /\ respondsFailure (NetlifyTopic.handler w (topicEvent "POST" "null") [])
  /\ respondsFailure (NetlifyPlain.handler w (plainEvent "POST" "null") []).
Proof.
  assert (C : forall raw : str, raw = utf16 "null" -> eventCarries (VString raw) VNull).
  { intros raw ->. exists (utf16 "null"). split; reflexivity. }
  split; [reflexivity|].
  split; apply (nullish_body_is_failure w (plainEvent "POST" "null") (topicEvent "POST" "null")
                  (vercelRequest "POST" VNull) VNull);
    try reflexivity; try (apply C; reflexivity); try (now right); simpl; tauto.
Qed.

(** C7.  In the CORS-aware handler, with NODE_ENV unset, a valid submission
    that the downstream API refuses is answered with status 500 and a body
    that carries the raw error text in [details]. *)
Theorem cors_details_outside_development :
  let w := demoWorld production (Normal refused) in
  process_env w "NODE_ENV" = VUndefined
  /\ fst (VercelCors.handler w (corsRequest "POST" (VString demoSubmission)) [])
     = Normal {| statusCode := 500;
                 headers := VercelCors.corsHeaders;
                 body := Some [(utf16 "success", VBool false);
                               (utf16 "error", VString "Failed to send Telegram notification");
                               (utf16 "details", VString "Telegram API error: unknown - x")] |}.
Proof. split; vm_compute; reflexivity. Qed.

Lemma demo_valid :
  ValidSubmission demoParsed "Ada <Lovelace>" "ada@example.org" "Tea & biscuits" (Some (utf16 "  ")).
Proof. split; try reflexivity; discriminate. Defined.

Lemma demo_posted :
  Posted demoParsed (plainEvent "POST" demoSubmission) (topicEvent "POST" demoSubmission)
    (vercelRequest "POST" demoParsed) (corsRequest "POST" (VString demoSubmission)).
Proof.
  split; try reflexivity; exists demoSubmission; split; reflexivity.
Defined.

Lemma downstream_result_mapped_witness :
  respondsSent
    (NetlifyTopic.handler (demoWorld production (Normal (accepted fortyTwo)))
       (topicEvent "POST" demoSubmission) []) fortyTwo
  /\ respondsFailure
       (VercelCors.handler (demoWorld production (Normal refused))
          (corsRequest "POST" (VString demoSubmission)) [])
  /\ respondsFailure
       (NetlifyPlain.handler (demoWorld production (Throw (Error "fetch failed")))
          (plainEvent "POST" demoSubmission) []).
Proof.
  split; [|split].
  - apply (downstream_result_mapped (demoWorld production (Normal (accepted fortyTwo)))
             demoParsed _ _ _ _ (plainEvent "POST" demoSubmission)
             (topicEvent "POST" demoSubmission) (vercelRequest "POST" demoParsed)
             (corsRequest "POST" (VString demoSubmission)) _ demo_valid).
    + split; [split|]; reflexivity.
    + exact demo_posted.
    + right; left; reflexivity.
    + intros url requestBody. reflexivity.
  - apply (downstream_result_mapped (demoWorld production (Normal refused))
             demoParsed _ _ _ _ (plainEvent "POST" demoSubmission)
             (topicEvent "POST" demoSubmission) (vercelRequest "POST" demoParsed)
             (corsRequest "POST" (VString demoSubmission)) _ demo_valid) with (props :=
             [(utf16 "ok", VBool false); (utf16 "description", VString "x")]).
    + split; [split|]; reflexivity.
    + exact demo_posted.
    + right; right; right; left; reflexivity.
    + reflexivity.
    + intros url requestBody. reflexivity.
  - apply (downstream_result_mapped (demoWorld production (Throw (Error "fetch failed")))
             demoParsed _ _ _ _ (plainEvent "POST" demoSubmission)
             (topicEvent "POST" demoSubmission) (vercelRequest "POST" demoParsed)
             (corsRequest "POST" (VString demoSubmission)) _ demo_valid).
    + split; [split|]; reflexivity.
    + exact demo_posted.
    + left; reflexivity.
    + intros url requestBody. eexists. reflexivity.
Defined.

Lemma formatTelegramMessage_escapes_witness :
  includes [60] (utf16 "02.11.2026, 09:58") = false
  /\ exists out,
       formatTelegramMessage "02.11.2026, 09:58" (VString "Ada <Lovelace>")
         (VString "ada@example.org") (VString "  ") (VString "Tea & biscuits") = Normal out
       /\ includes companyLabel out = false
       /\ includes "Ada &lt;Lovelace&gt;" out = true
       /\ includes "Tea &amp; biscuits" out = true.
Proof.
  split; [reflexivity|].
  destruct (formatTelegramMessage_escapes "02.11.2026, 09:58" "Ada <Lovelace>"
              "ada@example.org" "Tea & biscuits" (Some (utf16 "  ")))
    as (out & line & E & _ & _ & _ & I).
  exists out. split; [exact E|].
  pose proof (I eq_refl) as [_ Present].
  vm_compute in E. injection E as <-. repeat split; vm_compute; reflexivity.
Defined.

Lemma escapeHtml_not_idempotent_witness :
  existsb isSpecial (utf16 "Tea & biscuits") = true
  /\ exists once twice,
       escapeHtml (VString "Tea & biscuits") = Normal once
       /\ escapeHtml (VString once) = Normal twice
       /\ twice <> once.
Proof. split; [reflexivity|]. apply escapeHtml_not_idempotent. reflexivity. Defined.

Lemma method_not_allowed_witness :
  rejectsMethod (NetlifyPlain.handler (demoWorld production (Normal refused))
                   (plainEvent "GET" demoSubmission) [])
  /\ rejectsMethod (VercelCors.handler (demoWorld production (Normal refused))
                      (corsRequest "PUT" (VString demoSubmission)) [])
  /\ exists resp trace,
       VercelCors.handler (demoWorld production (Normal refused))
         (corsRequest "OPTIONS" VUndefined) [] = (Normal resp, trace)
       /\ statusCode resp = 200.
Proof.
  destruct (method_not_allowed (demoWorld production (Normal refused))
              (plainEvent "GET" demoSubmission) (topicEvent "GET" demoSubmission)
              (vercelRequest "GET" demoParsed) (corsRequest "PUT" (VString demoSubmission)))
    as (A & _ & _ & D & _).
  destruct (method_not_allowed (demoWorld production (Normal refused))
              (plainEvent "GET" demoSubmission) (topicEvent "GET" demoSubmission)
              (vercelRequest "GET" demoParsed) (corsRequest "OPTIONS" VUndefined))
    as (_ & _ & _ & _ & O).
  split; [apply A; discriminate|]. split; [apply D; discriminate|].
  destruct (O eq_refl) as (trace & E). do 2 eexists. split; [exact E|reflexivity].
Defined.

Lemma not_configured_no_outbound_call_witness :
  truthy (process_env (demoWorld noToken (Normal refused)) "TELEGRAM_BOT_TOKEN") = false
  /\ reportsNotConfigured
       (VercelCors.handler (demoWorld noToken (Normal refused))
          (corsRequest "POST" (VString demoSubmission)) []).
Proof.
  split; [reflexivity|].
  apply (not_configured_no_outbound_call (demoWorld noToken (Normal refused))
           demoParsed _ _ _ _ (plainEvent "POST" demoSubmission)
           (topicEvent "POST" demoSubmission) (vercelRequest "POST" demoParsed)
           (corsRequest "POST" (VString demoSubmission)) _ demo_valid demo_posted).
  - left. reflexivity.
  - right; right; right; left; reflexivity.
Defined.

Lemma ok_without_result_is_failure_witness :
  respondsFailure
    (NetlifyTopic.handler (demoWorld production (Normal (VObject [(utf16 "ok", VBool true)])))
       (topicEvent "POST" demoSubmission) []).
Proof.
  destruct (ok_without_result_is_failure
              (demoWorld production (Normal (VObject [(utf16 "ok", VBool true)])))
              demoParsed _ _ _ _ (plainEvent "POST" demoSubmission)
              (topicEvent "POST" demoSubmission) (vercelRequest "POST" demoParsed)
              (corsRequest "POST" (VString demoSubmission))
              (NetlifyTopic.handler
                 (demoWorld production (Normal (VObject [(utf16 "ok", VBool true)])))
                 (topicEvent "POST" demoSubmission) [])
              [(utf16 "ok", VBool true)] demo_valid)
    as (resp & trace & E & G).
  - split; [split|]; reflexivity.
  - exact demo_posted.
  - right; left; reflexivity.
  - reflexivity.
  - left; reflexivity.
  - intros url requestBody. reflexivity.
  - exists resp, trace. split; [exact E|exact G].
Defined.

Lemma topic_fallback_witness :
  let w := demoWorld wrongTopic (Normal (accepted fortyTwo)) in
  isNaN (Number (process_env w "TELEGRAM_TOPIC_ID")) = true
  /\ exists resp trace,
       NetlifyTopic.handler w (topicEvent "POST" demoSubmission) [] = (Normal resp, trace)
       /\ statusCode resp = 200
       /\ In (Console ConsoleWarn "Invalid TOPIC_ID format, will send to general chat") trace.
Proof.
  intros w. split; [reflexivity|].
  destruct (topic_fallback w (topicEvent "POST" demoSubmission) demoParsed _ _ _ _
              eq_refl (topic_body _ _ _ _ _ demo_posted) demo_valid)
    as (text & resp & tail & _ & E & _ & _ & F).
  - split; reflexivity.
  - destruct (F eq_refl eq_refl) as (W & _ & S).
    destruct (S fortyTwo) as (S200 & _); [intros url requestBody; reflexivity|].
    exists resp. eexists. split; [exact E|]. split; [exact S200|].
    rewrite W. now left.
Defined.

(** * Further properties *)

(** ** The check of the email *)
Lemma regex_many1 (p : N -> bool) (rest : list atom) (s : str) :
  regex_test (Many1 p :: rest) s = true <->
  exists a b, s = a ++ b /\ a <> [] /\ forallb p a = true /\ regex_test rest b = true.
Proof.
  induction s as [|c s IH].
  - split; [discriminate|]. intros (a & b & E & Ha & _). destruct a; [congruence|discriminate].
  - change (regex_test (Many1 p :: rest) (c :: s))
      with (p c && (regex_test (Many1 p :: rest) s || regex_test rest s)).
    split.
    + intros E. apply andb_true_iff in E as [Hc E]. apply orb_true_iff in E as [E|E].
      * apply IH in E as (a & b & -> & Ha & Hp & Hr).
        exists (c :: a), b. repeat split; [discriminate| |assumption].
        cbn. now rewrite Hc.
      * exists [c], s. repeat split; [discriminate| |assumption]. cbn. now rewrite Hc.
    + intros (a & b & E & Ha & Hp & Hr).
      destruct a as [|x a]; [congruence|]. injection E as <- ->.
      cbn in Hp. apply andb_true_iff in Hp as [Hc Hp]. rewrite Hc. cbn [andb].
      destruct a as [|y a].
      * cbn [app]. rewrite Hr. apply orb_true_r.
      * apply orb_true_iff. left. apply IH. exists (y :: a), b.
        repeat split; [discriminate|assumption|assumption].
Qed.

Lemma regex_one (p : N -> bool) (rest : list atom) (s : str) :
  regex_test (One p :: rest) s = true <->
  exists c b, s = c :: b /\ p c = true /\ regex_test rest b = true.
Proof.
  destruct s as [|c s]; cbn.
  - split; [discriminate|]. intros (c & b & E & _). discriminate.
  - rewrite andb_true_iff. split.
    + intros [Hc Hr]. now exists c, s.
    + intros (c' & b & [= <- <-] & Hc & Hr). now split.
Qed.

Lemma regex_end (s : str) : regex_test [] s = true <-> s = [].
Proof. destruct s; cbn; split; congruence. Qed.

Lemma emailRegex_parts (s : str) :
  regex_test emailRegex s = true ->
  exists loc dom tld,
    s = loc ++ 64 :: dom ++ 46 :: tld
    /\ loc <> [] /\ dom <> [] /\ tld <> []
    /\ forallb notSpaceAt loc = true
    /\ forallb notSpaceAt dom = true
    /\ forallb notSpaceAt tld = true.
Proof.
  unfold emailRegex. rewrite regex_many1.
  intros (a & r1 & -> & Ha & Pa & E).
  apply regex_one in E as (c1 & r2 & -> & Hc1 & E). apply N.eqb_eq in Hc1. subst c1.
  apply regex_many1 in E as (b & r3 & -> & Hb & Pb & E).
  apply regex_one in E as (c2 & r4 & -> & Hc2 & E). apply N.eqb_eq in Hc2. subst c2.
  apply regex_many1 in E as (c & r5 & -> & Hc & Pc & E).
  apply regex_end in E. subst r5. rewrite app_nil_r.
  exists a, b, c. repeat split; assumption.
Qed.

(** X1.  The email check accepts exactly the texts made of a non-empty
    part, an at sign, a non-empty part, a dot and a non-empty part, none of
    the three parts holding white space or an at sign (a part may hold
    dots). *)
Theorem emailRegex_shape (s : str) :
  regex_test emailRegex s = true <->
  exists loc dom tld,
    s = loc ++ 64 :: dom ++ 46 :: tld
    /\ loc <> [] /\ dom <> [] /\ tld <> []
    /\ forallb notSpaceAt loc = true
    /\ forallb notSpaceAt dom = true
    /\ forallb notSpaceAt tld = true.
Proof.
  split; [apply emailRegex_parts|].
  intros (a & b & c & -> & Ha & Hb & Hc & Pa & Pb & Pc).
  unfold emailRegex. apply regex_many1.
  exists a, (64 :: b ++ 46 :: c). repeat split; try assumption.
  apply regex_one. exists 64, (b ++ 46 :: c). repeat split.
  apply regex_many1. exists b, (46 :: c). repeat split; try assumption.
  apply regex_one. exists 46, c. repeat split.
  apply regex_many1. exists c, []. rewrite app_nil_r. repeat split; assumption.
Qed.

Lemma notSpaceAt_facts (l : str) :
  forallb notSpaceAt l = true ->
  count_occ N.eq_dec l 64 = 0%nat /\ forallb (fun c => negb (isWhiteSpace c)) l = true.
Proof.
  induction l as [|x l IH]; [now split|].
  cbn [forallb]. intros E. apply andb_true_iff in E as [Hx Hl].
  destruct (IH Hl) as [C W]. unfold notSpaceAt in Hx.
  apply negb_true_iff, orb_false_iff in Hx as [Hw Hat]. apply N.eqb_neq in Hat.
  split.
  - cbn. destruct (N.eq_dec x 64); [contradiction|assumption].
  - cbn. rewrite Hw, W. reflexivity.
Qed.

(** X2.  An email that passes the check holds exactly one at sign, not in
    the first place, no white space, and at least five characters. *)
Theorem accepted_email_one_at (s : str) :
  regex_test emailRegex s = true ->
  count_occ N.eq_dec s 64 = 1%nat
  /\ forallb (fun c => negb (isWhiteSpace c)) s = true
  /\ (5 <= List.length s)%nat
  /\ hd 0 s <> 64.
Proof.
  intros E. apply emailRegex_parts in E as (a & b & c & -> & Ha & Hb & Hc & Pa & Pb & Pc).
  destruct (notSpaceAt_facts a Pa) as [Ca Wa].
  destruct (notSpaceAt_facts b Pb) as [Cb Wb].
  destruct (notSpaceAt_facts c Pc) as [Cc Wc].
  split; [|split; [|split]].
  - rewrite count_occ_app. cbn. rewrite count_occ_app. cbn. lia.
  - rewrite forallb_app. cbn. rewrite forallb_app. cbn. now rewrite Wa, Wb, Wc.
  - rewrite length_app. cbn. rewrite length_app. cbn.
    destruct a; [congruence|]. destruct b; [congruence|]. destruct c; [congruence|]. cbn. lia.
  - destruct a as [|x a]; [congruence|]. cbn. cbn in Pa.
    apply andb_true_iff in Pa as [Hx _]. intros ->. discriminate.
Qed.

(** ** The escaping and the message *)
Lemma escapeUnit_cases (c : N) :
  (c = 38 /\ escapeUnit c = utf16 "&amp;")
  \/ (c = 60 /\ escapeUnit c = utf16 "&lt;")
  \/ (c = 62 /\ escapeUnit c = utf16 "&gt;")
  \/ (c = 34 /\ escapeUnit c = utf16 "&quot;")
  \/ (c = 39 /\ escapeUnit c = utf16 "&#039;")
  \/ ((isSpecial c = false /\ c <> 38) /\ escapeUnit c = [c]).
Proof.
  unfold escapeUnit, isSpecial. cbn [existsb].
  destruct (N.eqb_spec c 38); [now left|].
  destruct (N.eqb_spec c 60); [now right; left|].
  destruct (N.eqb_spec c 62); [now right; right; left|].
  destruct (N.eqb_spec c 34); [now right; right; right; left|].
  destruct (N.eqb_spec c 39); [now right; right; right; right; left|].
  right; right; right; right; right. cbn. repeat split; assumption || reflexivity.
Qed.

Lemma units_injective (a b : str) :
  flat_map escapeUnit a = flat_map escapeUnit b -> a = b.
Proof.
  revert b. induction a as [|x a IH]; intros [|y b] E.
  - reflexivity.
  - cbn in E. destruct (escapeUnit_cases y) as [[_ Ey]|[[_ Ey]|[[_ Ey]|[[_ Ey]|[[_ Ey]|[_ Ey]]]]]];
      rewrite Ey in E; discriminate.
  - cbn in E. destruct (escapeUnit_cases x) as [[_ Ey]|[[_ Ey]|[[_ Ey]|[[_ Ey]|[[_ Ey]|[_ Ey]]]]]];
      rewrite Ey in E; discriminate.
  - cbn [flat_map] in E.
    destruct (escapeUnit_cases x) as [[Hx Ex]|[[Hx Ex]|[[Hx Ex]|[[Hx Ex]|[[Hx Ex]|[Hx Ex]]]]]];
    destruct (escapeUnit_cases y) as [[Hy Ey]|[[Hy Ey]|[[Hy Ey]|[[Hy Ey]|[[Hy Ey]|[Hy Ey]]]]]];
    rewrite Ex, Ey in E; cbn in E;
    try discriminate E;
    injection E; intros; subst;
    first [congruence | f_equal; apply IH; assumption | intuition congruence].
Qed.

Lemma units_no_markup (s : str) :
  forallb (fun c => negb (isMarkup c)) (flat_map escapeUnit s) = true.
Proof.
  induction s as [|c s IH]; [reflexivity|].
  cbn [flat_map]. rewrite forallb_app, IH, andb_true_r.
  destruct (escapeUnit_cases c) as [[_ E]|[[_ E]|[[_ E]|[[_ E]|[[_ E]|[[P _] E]]]]]];
    rewrite E; try reflexivity.
  cbn. rewrite andb_true_r. unfold isSpecial in P. cbn [existsb] in P.
  apply orb_false_iff in P as [_ P]. unfold isMarkup. cbn [existsb]. now rewrite P.
Qed.

Lemma units_identity (s : str) :
  flat_map escapeUnit s = s <-> existsb isSpecial s = false.
Proof.
  split.
  - intros E. destruct (existsb isSpecial s) eqn:S; [|reflexivity].
    destruct (units_length s) as [_ L]. destruct (L S) as [Lt _]. rewrite E in Lt. lia.
  - induction s as [|c s IH]; [reflexivity|]. cbn [existsb flat_map]. intros E.
    apply orb_false_iff in E as [Hc Hs]. rewrite (escapeUnit_plain c Hc), (IH Hs). reflexivity.
Qed.

Lemma no_markup_count (s : str) :
  forallb (fun c => negb (isMarkup c)) s = true -> count_occ N.eq_dec s 60 = 0%nat.
Proof.
  induction s as [|c s IH]; [reflexivity|]. cbn [forallb]. intros E.
  apply andb_true_iff in E as [Hc Hs].
  apply negb_true_iff in Hc. unfold isMarkup in Hc. cbn [existsb] in Hc.
  apply orb_false_iff in Hc as [H60 _]. apply N.eqb_neq in H60.
  cbn. destruct (N.eq_dec c 60); [congruence|]. now apply IH.
Qed.

Lemma Normal_inj {A} (a b : A) : Normal a = Normal b -> a = b.
Proof. now intros [= ->]. Qed.

Lemma noLt_count (s : str) : includes [60] s = false -> count_occ N.eq_dec s 60 = 0%nat.
Proof.
  intros E. apply noLt_of_includes in E. induction s as [|c s IH]; [reflexivity|].
  cbn. destruct (N.eq_dec c 60) as [->|_].
  - exfalso. apply (E 60); [now left|reflexivity].
  - apply IH. intros x Hx. apply E. now right.
Qed.

Section Message.
Context `{Engine}.

Lemma escapeHtml_no_markup (v : value) (s : str) :
  escapeHtml v = Normal s -> forallb (fun c => negb (isMarkup c)) s = true.
Proof.
  unfold escapeHtml. destruct (negb (truthy v)).
  - now intros [= <-].
  - destruct (ToString v) as [t|e]; cbn [bind]; [|discriminate].
    intros [= <-]. rewrite escapeString_units. apply units_no_markup.
Qed.

Lemma escapeHtml_count (v : value) (s : str) :
  escapeHtml v = Normal s -> count_occ N.eq_dec s 60 = 0%nat.
Proof. intros E. apply no_markup_count. now apply escapeHtml_no_markup in E. Qed.

(** X3.  The escaping loses nothing: two texts with the same escaped
    form are the same text. *)
Theorem escapeHtml_injective (a b : str) :
  escapeHtml (VString a) = escapeHtml (VString b) -> a = b.
Proof.
  rewrite !escapeHtml_text. intros E. apply Normal_inj in E. now apply units_injective.
Qed.

(** X4.  Whatever value it is given (a text, a number, an array, an
    object), what escapeHtml returns is escaped and holds none of the
    characters less-than, greater-than, double quote and single quote. *)
Theorem escapeHtml_any_value (v : value) (s : str) :
  escapeHtml v = Normal s ->
  Escaped s /\ forallb (fun c => negb (isMarkup c)) s = true.
Proof.
  intros E. split; [|now apply escapeHtml_no_markup in E].
  unfold escapeHtml in E. destruct (negb (truthy v)).
  - apply Normal_inj in E. subst s. constructor.
  - destruct (ToString v) as [t|e]; cbn [bind] in E; [|discriminate].
    apply Normal_inj in E. subst s. rewrite escapeString_units. apply escaped_units.
Qed.

(** X5.  The escaping gives a text back unchanged exactly when the text
    holds none of the five special characters. *)
Theorem escapeHtml_fixes_plain_text (s : str) :
  escapeHtml (VString s) = Normal s <-> existsb isSpecial s = false.
Proof.
  rewrite escapeHtml_text. rewrite <- units_identity.
  split; [apply Normal_inj|now intros ->].
Qed.

Lemma formatted_lt_count (dateTime : str) (name email company message : value) (out : str) :
  formatTelegramMessage dateTime name email company message = Normal out ->
  includes [60] dateTime = false ->
  count_occ N.eq_dec out 60 = (if companyShown company then 12 else 10)%nat.
Proof.
  unfold formatTelegramMessage. intros E Hd. apply noLt_count in Hd.
  destruct (escapeHtml name) as [n|] eqn:En; cbn [bind] in E; [|discriminate].
  destruct (escapeHtml email) as [m|] eqn:Em; cbn [bind] in E; [|discriminate].
  pose proof (escapeHtml_count _ _ En) as Cn. pose proof (escapeHtml_count _ _ Em) as Cm.
  destruct (truthy company) eqn:Tc.
  - destruct company; cbn [callStringMethod bind] in E; try discriminate.
    cbn [companyShown]. destruct (trim s) as [|t0 t]; cbn [truthy bind] in E.
    + destruct (escapeHtml message) as [g|] eqn:Eg; cbn [bind] in E; [|discriminate].
      pose proof (escapeHtml_count _ _ Eg) as Cg. apply Normal_inj in E; subst out.
      rewrite !count_occ_app, Cn, Cm, Cg, Hd. reflexivity.
    + destruct (escapeHtml (VString s)) as [c|] eqn:Ec; cbn [bind] in E; [|discriminate].
      destruct (escapeHtml message) as [g|] eqn:Eg; cbn [bind] in E; [|discriminate].
      pose proof (escapeHtml_count _ _ Ec) as Cc.
      pose proof (escapeHtml_count _ _ Eg) as Cg. apply Normal_inj in E; subst out.
      rewrite !count_occ_app, Cn, Cm, Cc, Cg, Hd. reflexivity.
  - cbn [bind] in E.
    destruct (escapeHtml message) as [g|] eqn:Eg; cbn [bind] in E; [|discriminate].
    pose proof (escapeHtml_count _ _ Eg) as Cg. apply Normal_inj in E; subst out.
    assert (companyShown company = false) as ->.
    { destruct company; try reflexivity. cbn in Tc. destruct s; [reflexivity|discriminate]. }
    rewrite !count_occ_app, Cn, Cm, Cg, Hd. reflexivity.
Qed.

Lemma company_not_text (dateTime : str) (name email company message : value) :
  truthy company = true -> isText company = false ->
  exists e, formatTelegramMessage dateTime name email company message = Throw e.
Proof.
  intros T S. unfold formatTelegramMessage.
  destruct (escapeHtml name); cbn [bind]; [|eauto].
  destruct (escapeHtml email); cbn [bind]; [|eauto].
  rewrite T. destruct company; try discriminate; cbn [callStringMethod bind]; eauto.
Qed.

(** X6.  Whatever the four fields are, a formatted message holds exactly
    the less-than signs of the template: ten, or twelve when it has a
    company line (the clock rendering taken free of that sign).  No field
    can add a tag to the message. *)
Theorem formatTelegramMessage_tag_count (dateTime : str) (name email company message : value)
    (out : str) :
  formatTelegramMessage dateTime name email company message = Normal out ->
  includes [60] dateTime = false ->
  count_occ N.eq_dec out 60 = (if companyShown company then 12 else 10)%nat.
Proof. exact (formatted_lt_count dateTime name email company message out). Qed.

(** X7.  formatTelegramMessage is defined on more than texts, but not on
    every value: it returns a message exactly when the coercion of
    [name], [email] and [message] to a string does not throw and [company]
    is falsy or a text. *)
Theorem formatTelegramMessage_defined (dateTime : str) (name email company message : value) :
  (exists out, formatTelegramMessage dateTime name email company message = Normal out)
  <-> ((exists n, escapeHtml name = Normal n)
       /\ (exists e, escapeHtml email = Normal e)
       /\ (exists m, escapeHtml message = Normal m)
       /\ (truthy company = false \/ isText company = true)).
Proof.
  unfold formatTelegramMessage. split.
  - intros (out & E).
    destruct (escapeHtml name) as [n|]; cbn [bind] in E; [|discriminate].
    destruct (escapeHtml email) as [e|]; cbn [bind] in E; [|discriminate].
    split; [eauto|]. split; [eauto|].
    destruct (truthy company) eqn:T.
    + destruct company; cbn [callStringMethod bind] in E; try discriminate.
      split; [|now right].
      destruct (truthy (VString (trim s)));
        [destruct (escapeHtml (VString s)); cbn [bind] in E; [|discriminate]|];
        cbn [bind] in E; (destruct (escapeHtml message); [eauto|discriminate]).
    + cbn [bind] in E. split; [|now left].
      destruct (escapeHtml message); [eauto|discriminate].
  - intros ((n & ->) & (e & ->) & (m & ->) & C). cbn [bind].
    destruct C as [-> | C]; [cbn [bind]; eauto|].
    destruct company; try discriminate.
    destruct (truthy (VString s)); cbn [callStringMethod bind]; [|eauto].
    destruct (truthy (VString (trim s))); rewrite ?escapeHtml_text; cbn [bind]; eauto.
Qed.

End Message.

(** ** Every path through the handlers *)

Lemma outbound_app `{Numeric} (a b : list event) :
  outbound (a ++ b) = outbound a ++ outbound b.
Proof.
  induction a as [|[to l|u q] a IH]; cbn; [reflexivity|assumption|now rewrite IH].
Qed.

(** One case for each way through a computation: the scrutinee of an
    innermost match is replaced by its possible values. *)
Ltac split_paths :=
  repeat (cbn beta iota;
          match goal with
          | |- context [match ?x with _ => _ end] =>
            lazymatch x with
            | context [match _ with _ => _ end] => fail
            | _ => destruct x eqn:?
            end
          end).

Ltac silent :=
  repeat rewrite outbound_app;
  repeat match goal with E : outbound _ = [] |- _ => rewrite E end;
  reflexivity.

Ltac checked :=
  repeat match goal with
         | E : _ || _ = false |- _ =>
           let E' := fresh E in apply orb_false_iff in E as [E E']
         | E : negb _ = false |- _ => apply negb_false_iff in E
         end;
  repeat match goal with
         | E : test emailRegex _ = Normal ?b |- _ => is_var b; subst b
         end.

Ltac request :=
  checked;
  unfold sendMessageRequest; do 7 eexists;
  split; [reflexivity|];
  split; [eassumption|];
  split; [first [left; reflexivity | right; reflexivity]|];
  split; [first [ left; reflexivity
                | right; unfold threadField;
                  repeat match goal with E : ?x = _ |- context [?x] => rewrite E end;
                  reflexivity ]|];
  repeat split; assumption.

Ltac calls := first [ left; silent | right; eexists; split; [silent|request] ].

Ltac leaf :=
  unfold respond, VercelCors.respond, VercelCors.respond_end;
  first
  [ eapply Ends_sent; [silent|request|eassumption..]
  | unfold json; cbn [filter negb isUndefined snd];
    first
    [ apply Ends_refused; [cbn; tauto|cbn; discriminate|silent]
    | apply Ends_preflight; silent
    | apply (Ends_failed _ _ _ []); [calls|left; reflexivity]
    | eapply (Ends_failed _ _ _ [_]); [calls|right; eexists; reflexivity] ] ].

Section Paths.
Context `{Engine}.

Lemma NetlifyPlain_ends (w : World) (ev : NetlifyPlain.Event) :
  exists resp d, NetlifyPlain.handler w ev [] = (Normal resp, d) /\ Ends w [] resp d.
Proof.
  unfold NetlifyPlain.handler, NetlifyPlain.sendTelegramMessage, fetch_json, report, failure.
  rewrite sendMessageUrl_env. run. split_paths; cbn [app].
  all: do 2 eexists; (split; [reflexivity|]).
  all: leaf.
Qed.

Lemma NetlifyTopic_ends (w : World) (ev : NetlifyTopic.Event) :
  exists resp d, NetlifyTopic.handler w ev [] = (Normal resp, d) /\ Ends w [] resp d.
Proof.
  unfold NetlifyTopic.handler, NetlifyTopic.sendTelegramMessage, fetch_json, report, failure.
  rewrite sendMessageUrl_env. run. split_paths; cbn [app].
  all: do 2 eexists; (split; [reflexivity|]).
  all: leaf.
Qed.

Lemma VercelPlain_ends (w : World) (req : VercelPlain.Request) :
  exists resp d, VercelPlain.handler w req [] = (Normal resp, d) /\ Ends w [] resp d.
Proof.
  unfold VercelPlain.handler, VercelPlain.sendTelegramMessage, fetch_json, report, failure.
  rewrite sendMessageUrl_env. run. split_paths; cbn [app].
  all: do 2 eexists; (split; [reflexivity|]).
  all: leaf.
Qed.

Lemma VercelCors_process_ends (w : World) (b : value) (t : list event) :
  outbound t = [] ->
  exists resp d,
    try_catch (VercelCors.process w b) VercelCors.failure t = (Normal resp, d)
    /\ Ends w VercelCors.corsHeaders resp d.
Proof.
  intros Ht.
  unfold VercelCors.process. generalize (or_else b (VObject [])). intros source.
  unfold VercelCors.sendTelegramMessage, fetch_json, VercelCors.report, VercelCors.failure,
    or_else.
  rewrite !sendMessageUrl_env. run. split_paths; cbn [app].
  all: do 2 eexists; (split; [reflexivity|]).
  all: leaf.
Qed.

Lemma VercelCors_ends (w : World) (req : VercelCors.Request) :
  exists resp d,
    VercelCors.handler w req [] = (Normal resp, d) /\ Ends w VercelCors.corsHeaders resp d.
Proof.
  unfold VercelCors.handler. unfold bindM at 1. unfold console at 1. unfold emit at 1.
  cbn beta iota.
  destruct (str_eqb (VercelCors.method req) "OPTIONS").
  { run. do 2 eexists. split; [reflexivity|]. leaf. }
  destruct (str_eqb (VercelCors.method req) "POST"); cbn [negb].
  2: { run. do 2 eexists. split; [reflexivity|]. leaf. }
  unfold bindM at 1. unfold console at 1. unfold emit at 1. cbn beta iota.
  destruct (VercelCors.req_body req) as [| |flag|n|text|items|props];
    try (apply VercelCors_process_ends; reflexivity).
  destruct (JSON_parse text) as [parsed|parseError] eqn:P.
  - apply VercelCors_process_ends; reflexivity.
  - run. do 2 eexists. split; [reflexivity|]. leaf.
Qed.

Lemma invocation_ends (w : World) hs result :
  Invocation w hs result ->
  exists resp d, result = (Normal resp, d) /\ Ends w hs resp d.
Proof.
  intros [ev|ev|req|req].
  - apply NetlifyPlain_ends.
  - apply NetlifyTopic_ends.
  - apply VercelPlain_ends.
  - apply VercelCors_ends.
Qed.

End Paths.

Section Answers.
Context `{Engine}.

Lemma ends_of (w : World) hs result resp :
  Invocation w hs result -> fst result = Normal resp -> Ends w hs resp (snd result).
Proof.
  intros I E. destruct (invocation_ends w hs result I) as (resp' & d & -> & En).
  cbn in E. injection E as <-. exact En.
Qed.

(** X8.  Whatever the request and the environment, each of the four
    handlers returns an answer, it never throws; the status is 200, 400,
    405 or 500, and the answer of the CORS-aware handler carries the four
    CORS headers also when it reports an error. *)
Theorem invocation_answers (w : World) hs result :
  Invocation w hs result ->
  exists resp trace,
    result = (Normal resp, trace)
    /\ In (statusCode resp) [200; 400; 405; 500]
    /\ headers resp = hs.
Proof.
  intros I. destruct (invocation_ends w hs result I) as (resp & d & -> & En).
  exists resp, d. split; [reflexivity|].
  destruct En as [status msg d Hs _ _| | |]; cbn [statusCode headers];
    (split; [|reflexivity]); cbn in *; tauto.
Qed.

Lemma ends_outbound (w : World) hs resp d :
  Ends w hs resp d ->
  (List.length (outbound d) <= 1)%nat /\ Forall (sendMessageRequest w) (outbound d).
Proof.
  intros [? ? d' O1 O2 O| d' O | d' q r ok res mid O S | d' details [O|(q & O & S)] _];
    rewrite O; cbn; split; auto.
Qed.

(** X9.  An invocation makes at most one outbound request, and that one
    goes to the sendMessage method for the token of the environment, with
    a text formatted from fields that passed the required-field and the
    email checks. *)
Theorem at_most_one_sendMessage (w : World) hs result :
  Invocation w hs result ->
  (List.length (outbound (snd result)) <= 1)%nat
  /\ Forall (sendMessageRequest w) (outbound (snd result)).
Proof.
  intros I. destruct (invocation_ends w hs result I) as (resp & d & -> & En). cbn [snd].
  now apply ends_outbound with (hs := hs) (resp := resp).
Qed.

(** X10.  An answer with [success: true] is given only with status 200,
    after exactly one outbound request which the downstream API answered
    with a truthy [ok]. *)
Theorem success_only_when_downstream_ok (w : World) hs result resp :
  Invocation w hs result ->
  fst result = Normal resp ->
  field resp "success" = VBool true ->
  statusCode resp = 200
  /\ exists q reply ok,
       outbound (snd result) = [q]
       /\ fetch w (fst q) (snd q) = Normal reply
       /\ Get reply "ok" = Normal ok
       /\ truthy ok = true.
Proof.
  intros I E S. pose proof (ends_of w hs result resp I E) as En.
  destruct En as [? ? d _ _ _| d O | d q r ok res mid O Q F G T _ _ | d details _ D].
  - discriminate S.
  - discriminate S.
  - split; [reflexivity|]. exists q, r, ok. auto.
  - discriminate S.
Qed.

(** X11.  In an answer with a body, [success] is [true] exactly when the
    status is 200; the other answers carry [success: false] and an [error]
    text, and never a [messageId]. *)
Theorem success_flag_matches_status (w : World) hs result resp :
  Invocation w hs result ->
  fst result = Normal resp ->
  body resp <> None ->
  (statusCode resp = 200 /\ field resp "success" = VBool true
   /\ field resp "message" = VString sentOk /\ hasField resp "error" = false)
  \/ (statusCode resp <> 200 /\ field resp "success" = VBool false
      /\ hasField resp "messageId" = false /\ exists msg, field resp "error" = VString msg).
Proof.
  intros I E B. pose proof (ends_of w hs result resp I E) as En.
  destruct En as [status msg d Hs _ _| d O | d q r ok res mid _ _ _ _ _ _ _
                 | d details _ [->|(text & ->)]].
  - right. cbn [statusCode]. repeat split.
    + cbn in Hs. intros ->. intuition discriminate.
    + now exists msg.
  - now contradiction B.
  - left. repeat split. destruct mid; reflexivity.
  - right. repeat split; [discriminate|now exists sendFailed].
  - right. repeat split; [discriminate|now exists sendFailed].
Qed.

(** X12.  An answer whose [error] is another text than the generic
    failure message (wrong method, missing fields, invalid email, invalid
    JSON, missing configuration, invalid chat id) was given without any
    outbound request. *)
Theorem specific_error_without_call (w : World) hs result resp msg :
  Invocation w hs result ->
  fst result = Normal resp ->
  field resp "error" = VString msg ->
  msg <> sendFailed ->
  outbound (snd result) = [].
Proof.
  intros I E F N. pose proof (ends_of w hs result resp I E) as En.
  destruct En as [status msg' d _ _ O| d O | d q r ok res mid _ _ _ _ _ _ _
                 | d details _ [->|(text & ->)]].
  - exact O.
  - exact O.
  - destruct mid; discriminate F.
  - injection F as <-. now contradiction N.
  - injection F as <-. now contradiction N.
Qed.

End Answers.

(** ** The checks before the request, handler by handler *)

Lemma Get_truthy `{Engine} (v : value) (k : str) (x : value) :
  Get v k = Normal x -> truthy x = true -> truthy v = true.
Proof.
  destruct v; simpl; intros E T; try reflexivity; try discriminate;
    injection E as <-; discriminate.
Qed.

(** The facts a checked submission puts at hand. *)
Ltac checked_facts Hc :=
  let Hn := fresh "Hn" in let He := fresh "He" in let Hy := fresh "Hy" in
  let Hm := fresh "Hm" in let Tn := fresh "Tn" in let Te := fresh "Te" in
  let Tm := fresh "Tm" in let Hr := fresh "Hr" in
  destruct Hc as [Hn He Hy Hm Tn Te Tm Hr];
  pose proof (Get_coercible _ _ _ Hn);
  pose proof (Get_truthy _ _ _ Hn Tn).

Section Checks.
Context `{Engine}.

Lemma VercelCors_post (w : World) (req : VercelCors.Request) (parsed : value) :
  VercelCors.method req = utf16 "POST" ->
  requestCarries (VercelCors.req_body req) parsed ->
  VercelCors.handler w req []
  = try_catch (VercelCors.process w parsed) VercelCors.failure corsPreamble.
Proof.
  intros Hpost Hcarries.
  assert (Hopt : str_eqb "POST" "OPTIONS" = false) by reflexivity.
  unfold VercelCors.handler. rewrite Hpost, Hopt, str_eqb_refl. cbn [negb].
  unfold try_catch, bindM at 1 2, console, emit. cbn beta iota. cbn [app].
  unfold requestCarries in Hcarries.
  destruct (VercelCors.req_body req); first [rewrite Hcarries | rewrite <- Hcarries];
    reflexivity.
Qed.

Lemma valid_checked parsed name email message company :
  ValidSubmission parsed name email message company ->
  Checked parsed (VString name) (VString email) (optionalText company) (VString message).
Proof.
  intros [Hn Hn' He He' Hc Hm Hm']. split; try assumption.
  - now apply truthy_text.
  - now apply truthy_text, email_given.
  - now apply truthy_text.
  - now apply test_email.
Qed.

(** X13.  A submission whose three required fields are given but whose
    email does not pass the check is answered by each of the four
    handlers with status 400 and the invalid-email message, and no
    outbound request is made. *)
Theorem invalid_email_rejected (w : World) parsed (name email message : value)
    evP evT rqP rqC result :
  Posted parsed evP evT rqP rqC ->
  Get parsed "name" = Normal name ->
  Get parsed "email" = Normal email ->
  Get parsed "message" = Normal message ->
  truthy name = true -> truthy email = true -> truthy message = true ->
  test emailRegex email = Normal false ->
  In result [NetlifyPlain.handler w evP []; NetlifyTopic.handler w evT [];
             VercelPlain.handler w rqP []; VercelCors.handler w rqC []] ->
  rejectsEmail result.
Proof.
  intros Hp Hn He Hm Tn Te Tm Hr Hin.
  destruct (Get_total _ _ "company" _ Hn) as (company & Hc).
  pose proof (Get_coercible _ _ _ Hn) as Hco.
  pose proof (Get_truthy _ _ _ Hn Tn) as Hobj.
  destruct Hp as [Pp [rawP [PtP PpP]] Tp [rawT [TtT TpT]] Vp Vb Cp Cb].
  simpl in Hin. destruct Hin as [<-|[<-|[<-|[<-|[]]]]].
  - unfold NetlifyPlain.handler. rewrite Pp, str_eqb_refl. run. walk.
    do 2 eexists. repeat split; reflexivity.
  - unfold NetlifyTopic.handler. rewrite Tp, str_eqb_refl. run. walk.
    do 2 eexists. repeat split; reflexivity.
  - subst parsed. unfold VercelPlain.handler. rewrite Vp, str_eqb_refl. run. walk.
    do 2 eexists. repeat split; reflexivity.
  - rewrite (VercelCors_post w rqC parsed Cp Cb).
    unfold VercelCors.process, or_else. rewrite Hobj. run. walk.
    do 2 eexists. repeat split; reflexivity.
Qed.

(** X14.  The CORS-aware handler reads the fields from [body || {}]: a
    POST whose body, once parsed, is falsy (null, undefined, false, zero,
    the empty text) is answered with status 400 and the missing-fields
    message. *)
Theorem cors_falsy_body_missing_fields (w : World) (req : VercelCors.Request) parsed :
  VercelCors.method req = utf16 "POST" ->
  requestCarries (VercelCors.req_body req) parsed ->
  truthy parsed = false ->
  rejectsMissing (VercelCors.handler w req []).
Proof.
  intros Hpost Hcarries Hfalsy.
  rewrite (VercelCors_post w req parsed Hpost Hcarries).
  unfold VercelCors.process, or_else. rewrite Hfalsy. run.
  do 2 eexists. split; [reflexivity|]. split; reflexivity.
Qed.

(** X15.  The CORS-aware handler refuses a chat id that is not a number:
    a checked submission, with both secrets set, is answered with status
    500 and the invalid-chat-id message, and no outbound request is
    made. *)
Theorem cors_chat_id_must_be_number (w : World) (req : VercelCors.Request)
    parsed name email company message :
  VercelCors.method req = utf16 "POST" ->
  requestCarries (VercelCors.req_body req) parsed ->
  Checked parsed name email company message ->
  configured w ->
  isNaN (Number (process_env w "TELEGRAM_CHAT_ID")) = true ->
  exists resp trace,
    VercelCors.handler w req [] = (Normal resp, trace)
    /\ statusCode resp = 500
    /\ body resp = Some [(utf16 "success", VBool false);
                         (utf16 "error", VString "Invalid CHAT_ID format. Must be a number.")]
    /\ outbound trace = [].
Proof.
  intros Hpost Hcarries Hc [Htok Hchat] Hnan. checked_facts Hc.
  rewrite (VercelCors_post w req parsed Hpost Hcarries).
  unfold VercelCors.process, or_else. run. walk.
  do 2 eexists. repeat split; reflexivity.
Qed.

Lemma company_text_or_falsy (dateTime : str) (name email company message : value) text :
  formatTelegramMessage dateTime name email company message = Normal text ->
  truthy company = false \/ exists c, company = VString c.
Proof.
  intros E. destruct (truthy company) eqn:T; [|now left]. right.
  destruct company as [| |b|n|c|items|props]; eauto;
    destruct (company_not_text dateTime name email _ message T eq_refl) as (e & He);
    rewrite He in E; discriminate.
Qed.

Lemma forward_outbound (w : World) url requestBody t :
  outbound (snd (try_catch (let* r := fetch_json w url requestBody in report r) (failure w) t))
  = outbound t ++ [(url, requestBody)].
Proof.
  unfold fetch_json, report, failure. run. split_paths; cbn [snd];
    rewrite ?outbound_app, ?app_nil_r; reflexivity.
Qed.

Lemma cors_outbound (w : World) (text : str) t :
  outbound (snd (try_catch (corsBlock w text) VercelCors.failure t))
  = outbound t
    ++ [(endpoint w, basePayload (VNumber (Number (process_env w "TELEGRAM_CHAT_ID"))) text)].
Proof.
  unfold corsBlock, VercelCors.sendTelegramMessage, fetch_json, VercelCors.report,
    VercelCors.failure, or_else.
  rewrite sendMessageUrl_env. run. split_paths; cbn [snd];
    rewrite ?outbound_app, ?app_nil_r; reflexivity.
Qed.

(** X16.  A checked submission whose message can be formatted, with both
    secrets set, makes each handler post exactly one request, whatever
    the downstream API then does: to the sendMessage address of the token,
    with the chat id, the formatted text, parse mode HTML and the preview
    disabled.  The three handlers without CORS pass the chat id as the
    text of the environment, unchecked (the topic-aware one adds the
    thread id); the CORS-aware one passes it as a number, and only when
    [name] and [email] are texts. *)
Theorem request_posted (w : World) parsed name email company message text
    evP evT rqP rqC :
  Posted parsed evP evT rqP rqC ->
  Checked parsed name email company message ->
  configured w ->
  formatTelegramMessage (dateTime w) name email company message = Normal text ->
  outbound (snd (NetlifyPlain.handler w evP []))
  = [(endpoint w, basePayload (process_env w "TELEGRAM_CHAT_ID") text)]
  /\ outbound (snd (NetlifyTopic.handler w evT []))
     = [(endpoint w, basePayload (process_env w "TELEGRAM_CHAT_ID") text ++ threadField w)]
  /\ outbound (snd (VercelPlain.handler w rqP []))
     = [(endpoint w, basePayload (process_env w "TELEGRAM_CHAT_ID") text)]
  /\ (isText name = true -> isText email = true ->
      isNaN (Number (process_env w "TELEGRAM_CHAT_ID")) = false ->
      outbound (snd (VercelCors.handler w rqC []))
      = [(endpoint w,
          basePayload (VNumber (Number (process_env w "TELEGRAM_CHAT_ID"))) text)]).
Proof.
  intros Hp Hc [Htok Hchat] Hfmt. checked_facts Hc.
  pose proof (sendMessageUrl_env w) as Hurl.
  destruct Hp as [Pp [rawP [PtP PpP]] Tp [rawT [TtT TpT]] Vp Vb Cp Cb].
  split; [|split; [|split]].
  - etransitivity;
      [|exact (forward_outbound w (endpoint w)
                 (basePayload (process_env w "TELEGRAM_CHAT_ID") text) [])].
    do 2 f_equal.
    unfold NetlifyPlain.handler, NetlifyPlain.sendTelegramMessage.
    rewrite Pp, str_eqb_refl. run. walk. reflexivity.
  - transitivity
      (outbound (topicWarning w)
       ++ [(endpoint w, basePayload (process_env w "TELEGRAM_CHAT_ID") text ++ threadField w)]).
    2: { unfold topicWarning.
         destruct (truthy (process_env w "TELEGRAM_TOPIC_ID")
                   && isNaN (Number (process_env w "TELEGRAM_TOPIC_ID"))); reflexivity. }
    etransitivity;
      [|exact (forward_outbound w (endpoint w)
                 (basePayload (process_env w "TELEGRAM_CHAT_ID") text ++ threadField w)
                 (topicWarning w))].
    do 2 f_equal.
    unfold NetlifyTopic.handler, NetlifyTopic.sendTelegramMessage, threadField, topicWarning.
    rewrite Tp, str_eqb_refl. run. walk.
    destruct (truthy (process_env w "TELEGRAM_TOPIC_ID")); cbn [andb negb].
    + destruct (isNaN (Number (process_env w "TELEGRAM_TOPIC_ID"))) eqn:E; walk.
      * reflexivity.
      * rewrite ?app_nil_r. reflexivity.
    + walk. rewrite ?app_nil_r. reflexivity.
  - etransitivity;
      [|exact (forward_outbound w (endpoint w)
                 (basePayload (process_env w "TELEGRAM_CHAT_ID") text) [])].
    do 2 f_equal. subst parsed.
    unfold VercelPlain.handler, VercelPlain.sendTelegramMessage.
    rewrite Vp, str_eqb_refl. run. walk. reflexivity.
  - intros Sn Se Hnum.
    destruct name as [| | | |nameText| |]; try discriminate Sn.
    destruct email as [| | | |emailText| |]; try discriminate Se.
    rewrite (VercelCors_post w rqC parsed Cp Cb).
    assert (exists logs, outbound logs = [] /\
              VercelCors.process w parsed corsPreamble = corsBlock w text logs)
      as (logs & Hlogs & Hprocess).
    { unfold VercelCors.process, corsBlock, or_else. run. walk.
      destruct (company_text_or_falsy _ _ _ _ _ _ Hfmt) as [Tc|(c & ->)].
      - walk. eexists. split; [|reflexivity]. reflexivity.
      - destruct (truthy (VString c)); cbn [callStringMethod]; walk;
          (eexists; split; [|reflexivity]; reflexivity). }
    unfold try_catch at 1. rewrite Hprocess.
    change (outbound (snd (try_catch (corsBlock w text) VercelCors.failure logs))
            = [(endpoint w,
                basePayload (VNumber (Number (process_env w "TELEGRAM_CHAT_ID"))) text)]).
    rewrite cors_outbound, Hlogs. reflexivity.
Qed.

(** X17.  In the three handlers without CORS, a checked submission whose
    [company] is truthy but not a text (a number, an array, an object)
    cannot be formatted: with both secrets set it is answered with the
    generic failure, status 500, and no outbound request is made. *)
Theorem non_text_company_fails (w : World) parsed name email company message
    evP evT rqP rqC result :
  Posted parsed evP evT rqP rqC ->
  Checked parsed name email company message ->
  configured w ->
  truthy company = true -> isText company = false ->
  In result [NetlifyPlain.handler w evP []; NetlifyTopic.handler w evT [];
             VercelPlain.handler w rqP []] ->
  failsBeforeCall result.
Proof.
  intros Hp Hc [Htok Hchat] Tc Sc Hin. checked_facts Hc.
  destruct (company_not_text (dateTime w) name email company message Tc Sc) as (e & Hfmt).
  destruct Hp as [Pp [rawP [PtP PpP]] Tp [rawT [TtT TpT]] Vp Vb Cp Cb].
  unfold failsBeforeCall, genericFailure.
  simpl in Hin. destruct Hin as [<-|[<-|[<-|[]]]].
  - unfold NetlifyPlain.handler, failure. rewrite Pp, str_eqb_refl. run. walk.
    split_paths; do 2 eexists; repeat split; reflexivity.
  - unfold NetlifyTopic.handler, failure. rewrite Tp, str_eqb_refl. run. walk.
    split_paths; walk; do 2 eexists; repeat split; reflexivity.
  - subst parsed. unfold VercelPlain.handler, failure. rewrite Vp, str_eqb_refl. run. walk.
    split_paths; do 2 eexists; repeat split; reflexivity.
Qed.

(** X18.  The CORS-aware handler takes [substring] of [name], of [email]
    and of a truthy [company] for its log: a checked submission in which
    one of them is not a text is answered with the generic failure,
    status 500, and no outbound request is made, although the three other
    handlers accept a [name] that is not a text. *)
Theorem cors_non_text_field_fails (w : World) (req : VercelCors.Request)
    parsed name email company message :
  VercelCors.method req = utf16 "POST" ->
  requestCarries (VercelCors.req_body req) parsed ->
  Checked parsed name email company message ->
  validConfiguration w ->
  isText name = false \/ isText email = false
  \/ (truthy company = true /\ isText company = false) ->
  failsBeforeCall (VercelCors.handler w req []).
Proof.
  intros Hpost Hcarries Hc [[Htok Hchat] Hnum] Hbad. checked_facts Hc.
  rewrite (VercelCors_post w req parsed Hpost Hcarries).
  assert (exists e t, VercelCors.process w parsed corsPreamble = (Throw e, t)
                      /\ outbound t = []) as (e & t & E & O).
  { unfold VercelCors.process, or_else. run. walk.
    destruct name as [| | | |nameText| |]; cbn [callStringMethod]; walk;
      try (do 2 eexists; split; reflexivity).
    destruct email as [| | | |emailText| |]; cbn [callStringMethod]; walk;
      try (do 2 eexists; split; reflexivity).
    destruct Hbad as [Sn|[Se|[Tc Sc]]]; try discriminate.
    rewrite Tc.
    destruct company; try discriminate; cbn [callStringMethod]; walk;
      do 2 eexists; split; reflexivity. }
  rewrite (caught _ _ _ _ _ E).
  destruct (cors_failure_generic e t) as (resp & t' & F & G & _).
  exists resp, t'. split; [exact F|]. split; [exact G|].
  apply (f_equal snd) in F. cbn [snd] in F. subst t'.
  unfold VercelCors.failure. run. cbn [snd]. rewrite !outbound_app, O. reflexivity.
Qed.

End Checks.

(** ** What reaches the downstream API, and what comes back of its errors *)
Section Downstream.
Context `{Engine}.

(** X19.  Whatever the request, every outbound request of an invocation
    goes to the sendMessage address of the token, asks for parse mode
    HTML, and carries a text with exactly the less-than signs of the
    template, ten or twelve (the clock rendering taken free of that
    sign): nothing a submitter sends opens a tag in the message posted. *)
Theorem posted_text_keeps_template (w : World) hs result url payload :
  Invocation w hs result ->
  includes [60] (dateTime w) = false ->
  In (url, payload) (outbound (snd result)) ->
  url = endpoint w
  /\ lookup "parse_mode" payload = VString "HTML"
  /\ exists text,
       lookup "text" payload = VString text
       /\ (count_occ N.eq_dec text 60 = 10%nat \/ count_occ N.eq_dec text 60 = 12%nat).
Proof.
  intros I Hd Hin. destruct (invocation_ends w hs result I) as (resp & d & -> & En).
  cbn [snd] in Hin. destruct (ends_outbound w hs resp d En) as [_ F].
  rewrite Forall_forall in F. specialize (F _ Hin).
  destruct F as (chatId & text & extra & name & email & company & message & Q & Hfmt & _).
  injection Q as -> ->. split; [reflexivity|]. split; [reflexivity|].
  exists text. split; [reflexivity|].
  rewrite (formatted_lt_count _ _ _ _ _ _ Hfmt Hd). destruct (companyShown company); auto.
Qed.

(** X20.  When the network call throws, for a valid submission and a
    valid configuration: the three handlers without CORS put the message
    of the error in [details] in development mode, and the CORS-aware
    handler puts it there, behind a fixed prefix, whatever the mode. *)
Theorem thrown_error_in_details (w : World) parsed name email note company
    evP evT rqP rqC (e : error) :
  Posted parsed evP evT rqP rqC ->
  ValidSubmission parsed name email note company ->
  validConfiguration w ->
  (forall url requestBody, fetch w url requestBody = Throw e) ->
  (development w ->
   forall result,
     In result [NetlifyPlain.handler w evP []; NetlifyTopic.handler w evT [];
                VercelPlain.handler w rqP []] ->
     detailsOf result = VString (message e))
  /\ detailsOf (VercelCors.handler w rqC [])
     = VString (utf16 "Failed to call Telegram API: " ++ message e).
Proof.
  intros Hp Hv [Hc Hnum] Hf.
  destruct (formatTelegramMessage_text (dateTime w) name email note company) as (text & Hfmt).
  destruct Hp. split.
  - intros Hdev result Hin. unfold development in Hdev.
    assert (Hfw : forall url requestBody t,
               detailsOf (try_catch (let* r := fetch_json w url requestBody in report r)
                            (failure w) t) = VString (message e)).
    { intros url requestBody t. unfold fetch_json, failure. run. rewrite Hf, Hdev. reflexivity. }
    simpl in Hin. destruct Hin as [<-|[<-|[<-|[]]]].
    + erewrite NetlifyPlain_front by eassumption. apply Hfw.
    + erewrite NetlifyTopic_front by eassumption. apply Hfw.
    + subst parsed. erewrite VercelPlain_front by eassumption. apply Hfw.
  - destruct (VercelCors_front w rqC parsed name email note company text [])
      as (t1 & ->); auto.
    unfold corsBlock, VercelCors.sendTelegramMessage, fetch_json, VercelCors.failure.
    rewrite sendMessageUrl_env. run. rewrite Hf. reflexivity.
Qed.

(** X21.  When the downstream API answers with a falsy [ok], for a valid
    submission and a valid configuration: the error text is made of the
    [description] of the answer (or Unknown error), in the CORS-aware
    handler also of its [error_code] (or unknown); it is put in [details]
    by the three handlers without CORS in development mode, and by the
    CORS-aware one whatever the mode. *)
Theorem refusal_in_details (w : World) parsed name email note company
    evP evT rqP rqC (r ok description : value) (shown : str) :
  Posted parsed evP evT rqP rqC ->
  ValidSubmission parsed name email note company ->
  validConfiguration w ->
  downstreamReturns w r ->
  Get r "ok" = Normal ok -> truthy ok = false ->
  Get r "description" = Normal description ->
  ToString (or_else description (VString "Unknown error")) = Normal shown ->
  (development w ->
   forall result,
     In result [NetlifyPlain.handler w evP []; NetlifyTopic.handler w evT [];
                VercelPlain.handler w rqP []] ->
     detailsOf result = VString (utf16 "Telegram API error: " ++ shown))
  /\ (forall error_code code,
        Get r "error_code" = Normal error_code ->
        ToString (or_else error_code (VString "unknown")) = Normal code ->
        detailsOf (VercelCors.handler w rqC [])
        = VString (utf16 "Telegram API error: " ++ code ++ utf16 " - " ++ shown)).
Proof.
  intros Hp Hv [Hc Hnum] Hd Hok Tok Hdesc Hshown.
  destruct (formatTelegramMessage_text (dateTime w) name email note company) as (text & Hfmt).
  destruct Hp. split.
  - intros Hdev result Hin. unfold development in Hdev.
    assert (Hfw : forall url requestBody t,
               detailsOf (try_catch (let* r := fetch_json w url requestBody in report r)
                            (failure w) t)
               = VString (utf16 "Telegram API error: " ++ shown)).
    { intros url requestBody t. unfold fetch_json, report, failure. run.
      rewrite Hd. walk. reflexivity. }
    simpl in Hin. destruct Hin as [<-|[<-|[<-|[]]]].
    + erewrite NetlifyPlain_front by eassumption. apply Hfw.
    + erewrite NetlifyTopic_front by eassumption. apply Hfw.
    + subst parsed. erewrite VercelPlain_front by eassumption. apply Hfw.
  - intros error_code code Hcode Hshow.
    destruct (VercelCors_front w rqC parsed name email note company text [])
      as (t1 & ->); auto.
    unfold corsBlock, VercelCors.sendTelegramMessage, fetch_json, VercelCors.report,
      VercelCors.failure.
    rewrite sendMessageUrl_env. run. rewrite Hd. walk. reflexivity.
Qed.

End Downstream.

(** ** The further properties on concrete requests *)
Lemma demo_checked :
  Checked demoParsed (VString "Ada <Lovelace>") (VString "ada@example.org") (VString "  ")
    (VString "Tea & biscuits").
Proof. split; reflexivity. Defined.

Lemma odd_checked :
  Checked oddParsed (VNumber seven) (VString "ada@example.org") (VNumber year) (VString "Hi").
Proof. split; reflexivity. Defined.

Lemma odd_posted :
  Posted oddParsed (plainEvent "POST" oddSubmission) (topicEvent "POST" oddSubmission)
    (vercelRequest "POST" oddParsed) (corsRequest "POST" (VString oddSubmission)).
Proof.
  split; try reflexivity; exists oddSubmission; split; reflexivity.
Defined.

Lemma badEmail_posted :
  Posted badEmailParsed (plainEvent "POST" badEmailSubmission)
    (topicEvent "POST" badEmailSubmission) (vercelRequest "POST" badEmailParsed)
    (corsRequest "POST" (VString badEmailSubmission)).
Proof.
  split; try reflexivity; exists badEmailSubmission; split; reflexivity.
Defined.

Lemma accepted_email_one_at_witness :
  regex_test emailRegex "ada@example.org" = true
  /\ count_occ N.eq_dec (utf16 "ada@example.org") 64 = 1%nat.
Proof.
  split; [reflexivity|].
  apply (accepted_email_one_at "ada@example.org"). reflexivity.
Defined.

Lemma escapeHtml_injective_witness :
  escapeHtml (VString "Tea & biscuits") = escapeHtml (VString "Tea & biscuits")
  /\ utf16 "Tea & biscuits" = utf16 "Tea & biscuits".
Proof.
  split; [reflexivity|].
  apply (escapeHtml_injective "Tea & biscuits" "Tea & biscuits"). reflexivity.
Defined.

Lemma escapeHtml_any_value_witness :
  escapeHtml (VArray [VString "<b>"; VNumber seven]) = Normal (utf16 "&lt;b&gt;,7")
  /\ Escaped (utf16 "&lt;b&gt;,7").
Proof.
  split; [reflexivity|].
  apply (escapeHtml_any_value (VArray [VString "<b>"; VNumber seven]) "&lt;b&gt;,7").
  reflexivity.
Defined.

Lemma formatTelegramMessage_tag_count_witness :
  exists out,
    formatTelegramMessage "02.11.2026, 09:58" (VString "<<<") (VString "ada@example.org")
      (VString "<i>Analytical</i>") (VString "a < b") = Normal out
    /\ count_occ N.eq_dec out 60 = 12%nat.
Proof.
  eexists. split; [reflexivity|].
  apply (formatTelegramMessage_tag_count "02.11.2026, 09:58" (VString "<<<")
           (VString "ada@example.org") (VString "<i>Analytical</i>") (VString "a < b"));
    reflexivity.
Defined.

Lemma invocation_answers_witness :
  exists resp trace,
    VercelCors.handler (demoWorld production (Normal refused))
      (corsRequest "DELETE" VUndefined) [] = (Normal resp, trace)
    /\ In (statusCode resp) [200; 400; 405; 500]
    /\ headers resp = VercelCors.corsHeaders.
Proof.
  exact (invocation_answers (demoWorld production (Normal refused)) _ _
           (Invoke_cors _ (corsRequest "DELETE" VUndefined))).
Defined.

Lemma at_most_one_sendMessage_witness :
  (List.length
     (outbound (snd (NetlifyTopic.handler (demoWorld production (Normal refused))
                       (topicEvent "POST" demoSubmission) []))) <= 1)%nat.
Proof.
  apply (at_most_one_sendMessage (demoWorld production (Normal refused)) _ _
           (Invoke_topic _ (topicEvent "POST" demoSubmission))).
Defined.

Lemma success_only_when_downstream_ok_witness :
  statusCode (respond 200 [(utf16 "success", VBool true);
                           (utf16 "message", VString sentOk);
                           (utf16 "messageId", VNumber fortyTwo)]) = 200.
Proof.
  apply (success_only_when_downstream_ok
           (demoWorld production (Normal (accepted fortyTwo))) _ _
           (respond 200 [(utf16 "success", VBool true);
                         (utf16 "message", VString sentOk);
                         (utf16 "messageId", VNumber fortyTwo)])
           (Invoke_plain _ (plainEvent "POST" demoSubmission))).
  - reflexivity.
  - reflexivity.
Defined.

Lemma success_flag_matches_status_witness :
  let resp := respond 400 [(utf16 "success", VBool false);
                           (utf16 "error", VString invalidEmail)] in
  fst (VercelPlain.handler (demoWorld production (Normal refused))
         (vercelRequest "POST" badEmailParsed) []) = Normal resp
  /\ field resp "success" = VBool false.
Proof.
  intros resp. split; [reflexivity|].
  destruct (success_flag_matches_status (demoWorld production (Normal refused)) _ _ resp
              (Invoke_vercel _ (vercelRequest "POST" badEmailParsed)))
    as [(S & _)|(_ & F & _)].
  - reflexivity.
  - discriminate.
  - discriminate S.
  - exact F.
Defined.

Lemma specific_error_without_call_witness :
  outbound (snd (NetlifyPlain.handler (demoWorld noToken (Normal refused))
                   (plainEvent "POST" demoSubmission) [])) = [].
Proof.
  apply (specific_error_without_call (demoWorld noToken (Normal refused)) _ _
           (respond 500 [(utf16 "success", VBool false);
                         (utf16 "error", VString "Telegram bot not configured")])
           "Telegram bot not configured"
           (Invoke_plain _ (plainEvent "POST" demoSubmission))).
  - reflexivity.
  - reflexivity.
  - discriminate.
Defined.

Lemma invalid_email_rejected_witness :
  test emailRegex (VString "ada@example") = Normal false
  /\ rejectsEmail (NetlifyTopic.handler (demoWorld production (Normal refused))
                     (topicEvent "POST" badEmailSubmission) []).
Proof.
  split; [reflexivity|].
  apply (invalid_email_rejected (demoWorld production (Normal refused)) badEmailParsed
           (VString "Ada") (VString "ada@example") (VString "Hi")
           (plainEvent "POST" badEmailSubmission) (topicEvent "POST" badEmailSubmission)
           (vercelRequest "POST" badEmailParsed)
           (corsRequest "POST" (VString badEmailSubmission)) _ badEmail_posted);
    try reflexivity.
  right; left; reflexivity.
Defined.

Lemma cors_chat_id_must_be_number_witness :
  isNaN (Number (process_env (demoWorld channelName (Normal refused)) "TELEGRAM_CHAT_ID")) = true
  /\ exists resp trace,
       VercelCors.handler (demoWorld channelName (Normal refused))
         (corsRequest "POST" (VString demoSubmission)) [] = (Normal resp, trace)
       /\ statusCode resp = 500
       /\ outbound trace = [].
Proof.
  split; [reflexivity|].
  destruct (cors_chat_id_must_be_number (demoWorld channelName (Normal refused))
              (corsRequest "POST" (VString demoSubmission)) demoParsed _ _ _ _
              eq_refl (cors_body _ _ _ _ _ demo_posted) demo_checked)
    as (resp & trace & E & S & _ & O).
  - split; reflexivity.
  - reflexivity.
  - exists resp, trace. auto.
Defined.

Lemma cors_falsy_body_missing_fields_witness :
  rejectsMissing (VercelCors.handler (demoWorld production (Normal refused))
                    (corsRequest "POST" (VString "null")) []).
Proof.
  apply (cors_falsy_body_missing_fields (demoWorld production (Normal refused))
           (corsRequest "POST" (VString "null")) VNull); reflexivity.
Defined.

Lemma request_posted_witness :
  exists text,
    formatTelegramMessage "02.11.2026, 09:58" (VNumber seven) (VString "ada@example.org")
      VUndefined (VString "Hi") = Normal text
    /\ outbound (snd (NetlifyPlain.handler (demoWorld channelName (Normal refused))
                        (plainEvent "POST" (dq "{ 'name': 7, 'email': 'ada@example.org', 'message': 'Hi' }"))
                        []))
       = [(utf16 "https://api.telegram.org/bot12345:secret/sendMessage",
           basePayload (VString "@announcements") text)].
Proof.
  eexists. split; [reflexivity|].
  set (parsed := VObject [(utf16 "name", VNumber seven);
                          (utf16 "email", VString "ada@example.org");
                          (utf16 "message", VString "Hi")]).
  set (text := dq "{ 'name': 7, 'email': 'ada@example.org', 'message': 'Hi' }").
  refine (proj1 (request_posted (demoWorld channelName (Normal refused)) parsed
                   (VNumber seven) (VString "ada@example.org") VUndefined (VString "Hi") _
                   (plainEvent "POST" text) (topicEvent "POST" text)
                   (vercelRequest "POST" parsed) (corsRequest "POST" (VString text))
                   _ _ _ _)).
  - split; try reflexivity; exists text; split; reflexivity.
  - split; reflexivity.
  - split; reflexivity.
  - reflexivity.
Defined.

Lemma non_text_company_fails_witness :
  truthy (VNumber year) = true
  /\ failsBeforeCall (VercelPlain.handler (demoWorld production (Normal (accepted fortyTwo)))
                        (vercelRequest "POST" oddParsed) []).
Proof.
  split; [reflexivity|].
  apply (non_text_company_fails (demoWorld production (Normal (accepted fortyTwo))) oddParsed
           _ _ _ _ (plainEvent "POST" oddSubmission) (topicEvent "POST" oddSubmission)
           (vercelRequest "POST" oddParsed) (corsRequest "POST" (VString oddSubmission)) _
           odd_posted odd_checked).
  - split; reflexivity.
  - reflexivity.
  - reflexivity.
  - right; right; left; reflexivity.
Defined.

Lemma cors_non_text_field_fails_witness :
  isText (VNumber seven) = false
  /\ failsBeforeCall (VercelCors.handler (demoWorld production (Normal (accepted fortyTwo)))
                        (corsRequest "POST" (VString oddSubmission)) []).
Proof.
  split; [reflexivity|].
  apply (cors_non_text_field_fails (demoWorld production (Normal (accepted fortyTwo)))
           (corsRequest "POST" (VString oddSubmission)) oddParsed _ _ _ _
           eq_refl (cors_body _ _ _ _ _ odd_posted) odd_checked).
  - split; [split|]; reflexivity.
  - left. reflexivity.
Defined.

Lemma posted_text_keeps_template_witness :
  let w := demoWorld production (Normal (accepted fortyTwo)) in
  let q := hd ([], []) (outbound (snd (VercelCors.handler w
                                         (corsRequest "POST" (VString demoSubmission)) []))) in
  fst q = utf16 "https://api.telegram.org/bot12345:secret/sendMessage"
  /\ lookup "parse_mode" (snd q) = VString "HTML".
Proof.
  intros w q.
  destruct (posted_text_keeps_template w _ _ (fst q) (snd q)
              (Invoke_cors w (corsRequest "POST" (VString demoSubmission))))
    as (U & P & _).
  - reflexivity.
  - left. reflexivity.
  - split; [exact U|exact P].
Defined.

Lemma thrown_error_in_details_witness :
  detailsOf (NetlifyPlain.handler (demoWorld developmentMode (Throw (Error "fetch failed")))
               (plainEvent "POST" demoSubmission) [])
  = VString "fetch failed"
  /\ detailsOf (VercelCors.handler (demoWorld developmentMode (Throw (Error "fetch failed")))
                  (corsRequest "POST" (VString demoSubmission)) [])
     = VString "Failed to call Telegram API: fetch failed".
Proof.
  destruct (thrown_error_in_details (demoWorld developmentMode (Throw (Error "fetch failed")))
              demoParsed _ _ _ _ (plainEvent "POST" demoSubmission)
              (topicEvent "POST" demoSubmission) (vercelRequest "POST" demoParsed)
              (corsRequest "POST" (VString demoSubmission)) (Error "fetch failed")
              demo_posted demo_valid)
    as (A & B).
  - split; [split|]; reflexivity.
  - intros url requestBody. reflexivity.
  - split; [|exact B]. apply A; [reflexivity|]. left. reflexivity.
Defined.

Lemma refusal_in_details_witness :
  detailsOf (NetlifyTopic.handler (demoWorld developmentMode (Normal tooManyRequests))
               (topicEvent "POST" demoSubmission) [])
  = VString "Telegram API error: Too Many Requests"
  /\ detailsOf (VercelCors.handler (demoWorld developmentMode (Normal tooManyRequests))
                  (corsRequest "POST" (VString demoSubmission)) [])
     = VString "Telegram API error: 429 - Too Many Requests".
Proof.
  destruct (refusal_in_details (demoWorld developmentMode (Normal tooManyRequests))
              demoParsed _ _ _ _ (plainEvent "POST" demoSubmission)
              (topicEvent "POST" demoSubmission) (vercelRequest "POST" demoParsed)
              (corsRequest "POST" (VString demoSubmission)) tooManyRequests (VBool false)
              (VString "Too Many Requests") "Too Many Requests"
              demo_posted demo_valid)
    as (A & B); try reflexivity.
  - split; [split|]; reflexivity.
  - intros url requestBody. reflexivity.
  - split.
    + apply A; [reflexivity|]. right; left. reflexivity.
    + apply (B (VNumber (Int 429 : @number IntegerNumbers)) "429"); reflexivity.
Defined.

Lemma missing_fields_rejected_witness :
  rejectsMissing (VercelCors.handler (demoWorld production (Normal refused))
                    (corsRequest "POST" (VString (dq "{ 'name': 'Ada', 'email': '' }"))) []).
Proof.
  set (text := dq "{ 'name': 'Ada', 'email': '' }").
  set (parsed := VObject [(utf16 "name", VString "Ada"); (utf16 "email", VString "")]).
  apply (missing_fields_rejected (demoWorld production (Normal refused)) parsed
           (VString "Ada") (VString "") VUndefined
           (plainEvent "POST" text) (topicEvent "POST" text)
           (vercelRequest "POST" parsed) (corsRequest "POST" (VString text))).
  - split; try reflexivity; exists text; split; reflexivity.
  - reflexivity.
  - reflexivity.
  - reflexivity.
  - right; left; reflexivity.
  - right; right; right; left; reflexivity.
Defined.

Lemma cors_unparsable_witness :
  exists resp trace,
    VercelCors.handler (demoWorld production (Normal refused))
      (corsRequest "POST" (VString "{")) [] = (Normal resp, trace)
    /\ statusCode resp = 400.
Proof.
  destruct (cors_unparsable (demoWorld production (Normal refused))
              (corsRequest "POST" (VString "{")) "{" unexpectedToken)
    as (resp & trace & E & S & _); try reflexivity.
  exists resp, trace. split; [exact E|exact S].
Defined.

Lemma details_only_in_development_witness :
  process_env (demoWorld developmentMode (Normal refused)) "NODE_ENV" = VString "development".
Proof.
  set (w := demoWorld developmentMode (Normal refused)).
  apply (details_only_in_development w (plainEvent "POST" demoSubmission)
           (topicEvent "POST" demoSubmission) (vercelRequest "POST" demoParsed)
           (NetlifyPlain.handler w (plainEvent "POST" demoSubmission) [])
           (respond 500 [(utf16 "success", VBool false);
                         (utf16 "error", VString sendFailed);
                         (utf16 "details", VString "Telegram API error: x")])
           (snd (NetlifyPlain.handler w (plainEvent "POST" demoSubmission) []))).
  - left. reflexivity.
  - reflexivity.
  - reflexivity.
Defined.
